(** * Review aggregation and history listing of the code-review dashboard

    A shallow embedding of the two data-handling parts of the front end:

    - [ReviewDetail]: the hook [useReviewDetail] and the page
      [ReviewDetailPage] (the TypeScript listing that follows the setup notes
      in [frontend/README-SETUP.md]);
    - [History]: the page [HistoryPage] of
      [frontend/app/dashboard/history/page.tsx].

    Values that come back from the back end are untyped ([any]), so they are
    modelled as JavaScript values, with the operators the pages apply to them
    ([||], [?.], [===], spread, [typeof]) written out.  Exceptions are explicit
    results.  The three platform functions the pages call ([JSON.parse],
    [String.prototype.toLowerCase] and [new Date(..).getTime()]) are
    parameters of the definitions that use them. *)

From Stdlib Require Import ZArith List String Ascii Bool Lia.
From Stdlib Require Import Permutation Sorted DecimalString.
From Stdlib Require QArith.
Import ListNotations.

Set Warnings "-register-all".
Local Open Scope Z_scope.
Local Open Scope list_scope.

(** ** JavaScript values *)

Module Js.

(** JSON-shaped values.  A number is finite and is given by its exact value,
    a rational; [NaN] and the infinities do not come out of [JSON.parse]. *)
Inductive JsValue : Type :=
| JUndefined
| JNull
| JBool (b : bool)
| JNum (q : QArith_base.Q)
| JStr (s : string)
| JArr (elems : list JsValue)
| JObj (fields : list (string * JsValue)).

(** A number that is an integer. *)
Definition JInt (n : Z) : JsValue := JNum (QArith_base.inject_Z n).

(** A thrown exception, carried as its message. *)
Inductive Result (A : Type) : Type :=
| Ok (a : A)
| Throw (msg : string).
Arguments Ok {A} a.
Arguments Throw {A} msg.

Definition bind {A B : Type} (m : Result A) (k : A -> Result B) : Result B :=
  match m with
  | Ok a => k a
  | Throw e => Throw e
  end.

Notation "x <- m ;; k" := (bind m (fun x => k))
  (at level 61, m at next level, right associativity).

(** [try { m } catch { h }] *)
Definition try_catch {A : Type} (m : Result A) (h : string -> A) : A :=
  match m with
  | Ok a => a
  | Throw e => h e
  end.

(** [ToBoolean]: what [!v], [v || w], [v && w] and [if (v)] test. *)
Definition truthy (v : JsValue) : bool :=
  match v with
  | JUndefined | JNull => false
  | JBool b => b
  | JNum q => negb (QArith_base.Qnum q =? 0)
  | JStr s => negb (String.eqb s EmptyString)
  | JArr _ | JObj _ => true
  end.

(** [v || w] *)
Definition js_or (v w : JsValue) : JsValue := if truthy v then v else w.

(** [v && w] *)
Definition js_and (v w : JsValue) : JsValue := if truthy v then w else v.

Definition nullish (v : JsValue) : bool :=
  match v with
  | JUndefined | JNull => true
  | _ => false
  end.

(** [Array.isArray(v)] *)
Definition isArray (v : JsValue) : bool :=
  match v with
  | JArr _ => true
  | _ => false
  end.

(** [v === "lit"] for a string literal. *)
Definition eq_lit (v : JsValue) (lit : string) : bool :=
  match v with
  | JStr s => String.eqb s lit
  | _ => false
  end.

(** First binding of a key. *)
Fixpoint assoc (k : string) (fs : list (string * JsValue)) : option JsValue :=
  match fs with
  | [] => None
  | (k', v) :: rest => if String.eqb k k' then Some v else assoc k rest
  end.

(** [{ ...fs, k: v }]: an existing key keeps its place and takes the new
    value, a new key goes last. *)
Fixpoint setProp (k : string) (v : JsValue) (fs : list (string * JsValue))
  : list (string * JsValue) :=
  match fs with
  | [] => [(k, v)]
  | (k', v') :: rest =>
      if String.eqb k k' then (k, v) :: rest else (k', v') :: setProp k v rest
  end.

(** The canonical numeric key of an array index. *)
Definition index_key (i : nat) : string :=
  NilEmpty.string_of_uint (Nat.to_uint i).

Fixpoint indexed_from (i : nat) (l : list JsValue) : list (string * JsValue) :=
  match l with
  | [] => []
  | x :: rest => (index_key i, x) :: indexed_from (S i) rest
  end.

Fixpoint chars (s : string) : list JsValue :=
  match s with
  | EmptyString => []
  | String c rest => JStr (String c EmptyString) :: chars rest
  end.

(** Own enumerable properties: what [{ ...v }] copies. *)
Definition ownProps (v : JsValue) : list (string * JsValue) :=
  match v with
  | JObj fs => fs
  | JArr l => indexed_from 0 l
  | JStr s => indexed_from 0 (chars s)
  | _ => []
  end.

Definition or_undefined (o : option JsValue) : JsValue :=
  match o with
  | Some v => v
  | None => JUndefined
  end.

(** [v.k] on a value that is neither [null] nor [undefined].  Own properties
    and [length]; the methods of the prototypes are not data and are not
    looked up through this function. *)
Definition getProp (v : JsValue) (k : string) : JsValue :=
  match v with
  | JObj fs => or_undefined (assoc k fs)
  | JArr l =>
      if String.eqb k "length" then JInt (Z.of_nat (List.length l))
      else or_undefined (assoc k (indexed_from 0 l))
  | JStr s =>
      if String.eqb k "length" then JInt (Z.of_nat (String.length s))
      else or_undefined (assoc k (indexed_from 0 (chars s)))
  | _ => JUndefined
  end.

(** [v.k]: reading a property of [null] or [undefined] throws. *)
Definition getMember (v : JsValue) (k : string) : Result JsValue :=
  if nullish v then Throw "TypeError: cannot read properties of null or undefined"
  else Ok (getProp v k).

(** [v?.k] *)
Definition optGet (v : JsValue) (k : string) : JsValue :=
  if nullish v then JUndefined else getProp v k.

End Js.

(** ** What [fetch] gives back *)

Module Http.
Import Js.

(** A response: its status line and the outcome of [response.json()]
    ([None] when the body does not decode and the promise rejects). *)
Record Response : Type := {
  status : Z;
  statusText : string;
  json : option JsValue
}.

(** [response.ok]: the status is in the range 200-299. *)
Definition ok (r : Response) : bool :=
  (200 <=? status r) && (status r <=? 299).

(** What the promise of [fetch] settles to. *)
Inductive FetchResult : Type :=
| NetworkFailure (msg : string)
| Settled (r : Response).

(** [await response.json()] *)
Definition decodeJson (r : Response) : Result JsValue :=
  match json r with
  | Some v => Ok v
  | None => Throw "SyntaxError: the body is not valid JSON"
  end.

End Http.

(** ** The review detail view *)

Module ReviewDetail.
Import Js Http.
Local Open Scope string_scope.

(** [supabase.auth.getUser()]: [{ data: { user }, error: userError }]. *)
Record AuthResult : Type := {
  user : option string;
  userError : option string
}.

(** The state of the hook: [review], [loading], [error]. *)
Record DetailState : Type := {
  review : JsValue;
  loading : bool;
  error : option string
}.

Definition initialState : DetailState :=
  {| review := JNull; loading := true; error := None |}.

Section Platform.

(** [JSON.parse]: [None] when it throws a [SyntaxError]. *)
Variable JSON_parse : string -> option JsValue.

Definition JSON_parse_or_throw (s : string) : Result JsValue :=
  match JSON_parse s with
  | Some v => Ok v
  | None => Throw "SyntaxError"
  end.

(** The body of the inner [try]:
    [typeof reviewData.code_data.results === 'string'
       ? JSON.parse(reviewData.code_data.results)
       : reviewData.code_data.results] *)
Definition decodeResults (reviewData : JsValue) : Result JsValue :=
  code_data <- getMember reviewData "code_data" ;;
  results <- getMember code_data "results" ;;
  match results with
  | JStr s => JSON_parse_or_throw s
  | _ => Ok results
  end.

(** [let parsedResults = undefined;
     if (reviewData.code_data?.results) { try { parsedResults = ... } catch { } }] *)
Definition parseResults (reviewData : JsValue) : JsValue :=
  if truthy (optGet (getProp reviewData "code_data") "results")
  then try_catch (decodeResults reviewData) (fun _ => JUndefined)
  else JUndefined.

(** The object literal [detailedReview]. *)
Definition formatDetailedReview (reviewData parsedResults : JsValue) : JsValue :=
  JObj
    (setProp "detailed_issues"
       (js_or (getProp reviewData "detailed_issues")
          (js_or (optGet parsedResults "issues") (JArr [])))
    (setProp "metrics"
       (js_or (getProp reviewData "metrics")
          (js_or (optGet parsedResults "metrics") JUndefined))
    (setProp "ai_analysis"
       (js_or (getProp reviewData "ai_analysis")
          (js_or (optGet parsedResults "analysis") JUndefined))
    (setProp "code"
       (js_or (optGet (getProp reviewData "code_data") "code") (JStr ""))
    (ownProps reviewData))))).

(** The outer [try] of [fetchReview], up to [setReview(detailedReview)].
    The logging between the steps, with its own [try], sets no state. *)
Definition fetchReviewBody (auth : AuthResult) (resp : FetchResult)
  : Result JsValue :=
  _ <- match userError auth, user auth with
       | Some e, _ => Throw e
       | None, None => Throw "User not found"
       | None, Some u => Ok u
       end ;;
  match resp with
  | NetworkFailure msg => Throw msg
  | Settled response =>
      if negb (ok response)
      then Throw ("Failed to fetch review: " ++ statusText response)
      else
        reviewData <- decodeJson response ;;
        if negb (truthy reviewData) then Throw "Review not found"
        else Ok (formatDetailedReview reviewData (parseResults reviewData))
  end.

(** [fetchReview]: [try { ... setReview } catch { setError } finally
    { setLoading(false) }]. *)
Definition fetchReview (st : DetailState) (auth : AuthResult)
  (resp : FetchResult) : DetailState :=
  match fetchReviewBody auth resp with
  | Ok detailedReview =>
      {| review := detailedReview; loading := false; error := error st |}
  | Throw _ =>
      {| review := review st; loading := false;
         error := Some "Failed to fetch review details" |}
  end.

(** The hook after its effect has run: nothing is fetched for an empty id. *)
Definition useReviewDetail (id : string) (auth : AuthResult)
  (resp : FetchResult) : DetailState :=
  if String.eqb id "" then initialState
  else fetchReview initialState auth resp.

End Platform.

(** The four keys the object literal writes after the spread. *)
Definition mergedKeys : list string :=
  ["code"; "ai_analysis"; "metrics"; "detailed_issues"].

(** The fields of the interface [Review]. *)
Definition reviewFields : list string :=
  ["id"; "user_id"; "title"; "description"; "language"; "review_type";
   "status"; "score"; "created_at"; "completed_at"; "improvement_rate";
   "lines_of_code"; "issues"; "suggestions"; "github_repo"; "github_path"].

(** A fetch that went through: a signed-in user, a 2xx response whose body
    decodes to a truthy value. *)
Definition delivered (auth : AuthResult) (r : Response) (rd : JsValue) : Prop :=
  userError auth = None /\ user auth <> None
  /\ ok r = true /\ json r = Some rd /\ truthy rd = true.

(** [reviewData.code_data?.results], the embedded payload before decoding. *)
Definition embeddedResults (reviewData : JsValue) : JsValue :=
  optGet (getProp reviewData "code_data") "results".

(** The three field groups that have a linked record and a place in the
    embedded payload: the key of the linked record in the response and in
    the merged review, the key in the payload, and the value that stands
    for "unresolved". *)
Inductive FieldGroup : Type := Analysis | Metrics | Issues.

Definition linkedKey (g : FieldGroup) : string :=
  match g with
  | Analysis => "ai_analysis"
  | Metrics => "metrics"
  | Issues => "detailed_issues"
  end.

Definition payloadKey (g : FieldGroup) : string :=
  match g with
  | Analysis => "analysis"
  | Metrics => "metrics"
  | Issues => "issues"
  end.

Definition unresolved (g : FieldGroup) : JsValue :=
  match g with
  | Analysis | Metrics => JUndefined
  | Issues => JArr []
  end.

(** *** The page *)

Inductive StatusIcon : Type :=
| CheckCircleGreen | ClockYellow | XCircleRed | ClockSlate.

(** [getStatusIcon] *)
Definition getStatusIcon (status : JsValue) : StatusIcon :=
  if eq_lit status "completed" then CheckCircleGreen
  else if eq_lit status "pending" then ClockYellow
  else if eq_lit status "failed" then XCircleRed
  else ClockSlate.

Inductive BadgeColor : Type :=
| BadgeGreen | BadgeYellow | BadgeRed | BadgeSlate.

(** [getStatusColor] *)
Definition getStatusColor (status : JsValue) : BadgeColor :=
  if eq_lit status "completed" then BadgeGreen
  else if eq_lit status "pending" then BadgeYellow
  else if eq_lit status "failed" then BadgeRed
  else BadgeSlate.

(** The parts of the page whose mounting depends on the status, the score
    or a resolved field group, by the comment that introduces each in the
    listing, and the parts that are always there: the header, the code
    display, the button to submit a new review and the review details, which
    are the shell.  What a mounted part prints from the fields of the review
    (the description, the GitHub link, the counts of lines and issues, the
    category scores) is inside the part and not described here. *)
Inductive Part : Type :=
| Header (icon : StatusIcon) (badge : BadgeColor) (status : JsValue)
| ScoreOverview
| CodeDisplay (code : JsValue)
| AiAnalysisCard
| PendingState
| FailedState
| QuickStatsScore
| QuickStatsPending
| QuickStatsFailed
| ActionsCompleted
| ActionsSubmitNew
| ReviewDetails.

Inductive View : Type :=
| LoadingSkeleton
| ErrorAlert (msg : string)
| DetailView (parts : list Part).

(** [{cond && <Part />}]: the part is mounted when the condition is
    truthy. *)
Definition mount (cond : JsValue) (p : Part) : list Part :=
  if truthy cond then [p] else [].

Definition showScoreOverview (review : JsValue) : JsValue :=
  js_and (JBool (eq_lit (getProp review "status") "completed"))
    (js_and (getProp review "score") (getProp review "ai_analysis")).

Definition showAiAnalysis (review : JsValue) : JsValue :=
  js_and (JBool (eq_lit (getProp review "status") "completed"))
    (js_and (getProp review "ai_analysis") (getProp review "detailed_issues")).

Definition showPending (review : JsValue) : JsValue :=
  JBool (eq_lit (getProp review "status") "pending").

Definition showFailed (review : JsValue) : JsValue :=
  JBool (eq_lit (getProp review "status") "failed").

Definition showQuickStatsScore (review : JsValue) : JsValue :=
  js_and (JBool (eq_lit (getProp review "status") "completed"))
    (getProp review "score").

Definition pageParts (review : JsValue) : list Part :=
  [Header (getStatusIcon (getProp review "status"))
          (getStatusColor (getProp review "status"))
          (getProp review "status")]
  ++ mount (showScoreOverview review) ScoreOverview
  ++ [CodeDisplay (getProp review "code")]
  ++ mount (showAiAnalysis review) AiAnalysisCard
  ++ mount (showPending review) PendingState
  ++ mount (showFailed review) FailedState
  ++ mount (showQuickStatsScore review) QuickStatsScore
  ++ mount (showPending review) QuickStatsPending
  ++ mount (showFailed review) QuickStatsFailed
  ++ mount (JBool (eq_lit (getProp review "status") "completed")) ActionsCompleted
  ++ [ActionsSubmitNew; ReviewDetails].

Definition error_truthy (e : option string) : bool :=
  match e with
  | Some msg => negb (String.eqb msg "")
  | None => false
  end.

(** [ReviewDetailPage], from the state the hook returns: the branch it
    takes and the parts that its conditions select.  The expressions inside
    the selected parts, which can throw, are evaluated in [DetailRender]. *)
Definition ReviewDetailPage (st : DetailState) : View :=
  if loading st then LoadingSkeleton
  else if error_truthy (error st) || negb (truthy (review st))
  then ErrorAlert (match error st with
                   | Some msg => if String.eqb msg "" then "Review not found" else msg
                   | None => "Review not found"
                   end)
  else DetailView (pageParts (review st)).

End ReviewDetail.

(** ** The history view *)

Module History.
Import Js Http.
Local Open Scope string_scope.

(** Arrays that are sorted in place have an identity: the store maps an
    address to the elements of the array that lives there. *)
Definition Ref : Type := nat.
Definition Heap : Type := list (list JsValue).

Definition alloc (l : list JsValue) (h : Heap) : Ref * Heap :=
  (List.length h, (h ++ [l])%list).

Fixpoint store (r : Ref) (l : list JsValue) (h : Heap) : Heap :=
  match h, r with
  | [], _ => []
  | _ :: rest, O => l :: rest
  | a :: rest, S r' => a :: store r' l rest
  end.

Definition deref (r : Ref) (h : Heap) : Result (list JsValue) :=
  match nth_error h r with
  | Some l => Ok l
  | None => Throw "no array at this address"
  end.

(** The [useState] cells of [HistoryPage]. *)
Record HistoryState : Type := {
  userId : option string;
  history : Ref;
  loading : bool;
  searchQuery : string;
  languageFilter : string;
  sortBy : string
}.

(** The first render: [useState<any[]>([])] allocates the empty array. *)
Definition initialHeap : Heap := [[]].
Definition initialState : HistoryState :=
  {| userId := None; history := O; loading := true;
     searchQuery := ""; languageFilter := "all"; sortBy := "newest" |}.

(** The first [.then]: [if (!res.ok) throw ...; return res.json()]. *)
Definition checkedJson (resp : FetchResult) : Result JsValue :=
  match resp with
  | NetworkFailure msg => Throw msg
  | Settled res =>
      if negb (ok res)
      then Throw ("HTTP error! status: "
                  ++ NilZero.string_of_int (Z.to_int (status res)))
      else decodeJson res
  end.

(** The argument of [setHistory]: the second [.then], or the [.catch]. *)
Definition receivedRows (resp : FetchResult) : list JsValue :=
  match checkedJson resp with
  | Ok data =>
      if negb (truthy data) || negb (isArray data) then []
      else match data with
           | JArr rows => rows
           | _ => []
           end
  | Throw _ => []
  end.

(** The fetch effect: it does not run before the user id is known; its
    [.finally] clears [loading]. *)
Definition fetchHistory (st : HistoryState) (h : Heap) (resp : FetchResult)
  : HistoryState * Heap :=
  match userId st with
  | None => (st, h)
  | Some _ =>
      let (r, h') := alloc (receivedRows resp) h in
      ({| userId := userId st; history := r; loading := false;
          searchQuery := searchQuery st; languageFilter := languageFilter st;
          sortBy := sortBy st |}, h')
  end.

(** [s.includes(t)] *)
Fixpoint includes (s t : string) : bool :=
  if String.prefix t s then true
  else match s with
       | EmptyString => false
       | String _ rest => includes rest t
       end.

(** [a || b] where the operands are booleans or [undefined]; the result is
    only ever tested. *)
Definition orElse (a b : Result bool) : Result bool :=
  x <- a ;; if (x : bool) then Ok true else b.

Fixpoint filterM {A : Type} (p : A -> Result bool) (l : list A)
  : Result (list A) :=
  match l with
  | [] => Ok []
  | x :: rest =>
      keep <- p x ;;
      kept <- filterM p rest ;;
      Ok (if (keep : bool) then x :: kept else kept)
  end.

(** [Array.prototype.sort(cmp)] is stable.  Insertion from the right end,
    each element going in front of the first one it does not have to follow,
    is a stable sort; with a comparator that orders the elements
    consistently every stable sort returns the same array.  The comparator
    of the page is consistent when every [created_at] is a valid date.  With
    an invalid date it is not, and the order that an engine then returns
    depends on its algorithm: this function does not describe it, and what
    is proved about the order of the rows assumes valid dates. *)
Fixpoint insertRow (cmp : JsValue -> JsValue -> Result Z) (x : JsValue)
  (sorted : list JsValue) : Result (list JsValue) :=
  match sorted with
  | [] => Ok [x]
  | y :: rest =>
      c <- cmp x y ;;
      if (c <=? 0)%Z then Ok (x :: sorted)
      else (placed <- insertRow cmp x rest ;; Ok (y :: placed))
  end.

Fixpoint sortRows (cmp : JsValue -> JsValue -> Result Z) (l : list JsValue)
  : Result (list JsValue) :=
  match l with
  | [] => Ok []
  | x :: rest => sorted <- sortRows cmp rest ;; insertRow cmp x sorted
  end.

(** [arr.filter(p)] builds a new array. *)
Definition array_filter (p : JsValue -> Result bool) (r : Ref) (h : Heap)
  : Result (Ref * Heap) :=
  l <- deref r h ;;
  kept <- filterM p l ;;
  Ok (alloc kept h).

(** [arr.sort(cmp)] sorts the array it is called on and returns it. *)
Definition array_sort (cmp : JsValue -> JsValue -> Result Z) (r : Ref)
  (h : Heap) : Result (Ref * Heap) :=
  l <- deref r h ;;
  sorted <- sortRows cmp l ;;
  Ok (r, store r sorted h).

Section Platform.

(** [String.prototype.toLowerCase] *)
Variable toLowerCase : string -> string.

(** [new Date(v).getTime()]; [None] is [NaN] (an invalid date). *)
Variable Date_getTime : JsValue -> option Z.

(** [item.field?.toLowerCase().includes(searchQuery.toLowerCase())]:
    [undefined] (read as false) when the field is missing; a field that is
    neither missing nor a string has no [toLowerCase] to call. *)
Definition fieldIncludes (item : JsValue) (field q : string) : Result bool :=
  v <- getMember item field ;;
  match v with
  | JUndefined | JNull => Ok false
  | JStr s => Ok (includes (toLowerCase s) (toLowerCase q))
  | _ => Throw "TypeError: toLowerCase is not a function"
  end.

Definition matchesSearch (q : string) (item : JsValue) : Result bool :=
  if String.eqb q "" then Ok true
  else orElse (fieldIncludes item "language" q)
         (orElse (fieldIncludes item "title" q)
            (fieldIncludes item "code" q)).

Definition matchesLanguage (lf : string) (item : JsValue) : Result bool :=
  if String.eqb lf "all" then Ok true
  else
    v <- getMember item "language" ;;
    match v with
    | JUndefined | JNull => Ok false
    | JStr s => Ok (String.eqb (toLowerCase s) (toLowerCase lf))
    | _ => Throw "TypeError: toLowerCase is not a function"
    end.

(** The callback of [.filter]. *)
Definition keepRow (st : HistoryState) (item : JsValue) : Result bool :=
  ms <- matchesSearch (searchQuery st) item ;;
  ml <- matchesLanguage (languageFilter st) item ;;
  Ok (ms && ml).

(** [new Date(row.created_at).getTime()] *)
Definition createdAt (row : JsValue) : Result (option Z) :=
  created_at <- getMember row "created_at" ;;
  Ok (Date_getTime created_at).

(** The callback of [.sort]; a [NaN] difference counts as [+0] there. *)
Definition compareRows (by_ : string) (a b : JsValue) : Result Z :=
  aDate <- createdAt a ;;
  bDate <- createdAt b ;;
  Ok match aDate, bDate with
     | Some x, Some y => if String.eqb by_ "newest" then y - x else x - y
     | _, _ => 0
     end.

(** The pipeline on the elements alone. *)
Definition filterSort (st : HistoryState) (rows : list JsValue)
  : Result (list JsValue) :=
  kept <- filterM (keepRow st) rows ;;
  sortRows (compareRows (sortBy st)) kept.

(** [const filtered = history.filter(...).sort(...)] *)
Definition filtered (st : HistoryState) (h : Heap) : Result (Ref * Heap) :=
  fh <- array_filter (keepRow st) (history st) h ;;
  array_sort (compareRows (sortBy st)) (fst fh) (snd fh).

(** What the page shows: the loading line, or one card per row of
    [filtered] and, when there is none, the "No matching reviews found."
    card.  A card is keyed by [item.id || idx]. *)
Inductive View : Type :=
| LoadingView
| ListView (cards : list (JsValue * JsValue)) (noMatches : bool).

Fixpoint cardsFrom (idx : nat) (rows : list JsValue)
  : Result (list (JsValue * JsValue)) :=
  match rows with
  | [] => Ok []
  | item :: rest =>
      id <- getMember item "id" ;;
      cards <- cardsFrom (S idx) rest ;;
      Ok ((js_or id (JInt (Z.of_nat idx)), item) :: cards)
  end.

Definition HistoryPage (st : HistoryState) (h : Heap) : Result (View * Heap) :=
  fh <- filtered st h ;;
  if loading st then Ok (LoadingView, snd fh)
  else
    rows <- deref (fst fh) (snd fh) ;;
    cards <- cardsFrom 0 rows ;;
    Ok (ListView cards
          (negb (loading st) && (List.length rows =? 0)%nat), snd fh).

End Platform.

End History.

(** ** Instances of the platform functions

    The theorems hold for every [JSON.parse], [toLowerCase] and
    [Date.getTime].  To run the definitions on concrete responses this module
    gives one of each.  They agree with the platform on the inputs of the
    samples below and are narrower elsewhere: the reader of JSON texts
    refuses numbers with a fraction or an exponent and [\u] escapes,
    lower-casing touches the letters A-Z only, and a creation date must be a
    number of milliseconds. *)

Module Platform.
Import Js.
Local Open Scope char_scope.

Definition dquote : ascii := "034".
Definition backslash : ascii := "092".

Inductive token : Type :=
| TLBrace | TRBrace | TLBracket | TRBracket | TColon | TComma
| TString (s : string)
| TNumber (n : Z)
| TTrue | TFalse | TNull.

Definition is_ws (c : ascii) : bool :=
  Ascii.eqb c " " || Ascii.eqb c "009" || Ascii.eqb c "010" || Ascii.eqb c "013".

Definition is_digit (c : ascii) : bool :=
  (48 <=? nat_of_ascii c)%nat && (nat_of_ascii c <=? 57)%nat.

Definition digit_value (c : ascii) : Z := Z.of_nat (nat_of_ascii c - 48).

(** The character an escape stands for; [\u] escapes are not read. *)
Definition unescape (c : ascii) : option ascii :=
  if Ascii.eqb c dquote then Some dquote
  else if Ascii.eqb c backslash then Some backslash
  else if Ascii.eqb c "/" then Some "/"
  else if Ascii.eqb c "b" then Some "008"
  else if Ascii.eqb c "f" then Some "012"
  else if Ascii.eqb c "n" then Some "010"
  else if Ascii.eqb c "r" then Some "013"
  else if Ascii.eqb c "t" then Some "009"
  else None.

(** The characters of a string literal after its opening quote. *)
Fixpoint lex_string (cs : list ascii) : option (string * list ascii) :=
  match cs with
  | [] => None
  | c :: rest =>
      if Ascii.eqb c dquote then Some (EmptyString, rest)
      else if Ascii.eqb c backslash then
        match rest with
        | e :: rest' =>
            match unescape e, lex_string rest' with
            | Some ch, Some (s, r) => Some (String ch s, r)
            | _, _ => None
            end
        | [] => None
        end
      else if (nat_of_ascii c <? 32)%nat then None
      else match lex_string rest with
           | Some (s, r) => Some (String c s, r)
           | None => None
           end
  end.

Fixpoint lex_digits (acc : Z) (cs : list ascii) : Z * list ascii :=
  match cs with
  | c :: rest => if is_digit c then lex_digits (10 * acc + digit_value c) rest
                 else (acc, cs)
  | [] => (acc, cs)
  end.

(** An integer without a leading zero; a fraction or an exponent is not
    read. *)
Definition lex_natural (cs : list ascii) : option (Z * list ascii) :=
  match cs with
  | c :: rest =>
      if Ascii.eqb c "0" then
        match rest with
        | d :: _ => if is_digit d || Ascii.eqb d "." || Ascii.eqb d "e"
                       || Ascii.eqb d "E" then None else Some (0, rest)
        | [] => Some (0, rest)
        end
      else if is_digit c then
        let (n, r) := lex_digits 0 cs in
        match r with
        | d :: _ => if Ascii.eqb d "." || Ascii.eqb d "e" || Ascii.eqb d "E"
                    then None else Some (n, r)
        | [] => Some (n, r)
        end
      else None
  | [] => None
  end.

Definition push (t : token) (o : option (list token)) : option (list token) :=
  match o with
  | Some ts => Some (t :: ts)
  | None => None
  end.

Fixpoint lex (fuel : nat) (cs : list ascii) : option (list token) :=
  match fuel with
  | O => None
  | S fuel' =>
      match cs with
      | [] => Some []
      | "{" :: rest => push TLBrace (lex fuel' rest)
      | "}" :: rest => push TRBrace (lex fuel' rest)
      | "[" :: rest => push TLBracket (lex fuel' rest)
      | "]" :: rest => push TRBracket (lex fuel' rest)
      | ":" :: rest => push TColon (lex fuel' rest)
      | "," :: rest => push TComma (lex fuel' rest)
      | "t" :: "r" :: "u" :: "e" :: rest => push TTrue (lex fuel' rest)
      | "f" :: "a" :: "l" :: "s" :: "e" :: rest => push TFalse (lex fuel' rest)
      | "n" :: "u" :: "l" :: "l" :: rest => push TNull (lex fuel' rest)
      | "-" :: rest =>
          match lex_natural rest with
          | Some (n, r) => push (TNumber (- n)) (lex fuel' r)
          | None => None
          end
      | c :: rest =>
          if is_ws c then lex fuel' rest
          else if Ascii.eqb c dquote then
            match lex_string rest with
            | Some (s, r) => push (TString s) (lex fuel' r)
            | None => None
            end
          else match lex_natural cs with
               | Some (n, r) => push (TNumber n) (lex fuel' r)
               | None => None
               end
      end
  end.

(** A later member with the same key replaces the value of the earlier one. *)
Definition object_of (members : list (string * JsValue)) : JsValue :=
  JObj (fold_left (fun acc kv => setProp (fst kv) (snd kv) acc) members []).

Fixpoint parse_value (fuel : nat) (ts : list token)
  : option (JsValue * list token) :=
  match fuel with
  | O => None
  | S fuel' =>
      match ts with
      | TNull :: r => Some (JNull, r)
      | TTrue :: r => Some (JBool true, r)
      | TFalse :: r => Some (JBool false, r)
      | TNumber n :: r => Some (JInt n, r)
      | TString s :: r => Some (JStr s, r)
      | TLBracket :: TRBracket :: r => Some (JArr [], r)
      | TLBracket :: r =>
          match parse_elements fuel' r with
          | Some (l, r') => Some (JArr l, r')
          | None => None
          end
      | TLBrace :: TRBrace :: r => Some (JObj [], r)
      | TLBrace :: r =>
          match parse_members fuel' r with
          | Some (m, r') => Some (object_of m, r')
          | None => None
          end
      | _ => None
      end
  end
with parse_elements (fuel : nat) (ts : list token)
  : option (list JsValue * list token) :=
  match fuel with
  | O => None
  | S fuel' =>
      match parse_value fuel' ts with
      | Some (v, TComma :: r) =>
          match parse_elements fuel' r with
          | Some (l, r') => Some (v :: l, r')
          | None => None
          end
      | Some (v, TRBracket :: r) => Some ([v], r)
      | _ => None
      end
  end
with parse_members (fuel : nat) (ts : list token)
  : option (list (string * JsValue) * list token) :=
  match fuel with
  | O => None
  | S fuel' =>
      match ts with
      | TString k :: TColon :: r =>
          match parse_value fuel' r with
          | Some (v, TComma :: r') =>
              match parse_members fuel' r' with
              | Some (m, r'') => Some ((k, v) :: m, r'')
              | None => None
              end
          | Some (v, TRBrace :: r') => Some ([(k, v)], r')
          | _ => None
          end
      | _ => None
      end
  end.

(** An instance of [JSON.parse].  Every round of the lexer consumes a
    character and every two nested calls of the parser a token, so the fuel
    given here is never used up. *)
Definition JSON_parse (s : string) : option JsValue :=
  match lex (S (String.length s)) (list_ascii_of_string s) with
  | Some ts =>
      match parse_value (2 * List.length ts + 2) ts with
      | Some (v, []) => Some v
      | _ => None
      end
  | None => None
  end.

(** A JSON text written with single quotes standing for the double quotes. *)
Fixpoint json_text (s : string) : string :=
  match s with
  | EmptyString => EmptyString
  | String c rest =>
      String (if Ascii.eqb c "'" then dquote else c) (json_text rest)
  end.

(** An instance of [toLowerCase]: the letters A-Z. *)
Definition lower (c : ascii) : ascii :=
  if (65 <=? nat_of_ascii c)%nat && (nat_of_ascii c <=? 90)%nat
  then ascii_of_nat (nat_of_ascii c + 32) else c.

Fixpoint toLowerCase (s : string) : string :=
  match s with
  | EmptyString => EmptyString
  | String c rest => String (lower c) (toLowerCase rest)
  end.

(** An instance of [new Date(v).getTime()] for time stamps that are numbers
    of milliseconds within the range of [Date], of which the whole
    milliseconds count; [null] is the epoch and [undefined] is invalid, as
    in JavaScript.  It reads no date text: it is for rows whose [created_at]
    is a number. *)
Definition Date_getTime (v : JsValue) : option Z :=
  match v with
  | JNum q =>
      if (Z.abs (QArith_base.Qnum q)
          <=? 8640000000000000 * Zpos (QArith_base.Qden q))%Z
      then Some (Z.quot (QArith_base.Qnum q) (Zpos (QArith_base.Qden q)))
      else None
  | JNull => Some 0
  | JBool b => Some (if b then 1 else 0)
  | _ => None
  end.

End Platform.

(** ** The documented contract *)

Module Contract.
Import Js Http.
Local Open Scope string_scope.

(** [a ?? b] *)
Definition nullish_coalesce (a b : JsValue) : JsValue :=
  if nullish a then b else a.

(** The resolution rule as the design notes word it:
    [resolveFieldGroup(primary, fallback) = primary ?? fallback ?? unresolved]. *)
Definition resolveFieldGroup (unresolved primary fallback : JsValue) : JsValue :=
  nullish_coalesce primary (nullish_coalesce fallback unresolved).

(** A row of the [reviews] table joined with its secondary records, as the
    review end point sends it. *)
Record ReviewRecord : Type := {
  id : string;
  user_id : string;
  joined : JsValue
}.

Inductive AggregateResult : Type :=
| Aggregated (body : JsValue)
| NotFound
| Forbidden.

(** Modelled from the spec: step 1 of [aggregate(reviewId, callerUserId)],
    the look-up of the review and the ownership check of the review end
    point.  The back end that serves [/dashboard/review/{id}] is not among
    the sources; only its consumer [useReviewDetail] is, which performs the
    merge of steps 2-6 on the body of a successful response. *)
Definition aggregate (reviews : list ReviewRecord)
  (reviewId callerUserId : string) : AggregateResult :=
  match find (fun r => String.eqb (id r) reviewId) reviews with
  | None => NotFound
  | Some r =>
      if String.eqb (user_id r) callerUserId then Aggregated (joined r)
      else Forbidden
  end.

(** Modelled from the spec: the fields of the response body, none for a
    failure (section 8: "returns Forbidden with no fields in the response
    body"). *)
Definition responseFields (res : AggregateResult) : list (string * JsValue) :=
  match res with
  | Aggregated body => ownProps body
  | NotFound | Forbidden => []
  end.

(** Modelled from the spec: the status line of each outcome (section 6:
    200, 404, 403) as the consumer receives it. *)
Definition respond (res : AggregateResult) : FetchResult :=
  match res with
  | Aggregated body =>
      Settled {| status := 200; statusText := "OK"; json := Some body |}
  | NotFound =>
      Settled {| status := 404; statusText := "Not Found";
                 json := Some (JObj (responseFields NotFound)) |}
  | Forbidden =>
      Settled {| status := 403; statusText := "Forbidden";
                 json := Some (JObj (responseFields Forbidden)) |}
  end.

(** The query is, case-insensitively, a substring of the text. *)
Definition ci_substring (toLowerCase : string -> string) (q text : string)
  : Prop :=
  exists before after : string,
    toLowerCase text = before ++ toLowerCase q ++ after.

(** The query occurs in the row's language, title or code. *)
Definition matchesQuery (toLowerCase : string -> string) (q : string)
  (row : JsValue) : Prop :=
  exists field text,
    In field ["language"; "title"; "code"]
    /\ getProp row field = JStr text
    /\ ci_substring toLowerCase q text.

(** A row of the history as section 4.3 lists it: an object whose
    [language] and [title] are texts and whose [code], when there is one, is
    a text. *)
Definition summaryRow (row : JsValue) : Prop :=
  nullish row = false
  /\ (exists s, getProp row "language" = JStr s)
  /\ (exists s, getProp row "title" = JStr s)
  /\ (nullish (getProp row "code") = true
      \/ exists s, getProp row "code" = JStr s).

(** A decision procedure for [matchesQuery]. *)
Definition fieldHas (toLowerCase : string -> string) (q : string)
  (row : JsValue) (field : string) : bool :=
  match getProp row field with
  | JStr text => History.includes (toLowerCase text) (toLowerCase q)
  | _ => false
  end.

Definition queryOccurs (toLowerCase : string -> string) (q : string)
  (row : JsValue) : bool :=
  fieldHas toLowerCase q row "language"
  || fieldHas toLowerCase q row "title"
  || fieldHas toLowerCase q row "code".

(** The instant a row was created, when its date is valid. *)
Definition timeOf (Date_getTime : JsValue -> option Z) (row : JsValue)
  : option Z :=
  match History.createdAt Date_getTime row with
  | Ok (Some t) => Some t
  | _ => None
  end.

Definition timeIs (Date_getTime : JsValue -> option Z) (t : Z)
  (row : JsValue) : bool :=
  match timeOf Date_getTime row with
  | Some t' => (t' =? t)%Z
  | None => false
  end.

(** The keys by which [newest] and [oldest] order rows with valid dates. *)
Definition ascending (Date_getTime : JsValue -> option Z) (row : JsValue) : Z :=
  match timeOf Date_getTime row with
  | Some t => t
  | None => 0
  end.

Definition descending (Date_getTime : JsValue -> option Z) (row : JsValue) : Z :=
  - ascending Date_getTime row.

(** The key that a value of [sortBy] orders by. *)
Definition keyOf (Date_getTime : JsValue -> option Z) (by_ : string)
  : JsValue -> Z :=
  if String.eqb by_ "newest" then descending Date_getTime
  else ascending Date_getTime.

(** The comparator lets [x] stay in front of [y]. *)
Definition inOrder (Date_getTime : JsValue -> option Z) (by_ : string)
  (x y : JsValue) : Prop :=
  exists c, History.compareRows Date_getTime by_ x y = Ok c /\ (c <= 0)%Z.

(** A response of the history end point that is not a list of rows. *)
Definition notAList (resp : FetchResult) : Prop :=
  match resp with
  | NetworkFailure _ => True
  | Settled res =>
      ok res = false
      \/ json res = None
      \/ exists data, json res = Some data /\ isArray data = false
  end.

End Contract.

(** ** Stable sorting by a key *)

Module ByKey.
Import Js.

Section Key.
Variable key : JsValue -> Z.

Fixpoint insertByKey (x : JsValue) (sorted : list JsValue) : list JsValue :=
  match sorted with
  | [] => [x]
  | y :: rest =>
      if key x <=? key y then x :: sorted else y :: insertByKey x rest
  end.

Fixpoint sortByKey (l : list JsValue) : list JsValue :=
  match l with
  | [] => []
  | x :: rest => insertByKey x (sortByKey rest)
  end.

Definition ordered (a b : JsValue) : Prop := key a <= key b.

End Key.

End ByKey.

(** ** Sample responses *)

Module Samples.
Import Js Http Platform.
Local Open Scope string_scope.

Definition signedIn : ReviewDetail.AuthResult :=
  {| ReviewDetail.user := Some "u1"; ReviewDetail.userError := None |}.

(** A 200 response with the given JSON text as its body. *)
Definition response200 (body : string) : Response :=
  {| status := 200; statusText := "OK"; json := JSON_parse (json_text body) |}.

Definition decoded (body : string) : JsValue :=
  or_undefined (JSON_parse (json_text body)).

(** The scenario of section 8: a completed review with a linked metrics
    record, no linked analysis, and an analysis in the embedded payload. *)
Definition bodyR1 : string :=
  "{'id':'R1','user_id':'u1','status':'completed','score':8,"
  ++ "'metrics':{'complexity':5},"
  ++ "'code_data':{'code':'print(1)',"
  ++ "'results':'{\'analysis\':{\'summary\':\'ok\'}}'}}".

Definition reviewR1 : JsValue := Eval vm_compute in decoded bodyR1.



(** A linked analysis record with all its fields. *)
Definition analysisText : string :=
  "{'summary':'Readable and correct.','strengths':['clear names'],"
  ++ "'improvements':['add tests'],'categories':{"
  ++ "'performance':{'score':8,'issues':0,'suggestions':1},"
  ++ "'security':{'score':9,'issues':0,'suggestions':0},"
  ++ "'maintainability':{'score':7,'issues':1,'suggestions':2},"
  ++ "'style':{'score':8,'issues':0,'suggestions':1}}}".

Definition analysisRecord : JsValue := Eval vm_compute in decoded analysisText.

(** A completed review with a linked analysis whose embedded results do not
    decode. *)
Definition bodyR3 : string :=
  "{'id':'R3','user_id':'u1','status':'completed','score':7,"
  ++ "'ai_analysis':" ++ analysisText ++ ","
  ++ "'code_data':{'code':'x','results':'{not json'}}".

Definition reviewR3 : JsValue := Eval vm_compute in decoded bodyR3.

(** A completed review without linked records whose payload holds a count
    where the list of issues would be. *)
Definition bodyR5 : string :=
  "{'id':'R5','user_id':'u1','status':'completed','score':9,"
  ++ "'code_data':{'code':'x','results':'{\'issues\':0}'}}".

Definition reviewR5 : JsValue := Eval vm_compute in decoded bodyR5.

(** A completed review with a linked analysis and no score. *)
Definition bodyR6 : string :=
  "{'id':'R6','user_id':'u1','status':'completed','score':null,"
  ++ "'ai_analysis':" ++ analysisText ++ ",'detailed_issues':[]}".

Definition reviewR6 : JsValue := Eval vm_compute in decoded bodyR6.



(** The stored reviews behind the end point. *)
Definition storedReviews : list Contract.ReviewRecord :=
  [ {| Contract.id := "R1"; Contract.user_id := "u1";
       Contract.joined := reviewR1 |} ].

(** A history of three rows; the first and the last were created at the
    same instant in [tiedRows]. *)
Definition bodyRows (t1 t2 t3 : string) : string :=
  "[{'id':'a','title':'Sorter','language':'Python','code':'def f(): pass',"
  ++ "'created_at':" ++ t1 ++ "},"
  ++ "{'id':'b','title':'Parser','language':'Rust','created_at':" ++ t2 ++ "},"
  ++ "{'id':'c','title':'happy path','language':'Go',"
  ++ "'code':'fmt.Println()','created_at':" ++ t3 ++ "}]".

Definition elements (v : JsValue) : list JsValue :=
  match v with
  | JArr rows => rows
  | _ => []
  end.

Definition datedRows : list JsValue :=
  Eval vm_compute in elements (decoded (bodyRows "3000" "1000" "2000")).

Definition tiedRows : list JsValue :=
  Eval vm_compute in elements (decoded (bodyRows "2000" "1000" "2000")).

Definition searching (q by_ : string) : History.HistoryState :=
  {| History.userId := Some "u1"; History.history := O;
     History.loading := false; History.searchQuery := q;
     History.languageFilter := "all"; History.sortBy := by_ |}.


End Samples.

(** ** Objects as lists of keys *)

Module JsObject.
Import Js.

(** The keys of an object, in their order: [Object.keys]. *)
Definition keys (fs : list (string * JsValue)) : list string := map fst fs.

End JsObject.

(** ** Text methods *)

Module JsString.
Local Open Scope string_scope.

(** [s.split(sep)] for a separator of one character: never empty. *)
Fixpoint split (sep : ascii) (s : string) : list string :=
  match s with
  | EmptyString => [EmptyString]
  | String c rest =>
      if Ascii.eqb c sep then EmptyString :: split sep rest
      else match split sep rest with
           | piece :: pieces => String c piece :: pieces
           | [] => [String c EmptyString]
           end
  end.

(** [pieces.pop()]: the last piece, [undefined] for no piece. *)
Fixpoint pop (pieces : list string) : option string :=
  match pieces with
  | [] => None
  | [piece] => Some piece
  | _ :: rest => pop rest
  end.

(** [pieces[0]] *)
Definition first (pieces : list string) : option string :=
  match pieces with
  | [] => None
  | piece :: _ => Some piece
  end.

(** [s.slice(1)] *)
Definition slice1 (s : string) : string :=
  match s with
  | EmptyString => EmptyString
  | String _ rest => rest
  end.

(** [[^/.]+$]: the rest of the text is not empty and has no slash and no
    dot. *)
Fixpoint extensionChars (s : string) : bool :=
  match s with
  | EmptyString => false
  | String c rest =>
      negb (Ascii.eqb c "/") && negb (Ascii.eqb c ".")
      && match rest with
         | EmptyString => true
         | _ => extensionChars rest
         end
  end.

(** [s.replace(/\.[^/.]+$/, "")]: the leftmost place where the pattern
    matches is cut off. *)
Fixpoint replaceExtension (s : string) : string :=
  match s with
  | EmptyString => EmptyString
  | String c rest =>
      if Ascii.eqb c "." && extensionChars rest then EmptyString
      else String c (replaceExtension rest)
  end.

(** The character occurs in the text. *)
Definition has (c : ascii) (s : string) : Prop :=
  In c (list_ascii_of_string s).

(** How JavaScript prints an integer. *)
Definition showInt (n : Z) : string := NilZero.string_of_int (Z.to_int n).

End JsString.

(** ** The helpers of the detail page *)

Module DetailHelpers.
Import Js.
Local Open Scope string_scope.

Inductive ScoreColor : Type := TextGreen | TextBlue | TextYellow | TextRed.

(** [getScoreColor]; a finite number is a rational. *)
Definition getScoreColor (score : QArith_base.Q) : ScoreColor :=
  if QArith_base.Qle_bool (QArith_base.inject_Z 9) score then TextGreen
  else if QArith_base.Qle_bool (QArith_base.inject_Z 7) score then TextBlue
  else if QArith_base.Qle_bool (QArith_base.inject_Z 5) score then TextYellow
  else TextRed.

(** The bands from the worst to the best. *)
Definition band (c : ScoreColor) : nat :=
  match c with
  | TextRed => 0
  | TextYellow => 1
  | TextBlue => 2
  | TextGreen => 3
  end.

(** The two numbers that [calculateProcessingTime] prints; [NaN] for both
    when a date is invalid. *)
Inductive Elapsed : Type :=
| ElapsedNaN
| ElapsedFor (diffMins diffSecs : Z).

Definition showElapsed (e : Elapsed) : string :=
  match e with
  | ElapsedNaN => "NaNm NaNs"
  | ElapsedFor diffMins diffSecs =>
      JsString.showInt diffMins ++ "m " ++ JsString.showInt diffSecs ++ "s"
  end.

Section Platform.

(** [new Date(v).getTime()]; [None] is [NaN]. *)
Variable Date_getTime : JsValue -> option Z.

(** [diffMins] and [diffSecs]: [Math.floor(diffMs / 60000)] and
    [Math.floor((diffMs % 60000) / 1000)], where [%] takes the sign of
    [diffMs]. *)
Definition elapsed (createdAt completedAt : JsValue) : Elapsed :=
  match Date_getTime createdAt, Date_getTime completedAt with
  | Some start, Some end_ =>
      let diffMs := (end_ - start)%Z in
      ElapsedFor (diffMs / 60000)%Z (Z.rem diffMs 60000 / 1000)%Z
  | _, _ => ElapsedNaN
  end.

(** [calculateProcessingTime]: [null] without a completion date. *)
Definition calculateProcessingTime (createdAt completedAt : JsValue)
  : option string :=
  if negb (truthy completedAt) then None
  else Some (showElapsed (elapsed createdAt completedAt)).

End Platform.

(** [(i) => i.severity === sev] *)
Definition severityIs (sev : string) (issue : JsValue) : Result bool :=
  severity <- getMember issue "severity" ;;
  Ok (eq_lit severity sev).

(** [review.detailed_issues.filter((i) => i.severity === sev).length]; only
    an array has [filter]. *)
Definition countSeverity (sev : string) (detailed_issues : JsValue)
  : Result nat :=
  match detailed_issues with
  | JArr issues =>
      kept <- History.filterM (severityIs sev) issues ;;
      Ok (List.length kept)
  | _ => Throw "TypeError: filter is not a function"
  end.

(** The three counts of the quick stats: high, medium and low priority. *)
Definition priorityCounts (detailed_issues : JsValue)
  : Result (nat * nat * nat) :=
  high <- countSeverity "high" detailed_issues ;;
  medium <- countSeverity "medium" detailed_issues ;;
  low <- countSeverity "low" detailed_issues ;;
  Ok (high, medium, low).

End DetailHelpers.

(** ** The rendering of the detail page *)

Module DetailRender.
Import Js ReviewDetail DetailHelpers.
Local Open Scope string_scope.

(** A callback run on every element in turn, for its exceptions. *)
Fixpoint forEach {A : Type} (f : A -> Result unit) (l : list A) : Result unit :=
  match l with
  | [] => Ok tt
  | x :: rest => done <- f x ;; forEach f rest
  end.

(** [Object.entries(v)]: the own properties; [null] and [undefined] cannot
    be converted to an object. *)
Definition Object_entries (v : JsValue) : Result (list (string * JsValue)) :=
  if nullish v
  then Throw "TypeError: Cannot convert undefined or null to object"
  else Ok (ownProps v).

(** [v.map(f)]: only an array has [map]. *)
Definition array_map (f : JsValue -> Result unit) (v : JsValue) : Result unit :=
  match v with
  | JArr elems => forEach f elems
  | JUndefined | JNull =>
      Throw "TypeError: cannot read properties of null or undefined"
  | _ => Throw "TypeError: map is not a function"
  end.

(** The score overview:
    [Object.entries(review.ai_analysis.categories).map(([category, data]) => ..)],
    where the callback reads [data.score], [data.issues] and
    [data.suggestions]. *)
Definition evalScoreOverview (review : JsValue) : Result unit :=
  ai_analysis <- getMember review "ai_analysis" ;;
  categories <- getMember ai_analysis "categories" ;;
  entries <- Object_entries categories ;;
  forEach (fun entry => score <- getMember (snd entry) "score" ;; Ok tt)
    entries.

(** The code display: [review.language?.toLowerCase() || "javascript"];
    only a text has [toLowerCase]. *)
Definition evalCodeDisplay (review : JsValue) : Result unit :=
  language <- getMember review "language" ;;
  match language with
  | JUndefined | JNull | JStr _ => Ok tt
  | _ => Throw "TypeError: toLowerCase is not a function"
  end.

(** The analysis card: [review.detailed_issues.length],
    [review.ai_analysis.summary], [review.ai_analysis.strengths.map(..)],
    [review.ai_analysis.improvements.map(..)] and
    [review.detailed_issues.map((issue) => ..)], whose callback reads
    [issue.id] first; the metrics are read behind [review.metrics &&]. *)
Definition evalAiAnalysisCard (review : JsValue) : Result unit :=
  detailed_issues <- getMember review "detailed_issues" ;;
  length <- getMember detailed_issues "length" ;;
  ai_analysis <- getMember review "ai_analysis" ;;
  summary <- getMember ai_analysis "summary" ;;
  strengths <- array_map (fun _ => Ok tt) (getProp ai_analysis "strengths") ;;
  improvements <-
    array_map (fun _ => Ok tt) (getProp ai_analysis "improvements") ;;
  array_map (fun issue => id <- getMember issue "id" ;; Ok tt) detailed_issues.

(** The score of the quick stats: the three counts behind
    [review.detailed_issues &&]. *)
Definition evalQuickStatsScore (review : JsValue) : Result unit :=
  detailed_issues <- getMember review "detailed_issues" ;;
  if truthy detailed_issues
  then (counts <- priorityCounts detailed_issues ;; Ok tt)
  else Ok tt.

(** The expressions of a part.  The header, the state cards, the actions and
    the review details only print fields and dates, which does not throw. *)
Definition evalPart (review : JsValue) (p : Part) : Result unit :=
  match p with
  | ScoreOverview => evalScoreOverview review
  | CodeDisplay _ => evalCodeDisplay review
  | AiAnalysisCard => evalAiAnalysisCard review
  | QuickStatsScore => evalQuickStatsScore review
  | _ => Ok tt
  end.

(** The call of [ReviewDetailPage]: the view it returns, or the exception
    of the first expression that throws while the selected parts are built,
    from the top of the listing to its end.  What React does with the
    elements afterwards is not part of the component. *)
Definition renderReviewDetailPage (st : DetailState) : Result View :=
  match ReviewDetailPage st with
  | DetailView parts =>
      done <- forEach (evalPart (review st)) parts ;;
      Ok (DetailView parts)
  | view => Ok view
  end.


(** The value is an array none of whose elements is [null] or
    [undefined]. *)
Definition arrayOfValues (v : JsValue) : Prop :=
  exists elems, v = JArr elems /\ Forall (fun x => nullish x = false) elems.

(** The analysis has categories, and every category has a value. *)
Definition categoriesGiven (analysis : JsValue) : Prop :=
  nullish (getProp analysis "categories") = false
  /\ Forall (fun entry => nullish (snd entry) = false)
       (ownProps (getProp analysis "categories")).

(** The strengths and the improvements of the analysis are arrays. *)
Definition listsGiven (analysis : JsValue) : Prop :=
  isArray (getProp analysis "strengths") = true
  /\ isArray (getProp analysis "improvements") = true.

End DetailRender.

(** ** The cards of the history *)

Module HistoryCards.
Local Open Scope string_scope.

(** The code preview of a card, for a code that is a text:
    [item.code.length > 200 ? `${item.code.substring(0, 200)}...` : item.code] *)
Definition codePreview (code : string) : string :=
  if (200 <? String.length code)%nat then String.substring 0 200 code ++ "..."
  else code.

End HistoryCards.

(** ** The dashboard layout and the login page *)

Module Layout.
Import Js.
Local Open Scope string_scope.

(** [user.email?.split('@')[0]]; only a text has [split]. *)
Definition emailName (email : JsValue) : Result JsValue :=
  match email with
  | JUndefined | JNull => Ok JUndefined
  | JStr s => Ok (or_undefined
                    (option_map JStr (JsString.first (JsString.split "@" s))))
  | _ => Throw "TypeError: split is not a function"
  end.

(** [user.user_metadata?.full_name || user.user_metadata?.name
     || user.email?.split('@')[0] || 'User'] *)
Definition displayName (user : JsValue) : Result JsValue :=
  user_metadata <- getMember user "user_metadata" ;;
  if truthy (optGet user_metadata "full_name")
  then Ok (optGet user_metadata "full_name")
  else if truthy (optGet user_metadata "name")
  then Ok (optGet user_metadata "name")
  else
    email <- getMember user "email" ;;
    name <- emailName email ;;
    Ok (js_or name (JStr "User")).

(** [displayName?.split(" ")[0] || "User"] *)
Definition firstNameOf (display : JsValue) : Result JsValue :=
  match display with
  | JUndefined | JNull => Ok (JStr "User")
  | JStr s =>
      Ok (js_or (or_undefined
                   (option_map JStr (JsString.first (JsString.split " " s))))
            (JStr "User"))
  | _ => Throw "TypeError: split is not a function"
  end.

Definition firstName (user : JsValue) : Result JsValue :=
  display <- displayName user ;;
  firstNameOf display.

(** What [DashboardLayout] returns: the spinner, [null], or the side bar,
    the top bar and the children. *)
Inductive View : Type :=
| LoadingScreen
| Nothing
| Shell (displayName firstName : JsValue).

Definition DashboardLayout (mounted loading : bool) (user : JsValue)
  : Result View :=
  if negb mounted || loading then Ok LoadingScreen
  else if negb (truthy user) then Ok Nothing
  else
    display <- displayName user ;;
    first <- firstNameOf display ;;
    Ok (Shell display first).

(** The effect of the layout: [if (!loading && !user && mounted)
    router.push("/login")]. *)
Definition layoutRedirect (mounted loading : bool) (user : JsValue)
  : option string :=
  if negb loading && negb (truthy user) && mounted then Some "/login"
  else None.

Inductive LoginView : Type :=
| LoginSpinner
| LoginNothing
| LoginForm.

(** [LoginPage] *)
Definition LoginPage (mounted loading : bool) (user : JsValue) : LoginView :=
  if negb mounted || loading then LoginSpinner
  else if truthy user then LoginNothing
  else LoginForm.

(** The effect of the login page: [if (user && !loading)
    router.push('/dashboard')]. *)
Definition loginRedirect (loading : bool) (user : JsValue) : option string :=
  if truthy user && negb loading then Some "/dashboard" else None.

End Layout.

(** ** The submit page *)

Module Submit.
Import Js Http.
Local Open Scope string_scope.

Record Language : Type := {
  value : string;
  label : string;
  extension : string
}.

Definition SUPPORTED_LANGUAGES : list Language :=
  [ {| value := "javascript"; label := "JavaScript"; extension := ".js" |};
    {| value := "typescript"; label := "TypeScript"; extension := ".ts" |};
    {| value := "python"; label := "Python"; extension := ".py" |};
    {| value := "java"; label := "Java"; extension := ".java" |};
    {| value := "cpp"; label := "C++"; extension := ".cpp" |};
    {| value := "csharp"; label := "C#"; extension := ".cs" |};
    {| value := "go"; label := "Go"; extension := ".go" |};
    {| value := "rust"; label := "Rust"; extension := ".rs" |};
    {| value := "php"; label := "PHP"; extension := ".php" |};
    {| value := "ruby"; label := "Ruby"; extension := ".rb" |} ].

(** The [useState] cells of [SubmitPage]. *)
Record SubmitState : Type := {
  submissionMethod : string;
  code : string;
  title : string;
  description : string;
  language : string;
  reviewType : string;
  githubRepo : string;
  githubPath : string;
  isSubmitting : bool;
  uploadProgress : Z;
  error : string;
  success : bool;
  sessionChecked : bool;
  user : JsValue
}.

Definition initialState : SubmitState :=
  {| submissionMethod := "paste"; code := ""; title := ""; description := "";
     language := ""; reviewType := "general"; githubRepo := "";
     githubPath := ""; isSubmitting := false; uploadProgress := 0;
     error := ""; success := false; sessionChecked := false; user := JNull |}.

Definition setSubmissionMethod (v : string) (st : SubmitState) : SubmitState :=
  {| submissionMethod := v; code := code st; title := title st;
     description := description st; language := language st;
     reviewType := reviewType st; githubRepo := githubRepo st;
     githubPath := githubPath st; isSubmitting := isSubmitting st;
     uploadProgress := uploadProgress st; error := error st;
     success := success st; sessionChecked := sessionChecked st;
     user := user st |}.

Definition setCode (v : string) (st : SubmitState) : SubmitState :=
  {| submissionMethod := submissionMethod st; code := v; title := title st;
     description := description st; language := language st;
     reviewType := reviewType st; githubRepo := githubRepo st;
     githubPath := githubPath st; isSubmitting := isSubmitting st;
     uploadProgress := uploadProgress st; error := error st;
     success := success st; sessionChecked := sessionChecked st;
     user := user st |}.

Definition setTitle (v : string) (st : SubmitState) : SubmitState :=
  {| submissionMethod := submissionMethod st; code := code st; title := v;
     description := description st; language := language st;
     reviewType := reviewType st; githubRepo := githubRepo st;
     githubPath := githubPath st; isSubmitting := isSubmitting st;
     uploadProgress := uploadProgress st; error := error st;
     success := success st; sessionChecked := sessionChecked st;
     user := user st |}.

Definition setLanguage (v : string) (st : SubmitState) : SubmitState :=
  {| submissionMethod := submissionMethod st; code := code st;
     title := title st; description := description st; language := v;
     reviewType := reviewType st; githubRepo := githubRepo st;
     githubPath := githubPath st; isSubmitting := isSubmitting st;
     uploadProgress := uploadProgress st; error := error st;
     success := success st; sessionChecked := sessionChecked st;
     user := user st |}.

Definition setIsSubmitting (v : bool) (st : SubmitState) : SubmitState :=
  {| submissionMethod := submissionMethod st; code := code st;
     title := title st; description := description st;
     language := language st; reviewType := reviewType st;
     githubRepo := githubRepo st; githubPath := githubPath st;
     isSubmitting := v; uploadProgress := uploadProgress st;
     error := error st; success := success st;
     sessionChecked := sessionChecked st; user := user st |}.

Definition setUploadProgress (v : Z) (st : SubmitState) : SubmitState :=
  {| submissionMethod := submissionMethod st; code := code st;
     title := title st; description := description st;
     language := language st; reviewType := reviewType st;
     githubRepo := githubRepo st; githubPath := githubPath st;
     isSubmitting := isSubmitting st; uploadProgress := v;
     error := error st; success := success st;
     sessionChecked := sessionChecked st; user := user st |}.

Definition setError (v : string) (st : SubmitState) : SubmitState :=
  {| submissionMethod := submissionMethod st; code := code st;
     title := title st; description := description st;
     language := language st; reviewType := reviewType st;
     githubRepo := githubRepo st; githubPath := githubPath st;
     isSubmitting := isSubmitting st; uploadProgress := uploadProgress st;
     error := v; success := success st;
     sessionChecked := sessionChecked st; user := user st |}.

Definition setSuccess (v : bool) (st : SubmitState) : SubmitState :=
  {| submissionMethod := submissionMethod st; code := code st;
     title := title st; description := description st;
     language := language st; reviewType := reviewType st;
     githubRepo := githubRepo st; githubPath := githubPath st;
     isSubmitting := isSubmitting st; uploadProgress := uploadProgress st;
     error := error st; success := v;
     sessionChecked := sessionChecked st; user := user st |}.

(** The cells that the user fills in are the same in both states. *)
Definition sameForm (st st' : SubmitState) : Prop :=
  code st' = code st /\ title st' = title st
  /\ description st' = description st /\ language st' = language st
  /\ reviewType st' = reviewType st /\ githubRepo st' = githubRepo st
  /\ githubPath st' = githubPath st
  /\ submissionMethod st' = submissionMethod st /\ user st' = user st.

(** The file that the input hands over: its name, its size in bytes and the
    text that the reader loads. *)
Record File : Type := {
  name : string;
  size : Z;
  text : string
}.

(** [title from a file name or a path]: [.replace(/\.[^/.]+$/, "")] applied
    to [githubPath.split("/").pop()], with ["GitHub Import"] for an empty
    outcome. *)
Definition importedTitle (githubPath : string) : string :=
  match JsString.pop (JsString.split "/" githubPath) with
  | Some piece =>
      if String.eqb (JsString.replaceExtension piece) "" then "GitHub Import"
      else JsString.replaceExtension piece
  | None => "GitHub Import"
  end.

Definition tabs : string :=
  String "009" (String "009" (String "009" (String "009" EmptyString))).

Definition newline : string := String "010" EmptyString.

Definition quote : string := String "034" EmptyString.

(** The template literal [mockContent]. *)
Definition mockContent (githubRepo githubPath : string) : string :=
  "// Imported from GitHub: " ++ githubRepo ++ "/" ++ githubPath ++ newline
  ++ tabs ++ "function exampleFunction() {" ++ newline
  ++ tabs ++ "console.log(" ++ quote ++ "This is example code from GitHub"
  ++ quote ++ ");" ++ newline
  ++ tabs ++ "return " ++ quote ++ "Hello from GitHub!" ++ quote ++ ";"
  ++ newline
  ++ tabs ++ "}".

(** [handleGithubImport]; nothing in its [try] throws. *)
Definition handleGithubImport (st : SubmitState) : SubmitState :=
  if String.eqb (githubRepo st) "" || String.eqb (githubPath st) ""
  then setError "Please provide both repository and file path" st
  else
    setIsSubmitting false
      (setSubmissionMethod "paste"
         (setTitle (importedTitle (githubPath st))
            (setCode (mockContent (githubRepo st) (githubPath st))
               (setError "" (setIsSubmitting true st))))).

(** The [disabled] of the import button. *)
Definition importDisabled (st : SubmitState) : bool :=
  isSubmitting st || String.eqb (githubRepo st) ""
  || String.eqb (githubPath st) "".

Section Platform.

(** [String.prototype.toLowerCase], [String.prototype.trim] and the
    conversion to a text that [new Error(v)] and a template literal
    perform. *)
Variable toLowerCase : string -> string.
Variable trim : string -> string.
Variable toText : JsValue -> string.

(** [file.name.split(".").pop()?.toLowerCase()] looked up among the
    extensions of [SUPPORTED_LANGUAGES] without their dot. *)
Definition detectLanguage (fileName : string) : option Language :=
  match JsString.pop (JsString.split "." fileName) with
  | Some piece =>
      find (fun lang =>
              String.eqb (JsString.slice1 (extension lang)) (toLowerCase piece))
        SUPPORTED_LANGUAGES
  | None => None
  end.

(** [reader.onload] *)
Definition onload (st : SubmitState) (file : File) : SubmitState :=
  let st1 := setCode (text file) st in
  let st2 := match detectLanguage (name file) with
             | Some detectedLang => setLanguage (value detectedLang) st1
             | None => st1
             end in
  if String.eqb (title st) "" then
    setTitle (JsString.replaceExtension (name file)) st2
  else st2.

(** [handleFileUpload], for a file whose text the reader loads. *)
Definition handleFileUpload (st : SubmitState) (file : option File)
  : SubmitState :=
  match file with
  | None => st
  | Some f =>
      if (1024 * 1024 <? size f)%Z
      then setError "File size must be less than 1MB" st
      else onload st f
  end.

(** [!code.trim() || !title.trim() || !language] *)
Definition fieldsMissing (st : SubmitState) : bool :=
  String.eqb (trim (code st)) "" || String.eqb (trim (title st)) ""
  || String.eqb (language st) "".

(** The [disabled] of the submit button. *)
Definition submitDisabled (st : SubmitState) : bool :=
  isSubmitting st || fieldsMissing st.

(** The body of the [try] of [handleSubmit] after the request: the decoded
    [result] of a response that is [ok]. *)
Definition submitted (resp : FetchResult) : Result JsValue :=
  match resp with
  | NetworkFailure msg => Throw msg
  | Settled response =>
      if negb (ok response) then
        errorData <- decodeJson response ;;
        detail <- getMember errorData "detail" ;;
        Throw (toText (js_or detail (JStr "Failed to submit code")))
      else decodeJson response
  end.

(** The call that the timer makes two seconds after a success:
    [router.push(`/dashboard/review/${result.actual_review_id}`)]. *)
Definition reviewRoute (result : JsValue) : Result string :=
  actual_review_id <- getMember result "actual_review_id" ;;
  Ok ("/dashboard/review/" ++ toText actual_review_id).

(** [handleSubmit]: the state once the handler has run, and the call of the
    timer when one was set. *)
Definition handleSubmit (st : SubmitState) (resp : FetchResult)
  : SubmitState * option (Result string) :=
  if negb (truthy (optGet (user st) "id"))
  then (setError "Please log in to submit code for review" st, None)
  else if fieldsMissing st
  then (setError "Please fill in all required fields" st, None)
  else
    let st1 := setUploadProgress 0 (setError "" (setIsSubmitting true st)) in
    match submitted resp with
    | Ok result =>
        (setIsSubmitting false
           (setUploadProgress 100 (setSuccess true st1)),
         Some (reviewRoute result))
    | Throw message =>
        (setIsSubmitting false
           (setUploadProgress 0
              (setError
                 (if String.eqb message ""
                  then "Failed to submit code for review. Please try again."
                  else message) st1)),
         None)
    end.

End Platform.

End Submit.

(** ** More sample responses *)

Module MoreSamples.
Import Js Http Platform Samples.
Local Open Scope string_scope.

(** A failed review. *)
Definition bodyR8 : string :=
  "{'id':'R8','user_id':'u1','status':'failed','score':null,"
  ++ "'code_data':{'code':'x = (','results':null}}".

Definition reviewR8 : JsValue := Eval vm_compute in decoded bodyR8.



(** Three issues of known severity and one of another kind. *)
Definition issuesText : string :=
  "[{'id':1,'severity':'high'},{'id':2,'severity':'low'},"
  ++ "{'id':3,'severity':'high'},{'id':4,'severity':'info'}]".

Definition issues : JsValue := Eval vm_compute in decoded issuesText.

(** A user as the session holds it. *)
Definition userText : string :=
  "{'id':'u1','email':'ada.lovelace@example.org',"
  ++ "'user_metadata':{'full_name':'Ada Lovelace'}}".

Definition someUser : JsValue := Eval vm_compute in decoded userText.

(** A history response with a row that is [null]. *)
Definition rowsWithNull : list JsValue :=
  [JObj [("id", JStr "a"); ("title", JStr "Sorter");
         ("language", JStr "Python"); ("created_at", JInt 3000)];
   JNull].

(** An instance of [trim]: blanks, tabs and line ends are cut off at both
    ends. *)
Definition isSpace (c : ascii) : bool :=
  Ascii.eqb c " " || ((9 <=? nat_of_ascii c)%nat && (nat_of_ascii c <=? 13)%nat).

Fixpoint trimStart (s : string) : string :=
  match s with
  | EmptyString => EmptyString
  | String c rest => if isSpace c then trimStart rest else s
  end.

Fixpoint trimEnd (s : string) : string :=
  match s with
  | EmptyString => EmptyString
  | String c rest =>
      match trimEnd rest with
      | EmptyString => if isSpace c then EmptyString else String c EmptyString
      | kept => String c kept
      end
  end.

Definition trim (s : string) : string := trimEnd (trimStart s).

(** An instance of the conversion to a text, for values without an object
    inside whose numbers are integers. *)
Fixpoint toText (v : JsValue) : string :=
  match v with
  | JUndefined => "undefined"
  | JNull => "null"
  | JBool b => if b then "true" else "false"
  | JNum q =>
      JsString.showInt (Z.quot (QArith_base.Qnum q) (Zpos (QArith_base.Qden q)))
  | JStr s => s
  | JArr elems =>
      (fix join (l : list JsValue) : string :=
         match l with
         | [] => ""
         | [x] => if nullish x then "" else toText x
         | x :: rest => (if nullish x then "" else toText x) ++ "," ++ join rest
         end) elems
  | JObj _ => "[object Object]"
  end.

(** A form that is filled in by a signed-in user. *)
Definition filledForm : Submit.SubmitState :=
  {| Submit.submissionMethod := "paste"; Submit.code := "print(1)";
     Submit.title := " Demo "; Submit.description := "";
     Submit.language := "python"; Submit.reviewType := "general";
     Submit.githubRepo := "octo/tools";
     Submit.githubPath := "src/lib/util.test.ts";
     Submit.isSubmitting := false; Submit.uploadProgress := 0;
     Submit.error := "stale"; Submit.success := false;
     Submit.sessionChecked := true; Submit.user := someUser |}.

(** A small source file with an extension in capitals. *)
Definition mainPy : Submit.File :=
  {| Submit.name := "Main.v2.PY"; Submit.size := 120;
     Submit.text := "print(1)" |}.

Definition python : Submit.Language :=
  {| Submit.value := "python"; Submit.label := "Python";
     Submit.extension := ".py" |}.

(** The answer of the analysis end point to a submission. *)
Definition bodySubmitted : string := "{'actual_review_id':'R9'}".

End MoreSamples.

(** * Properties *)

(** ** Objects *)

Section ObjectFacts.
Import Js.
Local Open Scope string_scope.

Lemma assoc_setProp_same (k : string) (v : JsValue) fs :
  assoc k (setProp k v fs) = Some v.
Proof.
  induction fs as [| [k' v'] rest IH]; simpl.
  - now rewrite String.eqb_refl.
  - destruct (String.eqb k k') eqn:E; simpl.
    + now rewrite String.eqb_refl.
    + now rewrite E.
Qed.

Lemma assoc_setProp_other (k k' : string) (v : JsValue) fs :
  k <> k' -> assoc k (setProp k' v fs) = assoc k fs.
Proof.
  intros Hne. induction fs as [| [k0 v0] rest IH]; simpl.
  - apply String.eqb_neq in Hne. now rewrite Hne.
  - destruct (String.eqb k' k0) eqn:E; simpl.
    + apply String.eqb_eq in E. subst k0.
      apply String.eqb_neq in Hne. now rewrite Hne.
    + now rewrite IH.
Qed.

Lemma getProp_ownProps (v : JsValue) (k : string) :
  k <> "length" -> getProp v k = or_undefined (assoc k (ownProps v)).
Proof.
  intros Hne. apply String.eqb_neq in Hne.
  destruct v; simpl; try reflexivity; now rewrite Hne.
Qed.

Lemma js_or_truthy (v w : JsValue) : truthy v = true -> js_or v w = v.
Proof. intros H. unfold js_or. now rewrite H. Qed.

Lemma js_or_falsy (v w : JsValue) : truthy v = false -> js_or v w = w.
Proof. intros H. unfold js_or. now rewrite H. Qed.


End ObjectFacts.

(** ** The merge of the detail view *)

Section MergeFacts.
Import Js Http ReviewDetail.
Local Open Scope string_scope.

Variable JSON_parse : string -> option JsValue.

Lemma merged_ai_analysis (rd pr : JsValue) :
  getProp (formatDetailedReview rd pr) "ai_analysis"
  = js_or (getProp rd "ai_analysis") (js_or (optGet pr "analysis") JUndefined).
Proof.
  unfold formatDetailedReview. simpl getProp.
  rewrite assoc_setProp_other by discriminate.
  rewrite assoc_setProp_other by discriminate.
  now rewrite assoc_setProp_same.
Qed.

Lemma merged_metrics (rd pr : JsValue) :
  getProp (formatDetailedReview rd pr) "metrics"
  = js_or (getProp rd "metrics") (js_or (optGet pr "metrics") JUndefined).
Proof.
  unfold formatDetailedReview. simpl getProp.
  rewrite assoc_setProp_other by discriminate.
  now rewrite assoc_setProp_same.
Qed.

Lemma merged_detailed_issues (rd pr : JsValue) :
  getProp (formatDetailedReview rd pr) "detailed_issues"
  = js_or (getProp rd "detailed_issues") (js_or (optGet pr "issues") (JArr [])).
Proof.
  unfold formatDetailedReview. simpl getProp.
  now rewrite assoc_setProp_same.
Qed.

Lemma merged_code (rd pr : JsValue) :
  getProp (formatDetailedReview rd pr) "code"
  = js_or (optGet (getProp rd "code_data") "code") (JStr "").
Proof.
  unfold formatDetailedReview. simpl getProp.
  rewrite !assoc_setProp_other by discriminate.
  now rewrite assoc_setProp_same.
Qed.

Lemma merged_other_key (rd pr : JsValue) (k : string) :
  ~ In k mergedKeys -> k <> "length" ->
  getProp (formatDetailedReview rd pr) k = getProp rd k.
Proof.
  intros Hk Hlen. unfold formatDetailedReview. simpl getProp.
  rewrite !assoc_setProp_other
    by (intros ->; apply Hk; simpl; tauto).
  symmetry. now apply getProp_ownProps.
Qed.

Lemma useReviewDetail_delivered (id : string) auth r rd :
  id <> "" -> delivered auth r rd ->
  useReviewDetail JSON_parse id auth (Settled r)
  = {| review := formatDetailedReview rd (parseResults JSON_parse rd);
       loading := false; error := None |}.
Proof.
  intros Hid (Hue & Hu & Hok & Hjson & Htr).
  unfold useReviewDetail. apply String.eqb_neq in Hid. rewrite Hid.
  unfold fetchReview, fetchReviewBody. rewrite Hue.
  destruct (user auth) as [u |]; [| congruence]. simpl.
  rewrite Hok. simpl. unfold decodeJson. rewrite Hjson. simpl.
  now rewrite Htr.
Qed.

(** C1.  The status of the review that the detail view aggregates is the
    status of the record the back end sent, and so is every other field of
    the interface [Review]: the four keys that the merge writes ([code],
    [ai_analysis], [metrics], [detailed_issues]) are the only ones that can
    differ from the record, whatever the secondary records and the embedded
    payload contain. *)
Theorem status_is_copied_verbatim (id : string) auth r rd :
  id <> "" -> delivered auth r rd ->
  let st := useReviewDetail JSON_parse id auth (Settled r) in
  error st = None
  /\ getProp (review st) "status" = getProp rd "status"
  /\ Forall (fun k => getProp (review st) k = getProp rd k) reviewFields.
Proof.
  intros Hid Hd st. subst st. rewrite (useReviewDetail_delivered id auth r rd Hid Hd).
  simpl error. simpl review. split; [reflexivity |]. split.
  - apply merged_other_key; [| discriminate].
    unfold mergedKeys; simpl; intuition discriminate.
  - unfold reviewFields.
    repeat (apply Forall_cons;
            [apply merged_other_key;
             [unfold mergedKeys; simpl; intuition discriminate | discriminate] |]).
    apply Forall_nil.
Qed.

End MergeFacts.

Section ResolutionFacts.
Import Js Http ReviewDetail Contract.
Local Open Scope string_scope.

Variable JSON_parse : string -> option JsValue.

Lemma merged_group (g : FieldGroup) (rd pr : JsValue) :
  getProp (formatDetailedReview rd pr) (linkedKey g)
  = js_or (getProp rd (linkedKey g))
      (js_or (optGet pr (payloadKey g)) (unresolved g)).
Proof.
  destruct g; simpl linkedKey; simpl payloadKey; simpl unresolved.
  - apply merged_ai_analysis.
  - apply merged_metrics.
  - apply merged_detailed_issues.
Qed.

Lemma embeddedResults_member (rd results : JsValue) :
  embeddedResults rd = results -> results <> JUndefined ->
  getMember rd "code_data" = Ok (getProp rd "code_data")
  /\ getMember (getProp rd "code_data") "results" = Ok results.
Proof.
  unfold embeddedResults, optGet, getMember. intros H Hne.
  destruct (nullish (getProp rd "code_data")) eqn:Hcd; [congruence |].
  split; [| now rewrite H].
  destruct rd; simpl in *; try discriminate; reflexivity.
Qed.

Lemma parseResults_string (rd : JsValue) (s : string) :
  embeddedResults rd = JStr s -> s <> "" ->
  parseResults JSON_parse rd = or_undefined (JSON_parse s).
Proof.
  intros H Hs. unfold parseResults. fold (embeddedResults rd). rewrite H.
  simpl truthy. apply String.eqb_neq in Hs. rewrite Hs. simpl.
  destruct (embeddedResults_member rd (JStr s) H) as [H1 H2]; [discriminate |].
  unfold decodeResults. rewrite H1. simpl. rewrite H2. simpl.
  unfold JSON_parse_or_throw. now destruct (JSON_parse s).
Qed.

Lemma parseResults_malformed (rd : JsValue) (s : string) :
  embeddedResults rd = JStr s -> JSON_parse s = None ->
  parseResults JSON_parse rd = JUndefined.
Proof.
  intros H Hp. destruct (String.eqb s "") eqn:Hs.
  - unfold parseResults. fold (embeddedResults rd). rewrite H. simpl.
    now rewrite Hs.
  - apply String.eqb_neq in Hs. rewrite (parseResults_string rd s H Hs).
    now rewrite Hp.
Qed.


(** C3, as amended.  When the embedded results are a text that does not
    decode, the aggregation still succeeds and the payload contributes
    nothing: each of the three groups is the linked record when the response
    carries one (a truthy value), and otherwise analysis and metrics are
    [undefined] and the issues are the empty array. *)
Theorem malformed_payload_is_absorbed (id : string) auth r rd (s : string) :
  id <> "" -> delivered auth r rd ->
  embeddedResults rd = JStr s -> JSON_parse s = None ->
  let st := useReviewDetail JSON_parse id auth (Settled r) in
  error st = None /\ loading st = false /\ truthy (review st) = true
  /\ forall g,
       (truthy (getProp rd (linkedKey g)) = true ->
        getProp (review st) (linkedKey g) = getProp rd (linkedKey g))
       /\ (truthy (getProp rd (linkedKey g)) = false ->
           getProp (review st) (linkedKey g) = unresolved g).
Proof.
  intros Hid Hd Hres Hp st. subst st.
  rewrite (useReviewDetail_delivered JSON_parse id auth r rd Hid Hd).
  simpl error. simpl loading. simpl review.
  repeat split; intros Ht; rewrite merged_group.
  - now apply js_or_truthy.
  - rewrite js_or_falsy by assumption.
    rewrite (parseResults_malformed rd s Hres Hp). now destruct g.
Qed.

(** C5, as amended.  The three groups are resolved by one rule,
    [primary || fallback || unresolved]: the result is the primary when it
    is truthy, else the fallback when that is truthy, else the marker of the
    group.  It is [primary ?? fallback ?? unresolved] whenever primary and
    fallback are each missing ([null], [undefined]) or truthy, as every
    object and every array is. *)
Theorem field_groups_resolve_by_truthiness (g : FieldGroup) (rd pr : JsValue) :
  let primary := getProp rd (linkedKey g) in
  let fallback := optGet pr (payloadKey g) in
  let result := getProp (formatDetailedReview rd pr) (linkedKey g) in
  (truthy primary = true -> result = primary)
  /\ (truthy primary = false -> truthy fallback = true -> result = fallback)
  /\ (truthy primary = false -> truthy fallback = false -> result = unresolved g)
  /\ (nullish primary = negb (truthy primary) ->
      nullish fallback = negb (truthy fallback) ->
      result = resolveFieldGroup (unresolved g) primary fallback).
Proof.
  intros primary fallback result. subst result. rewrite merged_group.
  fold primary. fold fallback.
  unfold js_or, resolveFieldGroup, nullish_coalesce.
  repeat split.
  - now intros ->.
  - now intros -> ->.
  - now intros -> ->.
  - intros -> ->.
    destruct (truthy primary), (truthy fallback); reflexivity.
Qed.

End ResolutionFacts.

(** ** Failures of the review end point *)

Section AggregateFacts.
Import Js Http ReviewDetail Contract.
Local Open Scope string_scope.

Variable JSON_parse : string -> option JsValue.

Lemma useReviewDetail_error_status (id : string) auth (r : Response) :
  ok r = false ->
  review (useReviewDetail JSON_parse id auth (Settled r)) = JNull
  /\ forall parts,
       ReviewDetailPage (useReviewDetail JSON_parse id auth (Settled r))
       <> DetailView parts.
Proof.
  intros Hok. unfold useReviewDetail.
  destruct (String.eqb id "") eqn:Hid.
  - split; [reflexivity | discriminate].
  - unfold fetchReview, fetchReviewBody.
    destruct (userError auth), (user auth); simpl; rewrite ?Hok; simpl;
      split; try reflexivity; discriminate.
Qed.

(** C4.  [aggregate] fails with [NotFound] when no review has the given id
    and with [Forbidden] when the review belongs to another user; a
    [Forbidden] response has no field, and the consumer of either failure
    keeps no review at all and never shows the detail view. *)
Theorem aggregate_not_found_or_forbidden
  (reviews : list ReviewRecord) (reviewId callerUserId : string) :
  ((forall r, In r reviews -> id r <> reviewId) ->
   aggregate reviews reviewId callerUserId = NotFound)
  /\ (forall r,
        find (fun r => String.eqb (id r) reviewId) reviews = Some r ->
        user_id r <> callerUserId ->
        aggregate reviews reviewId callerUserId = Forbidden
        /\ responseFields (aggregate reviews reviewId callerUserId) = [])
  /\ (forall auth,
        aggregate reviews reviewId callerUserId = NotFound
        \/ aggregate reviews reviewId callerUserId = Forbidden ->
        review (useReviewDetail JSON_parse reviewId auth
                  (respond (aggregate reviews reviewId callerUserId)))
        = JNull
        /\ forall parts,
             ReviewDetailPage
               (useReviewDetail JSON_parse reviewId auth
                  (respond (aggregate reviews reviewId callerUserId)))
             <> DetailView parts).
Proof.
  split; [| split].
  - intros Hnone. unfold aggregate.
    destruct (find _ reviews) as [r |] eqn:Hf; [| reflexivity].
    apply find_some in Hf. destruct Hf as [Hin Heq].
    apply String.eqb_eq in Heq. now apply Hnone in Hin.
  - intros r Hf Hne. unfold aggregate. rewrite Hf.
    apply String.eqb_neq in Hne. rewrite Hne. split; reflexivity.
  - intros auth [H | H]; rewrite H; simpl respond;
      now apply useReviewDetail_error_status.
Qed.

End AggregateFacts.

(** ** What the detail page mounts *)

Section PageFacts.
Import Js Http ReviewDetail DetailHelpers DetailRender.
Local Open Scope string_scope.

Variable JSON_parse : string -> option JsValue.

Lemma In_mount (p q : Part) (c : JsValue) :
  In p (mount c q) <-> truthy c = true /\ p = q.
Proof.
  unfold mount. destruct (truthy c); simpl; intuition congruence.
Qed.

Ltac mounted_parts :=
  repeat first [rewrite in_app_iff | rewrite In_mount | progress simpl In];
  intuition (try discriminate; try congruence).

Lemma ScoreOverview_mounted (rv : JsValue) :
  In ScoreOverview (pageParts rv) <-> truthy (showScoreOverview rv) = true.
Proof.
  unfold pageParts. mounted_parts.
Qed.

Lemma AiAnalysisCard_mounted (rv : JsValue) :
  In AiAnalysisCard (pageParts rv) <-> truthy (showAiAnalysis rv) = true.
Proof.
  unfold pageParts. mounted_parts.
Qed.


Lemma merged_status (rd pr : JsValue) :
  getProp (formatDetailedReview rd pr) "status" = getProp rd "status".
Proof.
  apply merged_other_key; [| discriminate].
  unfold mergedKeys; simpl; intuition discriminate.
Qed.

Lemma merged_score (rd pr : JsValue) :
  getProp (formatDetailedReview rd pr) "score" = getProp rd "score".
Proof.
  apply merged_other_key; [| discriminate].
  unfold mergedKeys; simpl; intuition discriminate.
Qed.

(** After the merge the analysis is [undefined] or truthy, and the issues
    are always truthy. *)
Lemma merged_ai_analysis_resolved (rd pr : JsValue) :
  truthy (getProp (formatDetailedReview rd pr) "ai_analysis") = true
  <-> getProp (formatDetailedReview rd pr) "ai_analysis" <> JUndefined.
Proof.
  rewrite merged_ai_analysis. unfold js_or.
  destruct (truthy (getProp rd "ai_analysis")) eqn:H1.
  - rewrite H1. split; [| reflexivity]. intros _ E. now rewrite E in H1.
  - destruct (truthy (optGet pr "analysis")) eqn:H2.
    + rewrite H2. split; [| reflexivity]. intros _ E. now rewrite E in H2.
    + simpl. split; [discriminate | congruence].
Qed.

Lemma merged_detailed_issues_truthy (rd pr : JsValue) :
  truthy (getProp (formatDetailedReview rd pr) "detailed_issues") = true.
Proof.
  rewrite merged_detailed_issues. unfold js_or.
  destruct (truthy (getProp rd "detailed_issues")) eqn:H1; [exact H1 |].
  destruct (truthy (optGet pr "issues")) eqn:H2; [exact H2 | reflexivity].
Qed.


Lemma unit_result (m : Result unit) : m = Ok tt \/ exists e, m = Throw e.
Proof.
  destruct m as [[] | e]; [now left | right; now exists e].
Qed.

Lemma forEach_Forall {A : Type} (f : A -> Result unit) (l : list A) :
  forEach f l = Ok tt <-> Forall (fun x => f x = Ok tt) l.
Proof.
  induction l as [| x rest IH]; simpl.
  - split; [constructor | reflexivity].
  - rewrite Forall_cons_iff, <- IH.
    destruct (f x) as [[] | e]; simpl.
    + split; [intros H; split; [reflexivity | exact H] | intros [_ H]; exact H].
    + split; [discriminate | intros [H _]; discriminate H].
Qed.

Lemma array_map_ok (f : JsValue -> Result unit) (v : JsValue) :
  array_map f v = Ok tt
  <-> exists elems, v = JArr elems /\ Forall (fun x => f x = Ok tt) elems.
Proof.
  destruct v as [| | b | q | s | elems | fs]; simpl;
    try (split; [discriminate | intros (l & H & _); discriminate H]).
  rewrite forEach_Forall. split.
  - intros H. now exists elems.
  - intros (l & H & Hl). inversion H. now subst.
Qed.

Lemma array_map_any (v : JsValue) :
  array_map (fun _ => Ok tt) v = Ok tt <-> isArray v = true.
Proof.
  rewrite array_map_ok. split.
  - intros (l & -> & _). reflexivity.
  - destruct v; try discriminate. intros _. eexists. split; [reflexivity |].
    apply Forall_forall. reflexivity.
Qed.

Lemma reads_member (v : JsValue) (k : string) :
  (x <- getMember v k ;; Ok tt) = Ok tt <-> nullish v = false.
Proof.
  unfold getMember. destruct (nullish v); simpl; split; congruence.
Qed.

Lemma array_map_members (k : string) (v : JsValue) :
  array_map (fun x => y <- getMember x k ;; Ok tt) v = Ok tt
  <-> arrayOfValues v.
Proof.
  rewrite array_map_ok. unfold arrayOfValues.
  split; intros (l & -> & Hl); exists l; (split; [reflexivity |]);
    eapply Forall_impl; [| exact Hl | | exact Hl]; intros x;
    apply reads_member.
Qed.




Lemma evalScoreOverview_ok (rv : JsValue) :
  nullish rv = false -> nullish (getProp rv "ai_analysis") = false ->
  (evalScoreOverview rv = Ok tt <-> categoriesGiven (getProp rv "ai_analysis")).
Proof.
  intros Hrv Ha. unfold evalScoreOverview, getMember, categoriesGiven.
  rewrite Hrv. simpl. rewrite Ha. simpl. unfold Object_entries.
  destruct (nullish (getProp (getProp rv "ai_analysis") "categories")); simpl.
  - split; [discriminate | intros [H _]; discriminate H].
  - rewrite forEach_Forall. split.
    + intros H. split; [reflexivity |].
      eapply Forall_impl; [| exact H]. intros entry. apply reads_member.
    + intros [_ H]. eapply Forall_impl; [| exact H]. intros entry.
      apply reads_member.
Qed.

Lemma evalAiAnalysisCard_ok (rv : JsValue) :
  nullish rv = false -> nullish (getProp rv "ai_analysis") = false ->
  nullish (getProp rv "detailed_issues") = false ->
  (evalAiAnalysisCard rv = Ok tt
   <-> listsGiven (getProp rv "ai_analysis")
       /\ arrayOfValues (getProp rv "detailed_issues")).
Proof.
  intros Hrv Ha Hi. unfold evalAiAnalysisCard, getMember, listsGiven.
  rewrite Hrv. simpl. rewrite Hi. simpl. rewrite Ha. simpl.
  rewrite <- (array_map_any (getProp (getProp rv "ai_analysis") "strengths")).
  rewrite <- (array_map_any (getProp (getProp rv "ai_analysis") "improvements")).
  rewrite <- (array_map_members "id" (getProp rv "detailed_issues")).
  destruct (unit_result
              (array_map (fun _ => Ok tt)
                 (getProp (getProp rv "ai_analysis") "strengths")))
    as [-> | [e ->]]; simpl;
    [| split; [discriminate | intros [[H _] _]; discriminate H]].
  destruct (unit_result
              (array_map (fun _ => Ok tt)
                 (getProp (getProp rv "ai_analysis") "improvements")))
    as [-> | [e ->]]; simpl;
    [| split; [discriminate | intros [[_ H] _]; discriminate H]].
  fold (getMember). tauto.
Qed.


Lemma truthy_not_nullish (v : JsValue) : truthy v = true -> nullish v = false.
Proof. destruct v; simpl; congruence. Qed.

(** The page is rendered when the expressions of the code display and of the
    mounted cards are. *)
Lemma rendered_iff (st : DetailState) :
  ReviewDetailPage st = DetailView (pageParts (review st)) ->
  (renderReviewDetailPage st = Ok (DetailView (pageParts (review st)))
   <-> evalCodeDisplay (review st) = Ok tt
       /\ (In ScoreOverview (pageParts (review st)) ->
           evalScoreOverview (review st) = Ok tt)
       /\ (In AiAnalysisCard (pageParts (review st)) ->
           evalAiAnalysisCard (review st) = Ok tt)
       /\ (In QuickStatsScore (pageParts (review st)) ->
           evalQuickStatsScore (review st) = Ok tt))
  /\ (renderReviewDetailPage st = Ok (DetailView (pageParts (review st)))
      \/ exists e, renderReviewDetailPage st = Throw e).
Proof.
  intros Hpage. unfold renderReviewDetailPage. rewrite Hpage.
  set (rv := review st).
  assert (Hall : forEach (evalPart rv) (pageParts rv) = Ok tt
                 <-> evalCodeDisplay rv = Ok tt
                     /\ (In ScoreOverview (pageParts rv) ->
                         evalScoreOverview rv = Ok tt)
                     /\ (In AiAnalysisCard (pageParts rv) ->
                         evalAiAnalysisCard rv = Ok tt)
                     /\ (In QuickStatsScore (pageParts rv) ->
                         evalQuickStatsScore rv = Ok tt)).
  { rewrite forEach_Forall, Forall_forall. split.
    - intros H. split; [| split; [| split]].
      + apply (H (CodeDisplay (getProp rv "code"))).
        unfold pageParts. simpl. right. apply in_or_app. right. now left.
      + intros Hin. exact (H _ Hin).
      + intros Hin. exact (H _ Hin).
      + intros Hin. exact (H _ Hin).
    - intros (Hc & Hs & Ha & Hq) p Hin.
      destruct p; simpl; try reflexivity; auto. }
  destruct (unit_result (forEach (evalPart rv) (pageParts rv)))
    as [Hok | [e He]].
  - rewrite Hok. simpl. split; [| now left].
    split; [intros _; now apply Hall | reflexivity].
  - rewrite He. simpl. split; [| right; now exists e].
    split; [discriminate |]. intros H. apply Hall in H. congruence.
Qed.

Lemma QuickStatsScore_mounted (rv : JsValue) :
  In QuickStatsScore (pageParts rv) <-> truthy (showQuickStatsScore rv) = true.
Proof.
  unfold pageParts. mounted_parts.
Qed.



End PageFacts.

(** ** Sorting by a key *)

Section ByKeyFacts.
Import Js ByKey.

Variable key : JsValue -> Z.

Lemma insertByKey_perm (x : JsValue) (s : list JsValue) :
  Permutation (insertByKey key x s) (x :: s).
Proof.
  induction s as [| y rest IH]; simpl.
  - apply Permutation_refl.
  - destruct (key x <=? key y).
    + apply Permutation_refl.
    + eapply perm_trans; [apply perm_skip, IH | apply perm_swap].
Qed.

Lemma sortByKey_perm (l : list JsValue) : Permutation (sortByKey key l) l.
Proof.
  induction l as [| x rest IH]; simpl.
  - apply perm_nil.
  - eapply perm_trans; [apply insertByKey_perm | now apply perm_skip].
Qed.

Lemma insertByKey_sorted (x : JsValue) (s : list JsValue) :
  StronglySorted (ordered key) s ->
  StronglySorted (ordered key) (insertByKey key x s).
Proof.
  induction s as [| y rest IH]; intros Hs; simpl.
  - constructor; [constructor | constructor].
  - apply StronglySorted_inv in Hs. destruct Hs as [Hrest Hy].
    destruct (Z.leb_spec (key x) (key y)) as [Hle | Hgt].
    + constructor; [constructor; assumption |].
      constructor; [exact Hle |].
      eapply Forall_impl; [| exact Hy].
      intros z Hz. unfold ordered in *. lia.
    + constructor; [now apply IH |].
      eapply Permutation_Forall;
        [apply Permutation_sym, insertByKey_perm |].
      constructor; [unfold ordered; lia | exact Hy].
Qed.

Lemma sortByKey_sorted (l : list JsValue) :
  StronglySorted (ordered key) (sortByKey key l).
Proof.
  induction l as [| x rest IH]; simpl.
  - constructor.
  - now apply insertByKey_sorted.
Qed.

(** Two sorted arrangements of rows with pairwise distinct keys are equal. *)
Lemma sorted_arrangement_unique (l1 l2 : list JsValue) :
  StronglySorted (ordered key) l1 -> StronglySorted (ordered key) l2 ->
  Permutation l1 l2 -> NoDup (map key l1) -> l1 = l2.
Proof.
  revert l2. induction l1 as [| a l1' IH]; intros l2 H1 H2 Hp Hnd.
  - apply Permutation_nil in Hp. now subst.
  - destruct l2 as [| b l2'].
    + apply Permutation_sym, Permutation_nil in Hp. discriminate.
    + apply StronglySorted_inv in H1. destruct H1 as [H1 Ha].
      apply StronglySorted_inv in H2. destruct H2 as [H2 Hb].
      simpl in Hnd. apply NoDup_cons_iff in Hnd. destruct Hnd as [Hnotin Hnd].
      assert (Hab : a = b).
      { assert (Hina : In a (b :: l2'))
          by (eapply Permutation_in; [exact Hp | now left]).
        assert (Hinb : In b (a :: l1'))
          by (eapply Permutation_in; [apply Permutation_sym, Hp | now left]).
        destruct Hina as [-> | Hina]; [reflexivity |].
        destruct Hinb as [-> | Hinb]; [reflexivity |].
        exfalso. apply Hnotin.
        rewrite Forall_forall in Ha, Hb.
        specialize (Ha b Hinb). specialize (Hb a Hina).
        unfold ordered in *.
        replace (key a) with (key b) by lia.
        now apply in_map. }
      subst b. f_equal. apply IH; try assumption.
      now apply Permutation_cons_inv in Hp.
Qed.

Lemma sorted_snoc (R : JsValue -> JsValue -> Prop) (l : list JsValue)
  (a : JsValue) :
  StronglySorted R l -> Forall (fun x => R x a) l ->
  StronglySorted R (l ++ [a]).
Proof.
  induction l as [| x rest IH]; intros Hs Hf; simpl.
  - constructor; constructor.
  - apply StronglySorted_inv in Hs. destruct Hs as [Hrest Hx].
    apply Forall_cons_iff in Hf. destruct Hf as [Hxa Hf].
    constructor; [now apply IH |].
    apply Forall_app. split; [exact Hx | now constructor].
Qed.

Lemma sorted_rev (l : list JsValue) :
  StronglySorted (ordered key) l ->
  StronglySorted (ordered (fun r => - key r)) (rev l).
Proof.
  induction l as [| a rest IH]; intros Hs; simpl.
  - constructor.
  - apply StronglySorted_inv in Hs. destruct Hs as [Hrest Ha].
    apply sorted_snoc; [now apply IH |].
    apply Forall_rev. eapply Forall_impl; [| exact Ha].
    intros z Hz. unfold ordered in *. lia.
Qed.

End ByKeyFacts.

Section ReverseFacts.
Import Js ByKey.

Variable key : JsValue -> Z.

(** With pairwise distinct keys, sorting by the negated key gives the
    reverse of sorting by the key. *)
Lemma sortByKey_negated (l : list JsValue) :
  NoDup (map key l) ->
  sortByKey (fun r => - key r) l = rev (sortByKey key l).
Proof.
  intros Hnd.
  apply (sorted_arrangement_unique (fun r => - key r)).
  - apply sortByKey_sorted.
  - apply sorted_rev, sortByKey_sorted.
  - eapply perm_trans; [apply sortByKey_perm |].
    eapply perm_trans; [apply Permutation_sym, sortByKey_perm |].
    apply Permutation_rev.
  - eapply Permutation_NoDup.
    + apply Permutation_map, Permutation_sym, sortByKey_perm.
    + rewrite <- (map_map key Z.opp).
      apply NoDup_map_NoDup_ForallPairs; [| exact Hnd].
      intros a b _ _ Hab. lia.
Qed.

End ReverseFacts.

(** ** Searching a text *)

Section IncludesFacts.
Import Js History.
Local Open Scope string_scope.

Lemma prefix_append (t s : string) :
  String.prefix t s = true <-> exists after, s = t ++ after.
Proof.
  revert s. induction t as [| c t' IH]; intros s.
  - split; [intros _; now exists s | intros _; now destruct s].
  - destruct s as [| d s']; simpl.
    + split; [discriminate | intros [after H]; discriminate].
    + destruct (Ascii.ascii_dec c d) as [-> | Hne].
      * rewrite IH. split; intros [after H]; exists after; congruence.
      * split; [discriminate | intros [after H]; congruence].
Qed.

Lemma includes_unfold (s t : string) :
  includes s t
  = if String.prefix t s then true
    else match s with
         | EmptyString => false
         | String _ rest => includes rest t
         end.
Proof. destruct s; reflexivity. Qed.

(** [s.includes(t)] holds exactly when [t] occurs in [s]. *)
Lemma includes_occurs (s t : string) :
  includes s t = true <-> exists before after, s = before ++ t ++ after.
Proof.
  split.
  - induction s as [| c rest IH]; rewrite includes_unfold;
      destruct (String.prefix t _) eqn:Hp.
    + intros _. apply prefix_append in Hp. destruct Hp as [after Hp].
      now exists "", after.
    + discriminate.
    + intros _. apply prefix_append in Hp. destruct Hp as [after Hp].
      now exists "", after.
    + intros H. destruct (IH H) as (before & after & Heq).
      exists (String c before), after. simpl. now rewrite Heq.
  - intros (before & after & Heq). subst s.
    induction before as [| c before' IH]; rewrite includes_unfold.
    + simpl.
      assert (Hp : String.prefix t (t ++ after) = true)
        by (apply prefix_append; now exists after).
      now rewrite Hp.
    + destruct (String.prefix t _); [reflexivity | exact IH].
Qed.

Lemma includes_empty (s : string) : includes s "" = true.
Proof. rewrite includes_unfold. now destruct s. Qed.

End IncludesFacts.

(** ** The filter of the history *)

Section FilterFacts.
Import Js Http History Contract.
Local Open Scope string_scope.

Variable toLowerCase : string -> string.

Lemma filterM_pure {A : Type} (p : A -> Result bool) (f : A -> bool)
  (l : list A) :
  Forall (fun x => p x = Ok (f x)) l -> filterM p l = Ok (filter f l).
Proof.
  induction 1 as [| x rest Hx _ IH]; simpl; [reflexivity |].
  rewrite Hx. simpl. rewrite IH. reflexivity.
Qed.

Lemma filterM_kept {A : Type} (p : A -> Result bool) (l kept : list A) :
  filterM p l = Ok kept -> Forall (fun x => p x = Ok true) kept.
Proof.
  revert kept. induction l as [| x rest IH]; simpl; intros kept H.
  - inversion H. constructor.
  - destruct (p x) as [b | e] eqn:Hx; simpl in H; [| discriminate].
    destruct (filterM p rest) as [kept' | e]; simpl in H; [| discriminate].
    inversion H. subst kept. destruct b.
    + constructor; [exact Hx | now apply IH].
    + now apply IH.
Qed.

Lemma filterM_all {A : Type} (p : A -> Result bool) (l : list A) :
  Forall (fun x => p x = Ok true) l -> filterM p l = Ok l.
Proof.
  induction 1 as [| x rest Hx _ IH]; simpl; [reflexivity |].
  rewrite Hx. simpl. rewrite IH. reflexivity.
Qed.

Lemma fieldIncludes_text (row : JsValue) (field q text : string) :
  getProp row field = JStr text ->
  fieldIncludes toLowerCase row field q = Ok (fieldHas toLowerCase q row field).
Proof.
  intros H. unfold fieldIncludes, fieldHas, getMember.
  destruct (nullish row) eqn:Hn.
  - destruct row; simpl in *; discriminate.
  - simpl. now rewrite H.
Qed.

Lemma fieldIncludes_missing (row : JsValue) (field q : string) :
  nullish row = false -> nullish (getProp row field) = true ->
  fieldIncludes toLowerCase row field q = Ok (fieldHas toLowerCase q row field).
Proof.
  intros Hrow H. unfold fieldIncludes, fieldHas, getMember. rewrite Hrow. simpl.
  destruct (getProp row field); simpl in *; try discriminate; reflexivity.
Qed.

Lemma keepRow_summaryRow (st : HistoryState) (row : JsValue) :
  toLowerCase "" = "" ->
  languageFilter st = "all" -> summaryRow row ->
  keepRow toLowerCase st row = Ok (queryOccurs toLowerCase (searchQuery st) row).
Proof.
  intros Hlow Hlf (Hrow & [l Hl] & [t Ht] & Hc).
  unfold keepRow, matchesLanguage. rewrite Hlf. simpl.
  unfold matchesSearch, queryOccurs.
  destruct (String.eqb (searchQuery st) "") eqn:Hq.
  - apply String.eqb_eq in Hq. rewrite Hq. simpl.
    unfold fieldHas at 1. rewrite Hl, Hlow, includes_empty. reflexivity.
  - rewrite (fieldIncludes_text row "language" _ l Hl).
    rewrite (fieldIncludes_text row "title" _ t Ht).
    assert (Hcode : fieldIncludes toLowerCase row "code" (searchQuery st)
                    = Ok (fieldHas toLowerCase (searchQuery st) row "code")).
    { destruct Hc as [Hc | [c Hc]].
      - now apply fieldIncludes_missing.
      - now apply (fieldIncludes_text row "code" _ c). }
    rewrite Hcode. unfold orElse. simpl.
    destruct (fieldHas toLowerCase (searchQuery st) row "language"); simpl;
      [reflexivity |].
    destruct (fieldHas toLowerCase (searchQuery st) row "title"); simpl;
      [reflexivity |].
    now rewrite andb_true_r.
Qed.

Lemma fieldHas_occurs (q : string) (row : JsValue) (field : string) :
  fieldHas toLowerCase q row field = true
  <-> exists text, getProp row field = JStr text
                   /\ ci_substring toLowerCase q text.
Proof.
  unfold fieldHas, ci_substring. split.
  - destruct (getProp row field) as [| | | | text | |]; try discriminate.
    intros H. exists text. split; [reflexivity | now apply includes_occurs].
  - intros (text & -> & H). now apply includes_occurs.
Qed.

Lemma queryOccurs_matchesQuery (q : string) (row : JsValue) :
  queryOccurs toLowerCase q row = true <-> matchesQuery toLowerCase q row.
Proof.
  unfold queryOccurs, matchesQuery. rewrite !orb_true_iff, !fieldHas_occurs.
  split.
  - intros [[(text & H1 & H2) | (text & H1 & H2)] | (text & H1 & H2)].
    + exists "language", text. simpl. tauto.
    + exists "title", text. simpl. tauto.
    + exists "code", text. simpl. tauto.
  - intros (field & text & Hin & H1 & H2). simpl in Hin.
    destruct Hin as [<- | [<- | [<- | []]]].
    + left. left. now exists text.
    + left. right. now exists text.
    + right. now exists text.
Qed.

End FilterFacts.

(** ** The sort of the history *)

Section SortFacts.
Import Js Http History Contract ByKey.
Local Open Scope string_scope.
Local Open Scope Z_scope.

Variable Date_getTime : JsValue -> option Z.

Let timeOf := Contract.timeOf Date_getTime.
Let compareRows := History.compareRows Date_getTime.
Let keyOf := Contract.keyOf Date_getTime.

Lemma compareRows_dated (by_ : string) (a b : JsValue) (x y : Z) :
  timeOf a = Some x -> timeOf b = Some y ->
  compareRows by_ a b
  = Ok (if String.eqb by_ "newest" then y - x else x - y).
Proof.
  unfold timeOf, compareRows, Contract.timeOf, History.compareRows.
  intros Ha Hb.
  destruct (createdAt Date_getTime a) as [[ta |] | ea]; try discriminate.
  destruct (createdAt Date_getTime b) as [[tb |] | eb]; try discriminate.
  simpl. injection Ha as ->. injection Hb as ->. reflexivity.
Qed.

Lemma compareRows_keyOf (by_ : string) (a b : JsValue) :
  timeOf a <> None -> timeOf b <> None ->
  exists c, compareRows by_ a b = Ok c
            /\ (c <=? 0) = (keyOf by_ a <=? keyOf by_ b).
Proof.
  intros Ha Hb.
  destruct (timeOf a) as [x |] eqn:Hx; [| congruence].
  destruct (timeOf b) as [y |] eqn:Hy; [| congruence].
  rewrite (compareRows_dated by_ a b x y Hx Hy). eexists. split; [reflexivity |].
  unfold keyOf, Contract.keyOf, descending, ascending.
  fold timeOf.
  destruct (String.eqb by_ "newest"); rewrite Hx, Hy;
    destruct (Z.leb_spec (y - x) 0), (Z.leb_spec (- x) (- y)),
      (Z.leb_spec (x - y) 0), (Z.leb_spec x y); try reflexivity; lia.
Qed.

Lemma insertRow_dated (by_ : string) (x : JsValue) (s : list JsValue) :
  timeOf x <> None -> Forall (fun r => timeOf r <> None) s ->
  insertRow (compareRows by_) x s = Ok (insertByKey (keyOf by_) x s).
Proof.
  intros Hx Hs. induction Hs as [| y rest Hy _ IH]; simpl; [reflexivity |].
  destruct (compareRows_keyOf by_ x y Hx Hy) as (c & Hc & Hle).
  rewrite Hc. simpl. rewrite Hle.
  destruct (keyOf by_ x <=? keyOf by_ y); [reflexivity |].
  rewrite IH. reflexivity.
Qed.

(** On rows whose dates are all valid the sort does not throw and is the
    stable sort by the key of [sortBy]. *)
Lemma sortRows_dated (by_ : string) (l : list JsValue) :
  Forall (fun r => timeOf r <> None) l ->
  sortRows (compareRows by_) l = Ok (sortByKey (keyOf by_) l).
Proof.
  induction 1 as [| x rest Hx Hrest IH]; simpl; [reflexivity |].
  rewrite IH. simpl. apply insertRow_dated; [exact Hx |].
  eapply Permutation_Forall; [apply Permutation_sym, sortByKey_perm | exact Hrest].
Qed.

Lemma distinct_times_distinct_keys (l : list JsValue) :
  Forall (fun r => timeOf r <> None) l ->
  NoDup (map timeOf l) -> NoDup (map (ascending Date_getTime) l).
Proof.
  intros Hv Hnd.
  assert (Heq : map timeOf l = map Some (map (ascending Date_getTime) l)).
  { rewrite map_map. apply map_ext_in. intros r Hr.
    rewrite Forall_forall in Hv. specialize (Hv r Hr).
    unfold ascending. fold timeOf. now destruct (timeOf r). }
  rewrite Heq in Hnd. now apply NoDup_map_inv in Hnd.
Qed.

End SortFacts.

Section ListReviews.
Import Js Http History Contract ByKey.
Local Open Scope string_scope.
Local Open Scope Z_scope.

Variable toLowerCase : string -> string.
Variable Date_getTime : JsValue -> option Z.

(** C8.  On rows of the history (objects with a language and a title, and
    possibly a code) the filter keeps exactly the rows in whose language,
    title or code the query occurs, letter case aside, in their order; and
    on rows whose dates are valid and pairwise distinct the order by
    [newest] is the reverse of the order by [oldest].  The language filter
    stays at ["all"], the page having no control that sets it, and
    lower-casing the empty text gives the empty text. *)
Theorem filter_matches_and_orders_reverse (st : HistoryState)
  (rows : list JsValue) :
  (toLowerCase "" = "" ->
   languageFilter st = "all" ->
   Forall summaryRow rows ->
   exists keep : JsValue -> bool,
     (forall row, keep row = true
                  <-> matchesQuery toLowerCase (searchQuery st) row)
     /\ filterM (keepRow toLowerCase st) rows = Ok (filter keep rows))
  /\ (Forall (fun r => timeOf Date_getTime r <> None) rows ->
      NoDup (map (timeOf Date_getTime) rows) ->
      exists newest oldest,
        sortRows (compareRows Date_getTime "newest") rows = Ok newest
        /\ sortRows (compareRows Date_getTime "oldest") rows = Ok oldest
        /\ newest = rev oldest).
Proof.
  split.
  - intros Hlow Hlf Hrows.
    exists (queryOccurs toLowerCase (searchQuery st)). split.
    + intros row. apply queryOccurs_matchesQuery.
    + apply filterM_pure. eapply Forall_impl; [| exact Hrows].
      intros row Hrow. now apply keepRow_summaryRow.
  - intros Hv Hnd.
    rewrite (sortRows_dated Date_getTime "newest" rows Hv).
    rewrite (sortRows_dated Date_getTime "oldest" rows Hv).
    eexists. eexists. split; [reflexivity |]. split; [reflexivity |].
    unfold keyOf. simpl. unfold descending.
    apply (sortByKey_negated (ascending Date_getTime)).
    now apply distinct_times_distinct_keys.
Qed.

End ListReviews.

(** ** Stability and idempotence of the sort *)

Section StableFacts.
Import Js Http History Contract.
Local Open Scope string_scope.
Local Open Scope Z_scope.

Variable Date_getTime : JsValue -> option Z.
Variable by_ : string.

Let cmp := History.compareRows Date_getTime by_.

Let inOrder := Contract.inOrder Date_getTime by_.

Lemma cmp_positive (x y : JsValue) (c : Z) :
  cmp x y = Ok c -> 0 < c ->
  exists tx ty, timeOf Date_getTime x = Some tx
                /\ timeOf Date_getTime y = Some ty /\ tx <> ty.
Proof.
  unfold cmp, compareRows, timeOf.
  destruct (createdAt Date_getTime x) as [[tx |] | ex]; simpl;
    destruct (createdAt Date_getTime y) as [[ty |] | ey]; simpl;
    intros H Hc; inversion H; subst c; try lia.
  exists tx, ty. repeat split.
  destruct (String.eqb by_ "newest"); lia.
Qed.

Lemma cmp_swap (x y : JsValue) (c : Z) :
  cmp x y = Ok c -> 0 < c -> inOrder y x.
Proof.
  unfold inOrder, Contract.inOrder, cmp, compareRows.
  destruct (createdAt Date_getTime x) as [[tx |] | ex]; simpl;
    destruct (createdAt Date_getTime y) as [[ty |] | ey]; simpl;
    intros H Hc; inversion H; subst c; try lia.
  eexists. split; [reflexivity |].
  destruct (String.eqb by_ "newest"); lia.
Qed.

Lemma insertRow_perm (x : JsValue) (s out : list JsValue) :
  insertRow cmp x s = Ok out -> Permutation out (x :: s).
Proof.
  revert out. induction s as [| y rest IH]; simpl; intros out H.
  - inversion H. apply Permutation_refl.
  - destruct (cmp x y) as [c | e]; simpl in H; [| discriminate].
    destruct (c <=? 0).
    + inversion H. apply Permutation_refl.
    + destruct (insertRow cmp x rest) as [placed | e]; simpl in H;
        [| discriminate].
      inversion H. subst out.
      eapply perm_trans; [apply perm_skip, IH; reflexivity | apply perm_swap].
Qed.

Lemma sortRows_perm (l out : list JsValue) :
  sortRows cmp l = Ok out -> Permutation out l.
Proof.
  revert out. induction l as [| x rest IH]; simpl; intros out H.
  - inversion H. apply perm_nil.
  - destruct (sortRows cmp rest) as [sorted | e]; simpl in H; [| discriminate].
    eapply perm_trans; [apply insertRow_perm; exact H |].
    apply perm_skip, IH. reflexivity.
Qed.

Lemma insertRow_head (x : JsValue) (s out : list JsValue) :
  insertRow cmp x s = Ok out ->
  exists tl, out = x :: tl \/ exists y rest, s = y :: rest /\ out = y :: tl.
Proof.
  destruct s as [| y rest]; simpl; intros H.
  - inversion H. exists []. now left.
  - destruct (cmp x y) as [c | e]; simpl in H; [| discriminate].
    destruct (c <=? 0).
    + inversion H. exists (y :: rest). now left.
    + destruct (insertRow cmp x rest) as [placed | e]; simpl in H;
        [| discriminate].
      inversion H. exists placed. right. now exists y, rest.
Qed.

Lemma insertRow_sorted (x : JsValue) (s out : list JsValue) :
  Sorted inOrder s -> insertRow cmp x s = Ok out -> Sorted inOrder out.
Proof.
  revert out. induction s as [| y rest IH]; simpl; intros out Hs H.
  - inversion H. constructor; constructor.
  - destruct (cmp x y) as [c | e] eqn:Hc; simpl in H; [| discriminate].
    destruct (Z.leb_spec c 0) as [Hle | Hgt].
    + inversion H. constructor; [exact Hs |].
      constructor. now exists c.
    + destruct (insertRow cmp x rest) as [placed | e] eqn:Hp; simpl in H;
        [| discriminate].
      inversion H. subst out. apply Sorted_inv in Hs. destruct Hs as [Hrest Hy].
      constructor; [now apply IH |].
      destruct (insertRow_head x rest placed Hp)
        as [tl [-> | (z & rest' & -> & ->)]].
      * constructor. now apply (cmp_swap x y c).
      * constructor. now inversion Hy.
Qed.

Lemma sortRows_sorted (l out : list JsValue) :
  sortRows cmp l = Ok out -> Sorted inOrder out.
Proof.
  revert out. induction l as [| x rest IH]; simpl; intros out H.
  - inversion H. constructor.
  - destruct (sortRows cmp rest) as [sorted | e]; simpl in H; [| discriminate].
    eapply insertRow_sorted; [| exact H]. now apply IH.
Qed.

(** The sort leaves an array alone that is already in order. *)
Lemma sortRows_fixed (l : list JsValue) :
  Sorted inOrder l -> sortRows cmp l = Ok l.
Proof.
  induction 1 as [| x rest Hrest IH Hx]; simpl; [reflexivity |].
  rewrite IH. simpl.
  destruct Hx as [| y rest' (c & Hc & Hle)]; simpl; [reflexivity |].
  fold cmp in Hc. rewrite Hc. simpl.
  destruct (Z.leb_spec c 0); [reflexivity | lia].
Qed.

(** The sort keeps the rows of one instant in the order they had. *)
Lemma insertRow_stable (t : Z) (x : JsValue) (s out : list JsValue) :
  insertRow cmp x s = Ok out ->
  filter (timeIs Date_getTime t) out = filter (timeIs Date_getTime t) (x :: s).
Proof.
  revert out. induction s as [| y rest IH]; simpl; intros out H.
  - now inversion H.
  - destruct (cmp x y) as [c | e] eqn:Hc; simpl in H; [| discriminate].
    destruct (Z.leb_spec c 0) as [Hle | Hgt].
    + now inversion H.
    + destruct (insertRow cmp x rest) as [placed | e]; simpl in H;
        [| discriminate].
      inversion H. subst out. simpl. rewrite (IH placed eq_refl). simpl.
      destruct (cmp_positive x y c Hc Hgt) as (tx & ty & Hx & Hy & Hne).
      unfold timeIs. rewrite Hx, Hy.
      destruct (Z.eqb_spec tx t), (Z.eqb_spec ty t); try reflexivity; lia.
Qed.

Lemma sortRows_stable (t : Z) (l out : list JsValue) :
  sortRows cmp l = Ok out ->
  filter (timeIs Date_getTime t) out = filter (timeIs Date_getTime t) l.
Proof.
  revert out. induction l as [| x rest IH]; simpl; intros out H.
  - now inversion H.
  - destruct (sortRows cmp rest) as [sorted | e]; simpl in H; [| discriminate].
    rewrite (insertRow_stable t x sorted out H). simpl.
    now rewrite (IH sorted eq_refl).
Qed.

End StableFacts.

(** ** The array store *)

Section HeapFacts.
Import Js History.

Lemma deref_alloc (l : list JsValue) (h : Heap) :
  deref (List.length h) (h ++ [l]) = Ok l.
Proof.
  unfold deref.
  rewrite nth_error_app2 by apply Nat.le_refl.
  now rewrite Nat.sub_diag.
Qed.

Lemma deref_bound (r : Ref) (h : Heap) (l : list JsValue) :
  deref r h = Ok l -> (r < List.length h)%nat.
Proof.
  unfold deref. destruct (nth_error h r) eqn:H; [| discriminate].
  intros _. apply nth_error_Some. congruence.
Qed.

Lemma store_last (l l' : list JsValue) (h : Heap) :
  store (List.length h) l' (h ++ [l]) = h ++ [l'].
Proof. induction h as [| a rest IH]; simpl; [reflexivity | now rewrite IH]. Qed.

End HeapFacts.

Section Pipeline.
Import Js Http History Contract.
Local Open Scope string_scope.
Local Open Scope list_scope.

Variable toLowerCase : string -> string.
Variable Date_getTime : JsValue -> option Z.

Lemma filtered_run (st : HistoryState) (h : Heap) (rows out : list JsValue) :
  deref (history st) h = Ok rows ->
  filterSort toLowerCase Date_getTime st rows = Ok out ->
  filtered toLowerCase Date_getTime st h = Ok (List.length h, (h ++ [out])%list).
Proof.
  unfold filterSort, filtered, array_filter, array_sort. intros Hd Hfs.
  rewrite Hd. simpl.
  destruct (filterM (keepRow toLowerCase st) rows) as [kept | e]; simpl in *;
    [| discriminate].
  rewrite (deref_alloc kept h). simpl. rewrite Hfs. simpl.
  now rewrite store_last.
Qed.

(** C9.  On rows whose dates are all valid, the pipeline is a function of
    the rows of the source array: it returns a new array and leaves every
    array that existed, the source among them, as it was; applied to its own
    output it returns that output; and rows created at the same instant keep
    the order they had after the filter. *)
Theorem filter_sort_pure_idempotent_stable (st : HistoryState) (h : Heap)
  (rows out : list JsValue) :
  deref (history st) h = Ok rows ->
  Forall (fun r => timeOf Date_getTime r <> None) rows ->
  filterSort toLowerCase Date_getTime st rows = Ok out ->
  filtered toLowerCase Date_getTime st h = Ok (List.length h, (h ++ [out])%list)
  /\ (forall r, (r < List.length h)%nat ->
                nth_error (h ++ [out])%list r = nth_error h r)
  /\ deref (history st) (h ++ [out])%list = Ok rows
  /\ filterSort toLowerCase Date_getTime st out = Ok out
  /\ exists kept,
       filterM (keepRow toLowerCase st) rows = Ok kept
       /\ forall t, filter (timeIs Date_getTime t) out
                    = filter (timeIs Date_getTime t) kept.
Proof.
  intros Hd _ Hfs. split; [now apply (filtered_run st h rows) |].
  split; [intros r Hr; now apply nth_error_app1 |].
  split.
  { unfold deref in *. rewrite nth_error_app1; [exact Hd |].
    now apply (deref_bound _ _ rows). }
  unfold filterSort in *.
  destruct (filterM (keepRow toLowerCase st) rows) as [kept | e] eqn:Hk;
    simpl in Hfs; [| discriminate].
  split.
  - assert (Hall : Forall (fun x => keepRow toLowerCase st x = Ok true) out).
    { eapply Permutation_Forall.
      - apply Permutation_sym. eapply sortRows_perm. exact Hfs.
      - eapply filterM_kept. exact Hk. }
    rewrite (filterM_all _ _ Hall). simpl.
    apply sortRows_fixed. eapply sortRows_sorted. exact Hfs.
  - exists kept. split; [reflexivity |].
    intros t. eapply sortRows_stable. exact Hfs.
Qed.

Lemma receivedRows_notAList (resp : FetchResult) :
  notAList resp -> receivedRows resp = [].
Proof.
  unfold receivedRows, checkedJson, notAList, decodeJson.
  destruct resp as [msg | res]; [reflexivity |].
  destruct (ok res); simpl; [| reflexivity].
  intros [Hok | [Hj | (data & Hj & Harr)]].
  - discriminate.
  - now rewrite Hj.
  - rewrite Hj, Harr. now rewrite orb_true_r.
Qed.

(** C10.  When the history end point answers with an error status, with a
    body that does not decode, or with a value that is not an array (or does
    not answer at all), the history is set to the empty array, and the page
    shows no card and the "No matching reviews found." card, whatever the
    search and sort controls hold; nothing is thrown. *)
Theorem malformed_history_shows_no_reviews (st : HistoryState) (h : Heap)
  (resp : FetchResult) (u : string) :
  userId st = Some u -> notAList resp ->
  let st' := fst (fetchHistory st h resp) in
  let h' := snd (fetchHistory st h resp) in
  deref (history st') h' = Ok []
  /\ loading st' = false
  /\ searchQuery st' = searchQuery st /\ sortBy st' = sortBy st
  /\ HistoryPage toLowerCase Date_getTime st' h'
     = Ok (ListView [] true, (h' ++ [[]])%list).
Proof.
  intros Hu Hbad. unfold fetchHistory. rewrite Hu.
  rewrite (receivedRows_notAList resp Hbad). simpl.
  split; [apply (deref_alloc [] h) |].
  split; [reflexivity |]. split; [reflexivity |]. split; [reflexivity |].
  unfold HistoryPage.
  erewrite filtered_run; [| apply (deref_alloc [] h) | reflexivity].
  simpl. rewrite (deref_alloc [] (h ++ [[]])). reflexivity.
Qed.

End Pipeline.

(** ** The theorems on the sample responses *)

Section OnSamples.
Import Js Http ReviewDetail Contract Samples.
Local Open Scope string_scope.

Lemma delivered_R1 : delivered signedIn (response200 bodyR1) reviewR1.
Proof. repeat split; try reflexivity. discriminate. Defined.



Lemma delivered_R3 : delivered signedIn (response200 bodyR3) reviewR3.
Proof. repeat split; try reflexivity. discriminate. Defined.

Lemma delivered_R6 : delivered signedIn (response200 bodyR6) reviewR6.
Proof. repeat split; try reflexivity. discriminate. Defined.


Lemma R1_is_not_empty : "R1" <> "".
Proof. discriminate. Defined.

(** C1 on the scenario of section 8. *)
Lemma status_is_copied_verbatim_R1 :
  "R1" <> "" /\ delivered signedIn (response200 bodyR1) reviewR1
  /\ getProp (review (useReviewDetail Platform.JSON_parse "R1" signedIn
                        (Settled (response200 bodyR1)))) "status"
     = JStr "completed".
Proof.
  split; [exact R1_is_not_empty |]. split; [exact delivered_R1 |].
  exact (proj1 (proj2 (status_is_copied_verbatim Platform.JSON_parse "R1"
                         signedIn (response200 bodyR1) reviewR1
                         R1_is_not_empty delivered_R1))).
Defined.


(** C3 as stated does not hold: with a linked analysis the merged review
    has that analysis although the embedded results do not decode. *)
Lemma malformed_payload_keeps_linked_record :
  embeddedResults reviewR3 = JStr "{not json"
  /\ Platform.JSON_parse "{not json" = None
  /\ getProp (review (useReviewDetail Platform.JSON_parse "R3" signedIn
                        (Settled (response200 bodyR3)))) "ai_analysis"
     <> JUndefined.
Proof. split; [reflexivity |]. split; [reflexivity |]. vm_compute. discriminate. Qed.

(** C3 as amended, on the same review. *)
Lemma malformed_payload_is_absorbed_R3 :
  error (useReviewDetail Platform.JSON_parse "R3" signedIn
           (Settled (response200 bodyR3))) = None
  /\ getProp (review (useReviewDetail Platform.JSON_parse "R3" signedIn
                        (Settled (response200 bodyR3)))) "ai_analysis"
     = analysisRecord
  /\ getProp (review (useReviewDetail Platform.JSON_parse "R3" signedIn
                        (Settled (response200 bodyR3)))) "metrics"
     = JUndefined
  /\ getProp (review (useReviewDetail Platform.JSON_parse "R3" signedIn
                        (Settled (response200 bodyR3)))) "detailed_issues"
     = JArr [].
Proof.
  assert (Hid : "R3" <> "") by discriminate.
  destruct (malformed_payload_is_absorbed Platform.JSON_parse "R3" signedIn
              (response200 bodyR3) reviewR3 "{not json" Hid delivered_R3
              eq_refl eq_refl) as (Herr & _ & _ & Hgroups).
  split; [exact Herr |].
  split; [exact (proj1 (Hgroups Analysis) eq_refl) |].
  split; [exact (proj2 (Hgroups Metrics) eq_refl) |].
  exact (proj2 (Hgroups Issues) eq_refl).
Defined.

(** C4 on the stored review R1 of user u1. *)
Lemma aggregate_not_found_or_forbidden_R1 :
  aggregate storedReviews "R9" "u1" = NotFound
  /\ aggregate storedReviews "R1" "u2" = Forbidden
  /\ responseFields (aggregate storedReviews "R1" "u2") = []
  /\ review (useReviewDetail Platform.JSON_parse "R1" signedIn
               (respond (aggregate storedReviews "R1" "u2"))) = JNull.
Proof.
  destruct (aggregate_not_found_or_forbidden Platform.JSON_parse
              storedReviews "R9" "u1") as (Hmissing & _ & _).
  destruct (aggregate_not_found_or_forbidden Platform.JSON_parse
              storedReviews "R1" "u2") as (_ & Hother & Hconsumer).
  split.
  { apply Hmissing. intros r [<- | []]. discriminate. }
  assert (Hne : "u1" <> "u2") by discriminate.
  destruct (Hother _ eq_refl Hne) as [Hf Hfields].
  split; [exact Hf |]. split; [exact Hfields |].
  exact (proj1 (Hconsumer signedIn (or_intror Hf))).
Defined.

(** C5 as stated does not hold: the payload of R5 has [issues: 0], which is
    present, yet the merged review has the empty array. *)
Lemma resolution_is_not_nullish_coalescing :
  nullish (optGet (parseResults Platform.JSON_parse reviewR5) "issues") = false
  /\ getProp (formatDetailedReview reviewR5
                (parseResults Platform.JSON_parse reviewR5)) "detailed_issues"
     <> resolveFieldGroup (unresolved Issues)
          (getProp reviewR5 "detailed_issues")
          (optGet (parseResults Platform.JSON_parse reviewR5) "issues").
Proof. split; [reflexivity | vm_compute; discriminate]. Qed.

(** C5 as amended: the metrics of R1 are the primary, its analysis is the
    fallback, the issues of R5 are the marker, and on R1 the rule gives what
    [??] gives. *)
Lemma field_groups_resolve_by_truthiness_R1 :
  getProp (formatDetailedReview reviewR1
             (parseResults Platform.JSON_parse reviewR1)) "metrics"
  = getProp reviewR1 "metrics"
  /\ getProp (formatDetailedReview reviewR1
                (parseResults Platform.JSON_parse reviewR1)) "ai_analysis"
     = optGet (parseResults Platform.JSON_parse reviewR1) "analysis"
  /\ getProp (formatDetailedReview reviewR5
                (parseResults Platform.JSON_parse reviewR5)) "detailed_issues"
     = JArr []
  /\ getProp (formatDetailedReview reviewR1
                (parseResults Platform.JSON_parse reviewR1)) "ai_analysis"
     = resolveFieldGroup JUndefined (getProp reviewR1 "ai_analysis")
         (optGet (parseResults Platform.JSON_parse reviewR1) "analysis").
Proof.
  split.
  { exact (proj1 (field_groups_resolve_by_truthiness Metrics reviewR1
                    (parseResults Platform.JSON_parse reviewR1)) eq_refl). }
  split.
  { exact (proj1 (proj2 (field_groups_resolve_by_truthiness Analysis reviewR1
                    (parseResults Platform.JSON_parse reviewR1)))
             eq_refl eq_refl). }
  split.
  { exact (proj1 (proj2 (proj2 (field_groups_resolve_by_truthiness Issues
                    reviewR5 (parseResults Platform.JSON_parse reviewR5))))
             eq_refl eq_refl). }
  exact (proj2 (proj2 (proj2 (field_groups_resolve_by_truthiness Analysis
                  reviewR1 (parseResults Platform.JSON_parse reviewR1))))
           eq_refl eq_refl).
Defined.

End OnSamples.

Section PagesOnSamples.
Import Js Http ReviewDetail DetailRender Contract Samples MoreSamples.
Local Open Scope string_scope.





End PagesOnSamples.

Section HistoryOnSamples.
Import Js Http History Contract Samples.
Local Open Scope string_scope.

Lemma datedRows_are_summaries : Forall summaryRow datedRows.
Proof.
  repeat constructor; try (eexists; reflexivity);
    try (right; eexists; reflexivity); left; reflexivity.
Defined.

Lemma datedRows_are_dated :
  Forall (fun r => timeOf Platform.Date_getTime r <> None) datedRows.
Proof. repeat constructor; discriminate. Defined.

Lemma datedRows_are_distinct :
  NoDup (map (timeOf Platform.Date_getTime) datedRows).
Proof.
  repeat constructor; simpl; intros H;
    repeat (destruct H as [H | H]; [discriminate H |]); exact H.
Defined.

(** C8 on three rows and the query "PY": the rows in Python and with the
    title "happy path" are kept, and the two orders are reverses. *)
Lemma filter_matches_and_orders_reverse_rows :
  (exists keep : JsValue -> bool,
      (forall row, keep row = true
                   <-> matchesQuery Platform.toLowerCase "PY" row)
      /\ filterM (keepRow Platform.toLowerCase (searching "PY" "newest"))
           datedRows
         = Ok (filter keep datedRows))
  /\ (exists newest oldest,
        sortRows (compareRows Platform.Date_getTime "newest") datedRows
        = Ok newest
        /\ sortRows (compareRows Platform.Date_getTime "oldest") datedRows
           = Ok oldest
        /\ newest = rev oldest).
Proof.
  destruct (filter_matches_and_orders_reverse Platform.toLowerCase
              Platform.Date_getTime (searching "PY" "newest") datedRows)
    as [Hfilter Hsort].
  split.
  - exact (Hfilter eq_refl eq_refl datedRows_are_summaries).
  - exact (Hsort datedRows_are_dated datedRows_are_distinct).
Defined.

Lemma tiedRows_are_dated :
  Forall (fun r => timeOf Platform.Date_getTime r <> None) tiedRows.
Proof. repeat constructor; discriminate. Defined.

(** C9 on three rows of which the first and the last are tied. *)
Lemma filter_sort_pure_idempotent_stable_rows :
  Forall (fun r => timeOf Platform.Date_getTime r <> None) tiedRows
  /\ filtered Platform.toLowerCase Platform.Date_getTime
    (searching "" "oldest") [tiedRows]
  = Ok (1%nat,
        [tiedRows;
         [nth 1 tiedRows JNull; nth 0 tiedRows JNull; nth 2 tiedRows JNull]])
  /\ filterSort Platform.toLowerCase Platform.Date_getTime
       (searching "" "oldest")
       [nth 1 tiedRows JNull; nth 0 tiedRows JNull; nth 2 tiedRows JNull]
     = Ok [nth 1 tiedRows JNull; nth 0 tiedRows JNull; nth 2 tiedRows JNull].
Proof.
  destruct (filter_sort_pure_idempotent_stable Platform.toLowerCase
              Platform.Date_getTime (searching "" "oldest") [tiedRows]
              tiedRows
              [nth 1 tiedRows JNull; nth 0 tiedRows JNull; nth 2 tiedRows JNull]
              eq_refl tiedRows_are_dated eq_refl) as (Hrun & _ & _ & Hidem & _).
  split; [exact tiedRows_are_dated |]. split; [exact Hrun | exact Hidem].
Defined.

(** C10 on a 500 response and on a body that is an object. *)
Lemma malformed_history_shows_no_reviews_samples :
  HistoryPage Platform.toLowerCase Platform.Date_getTime
    (fst (fetchHistory (searching "py" "newest") initialHeap
            (Settled {| status := 500; statusText := "Internal Server Error";
                        json := None |})))
    (snd (fetchHistory (searching "py" "newest") initialHeap
            (Settled {| status := 500; statusText := "Internal Server Error";
                        json := None |})))
  = Ok (ListView [] true, [[]; []; []])
  /\ HistoryPage Platform.toLowerCase Platform.Date_getTime
       (fst (fetchHistory (searching "py" "newest") initialHeap
               (Settled (response200 "{'detail':'no rows'}"))))
       (snd (fetchHistory (searching "py" "newest") initialHeap
               (Settled (response200 "{'detail':'no rows'}"))))
     = Ok (ListView [] true, [[]; []; []]).
Proof.
  split.
  - refine (proj2 (proj2 (proj2 (proj2
      (malformed_history_shows_no_reviews Platform.toLowerCase
         Platform.Date_getTime (searching "py" "newest") initialHeap
         (Settled {| status := 500; statusText := "Internal Server Error";
                     json := None |}) "u1" eq_refl _))))).
    left. reflexivity.
  - refine (proj2 (proj2 (proj2 (proj2
      (malformed_history_shows_no_reviews Platform.toLowerCase
         Platform.Date_getTime (searching "py" "newest") initialHeap
         (Settled (response200 "{'detail':'no rows'}")) "u1" eq_refl _))))).
    right. right. eexists. split; reflexivity.
Defined.

End HistoryOnSamples.

(** * Further properties of the detail view *)

Section FetchOutcome.
Import Js Http ReviewDetail DetailRender.
Local Open Scope string_scope.

Variable JSON_parse : string -> option JsValue.

(** X1.  Once the effect of [useReviewDetail] has run for an id that is not
    empty, [loading] is off and one of two things holds.  Either the
    response was delivered: then the merged review is kept without an error,
    and the page is the detail view of that review unless an expression of
    one of its parts throws.  Or no review is kept: then the error is the
    one fixed message whatever went wrong (no user, no answer, an error
    status, a body that does not decode, a falsy body) and the page is the
    error alert. *)
Theorem fetch_settles_in_review_or_error (id : string) auth resp :
  id <> "" ->
  let st := useReviewDetail JSON_parse id auth resp in
  loading st = false
  /\ ((exists r rd,
         resp = Settled r /\ delivered auth r rd
         /\ review st = formatDetailedReview rd (parseResults JSON_parse rd)
         /\ error st = None
         /\ (renderReviewDetailPage st
             = Ok (DetailView (pageParts (review st)))
             \/ exists e, renderReviewDetailPage st = Throw e))
      \/ (review st = JNull
          /\ error st = Some "Failed to fetch review details"
          /\ renderReviewDetailPage st
             = Ok (ErrorAlert "Failed to fetch review details"))).
Proof.
  intros Hid st. subst st. unfold useReviewDetail.
  apply String.eqb_neq in Hid. rewrite Hid.
  unfold fetchReview, fetchReviewBody.
  destruct (userError auth) as [e |] eqn:Hue; simpl;
    [split; [reflexivity | right; repeat split] |].
  destruct (user auth) as [u |] eqn:Hu; simpl;
    [| split; [reflexivity | right; repeat split]].
  destruct resp as [msg | r]; [split; [reflexivity | right; repeat split] |].
  destruct (ok r) eqn:Hok; simpl;
    [| split; [reflexivity | right; repeat split]].
  unfold decodeJson.
  destruct (json r) as [rd |] eqn:Hj; simpl;
    [| split; [reflexivity | right; repeat split]].
  destruct (truthy rd) eqn:Ht; simpl;
    [| split; [reflexivity | right; repeat split]].
  split; [reflexivity |]. left. exists r, rd.
  split; [reflexivity |].
  split; [repeat split; try assumption; congruence |].
  split; [reflexivity |]. split; [reflexivity |].
  refine (proj2 (rendered_iff _ _)). reflexivity.
Qed.

End FetchOutcome.

Section MergedKeys.
Import Js Http ReviewDetail JsObject.
Local Open Scope string_scope.

Lemma keys_setProp (k : string) (v : JsValue) fs :
  (In k (keys fs) /\ keys (setProp k v fs) = keys fs)
  \/ (~ In k (keys fs) /\ keys (setProp k v fs) = (keys fs ++ [k])%list).
Proof.
  induction fs as [| [k' v'] rest IH]; simpl.
  - right. split; [tauto | reflexivity].
  - destruct (String.eqb_spec k k') as [-> | Hne]; simpl.
    + left. split; [now left | reflexivity].
    + destruct IH as [[Hin Heq] | [Hnin Heq]].
      * left. split; [now right | now rewrite Heq].
      * right. split; [| now rewrite Heq].
        intros [H | H]; [congruence | contradiction].
Qed.

Lemma setProp_keeps (k : string) (v : JsValue) fs (ks : list string) :
  (exists added, keys fs = (ks ++ added)%list) ->
  exists added, keys (setProp k v fs) = (ks ++ added)%list.
Proof.
  intros [added Hk].
  destruct (keys_setProp k v fs) as [[_ Heq] | [_ Heq]]; rewrite Heq, Hk.
  - now exists added.
  - exists (added ++ [k])%list. now rewrite app_assoc.
Qed.

Lemma setProp_In (k k' : string) (v : JsValue) fs :
  In k' (keys (setProp k v fs)) <-> k' = k \/ In k' (keys fs).
Proof.
  destruct (keys_setProp k v fs) as [[Hin Heq] | [Hnin Heq]]; rewrite Heq.
  - split; [tauto | intros [-> | H]; assumption].
  - rewrite in_app_iff. simpl. intuition congruence.
Qed.

Lemma setProp_NoDup (k : string) (v : JsValue) fs :
  NoDup (keys fs) -> NoDup (keys (setProp k v fs)).
Proof.
  intros Hnd.
  destruct (keys_setProp k v fs) as [[Hin Heq] | [Hnin Heq]]; rewrite Heq.
  - exact Hnd.
  - apply NoDup_app; [exact Hnd | |].
    + apply NoDup_cons; [simpl; tauto | apply NoDup_nil].
    + intros x Hx [<- | []]. contradiction.
Qed.

(** X2.  The merged review keeps every key of the record, in the record's
    place and order, and has besides exactly those of [code],
    [ai_analysis], [metrics] and [detailed_issues] that the record lacks;
    when the record has no key twice, neither has the merged review. *)
Theorem merged_review_keys (rd pr : JsValue) :
  (exists added,
      keys (ownProps (formatDetailedReview rd pr))
      = (keys (ownProps rd) ++ added)%list)
  /\ (forall k,
        In k (keys (ownProps (formatDetailedReview rd pr)))
        <-> In k (keys (ownProps rd)) \/ In k mergedKeys)
  /\ (NoDup (keys (ownProps rd)) ->
      NoDup (keys (ownProps (formatDetailedReview rd pr)))).
Proof.
  unfold formatDetailedReview. simpl ownProps. split; [| split].
  - do 4 apply setProp_keeps. exists []. now rewrite app_nil_r.
  - intros k. rewrite !setProp_In. unfold mergedKeys. simpl.
    intuition congruence.
  - intros Hnd. now do 4 apply setProp_NoDup.
Qed.

(** X3.  The code of the merged review is never missing: it is the code of
    the submission when that is truthy and the empty text otherwise, also
    when the response has no submission at all; a [code] of the record
    itself is not used. *)
Theorem merged_code_is_never_missing (rd pr : JsValue) :
  nullish (getProp (formatDetailedReview rd pr) "code") = false
  /\ (truthy (optGet (getProp rd "code_data") "code") = true ->
      getProp (formatDetailedReview rd pr) "code"
      = optGet (getProp rd "code_data") "code")
  /\ (truthy (optGet (getProp rd "code_data") "code") = false ->
      getProp (formatDetailedReview rd pr) "code" = JStr "")
  /\ (nullish (getProp rd "code_data") = true ->
      getProp (formatDetailedReview rd pr) "code" = JStr "").
Proof.
  rewrite merged_code. unfold js_or.
  destruct (truthy (optGet (getProp rd "code_data") "code")) eqn:Ht.
  - repeat split; try discriminate.
    + destruct (optGet (getProp rd "code_data") "code"); simpl in *;
        congruence.
    + intros Hn. unfold optGet in Ht. rewrite Hn in Ht. discriminate.
  - repeat split; discriminate.
Qed.

End MergedKeys.

Section StatusParts.
Import Js Http ReviewDetail.
Local Open Scope string_scope.

Variable JSON_parse : string -> option JsValue.

Lemma eq_lit_true (v : JsValue) (lit : string) :
  eq_lit v lit = true <-> v = JStr lit.
Proof.
  destruct v; simpl; try (split; [discriminate | discriminate]).
  rewrite String.eqb_eq. split; congruence.
Qed.

Ltac part_mounted :=
  unfold pageParts;
  repeat first [rewrite in_app_iff | rewrite In_mount | progress simpl In];
  intuition (try discriminate; try congruence).

Lemma PendingState_mounted (rv : JsValue) :
  In PendingState (pageParts rv) <-> truthy (showPending rv) = true.
Proof. part_mounted. Qed.

Lemma QuickStatsPending_mounted (rv : JsValue) :
  In QuickStatsPending (pageParts rv) <-> truthy (showPending rv) = true.
Proof. part_mounted. Qed.

Lemma FailedState_mounted (rv : JsValue) :
  In FailedState (pageParts rv) <-> truthy (showFailed rv) = true.
Proof. part_mounted. Qed.

Lemma QuickStatsFailed_mounted (rv : JsValue) :
  In QuickStatsFailed (pageParts rv) <-> truthy (showFailed rv) = true.
Proof. part_mounted. Qed.

Lemma ActionsCompleted_mounted (rv : JsValue) :
  In ActionsCompleted (pageParts rv)
  <-> eq_lit (getProp rv "status") "completed" = true.
Proof. part_mounted. Qed.

Ltac status_parts :=
  rewrite PendingState_mounted, QuickStatsPending_mounted,
    FailedState_mounted, QuickStatsFailed_mounted, ActionsCompleted_mounted,
    ScoreOverview_mounted, AiAnalysisCard_mounted, QuickStatsScore_mounted;
  unfold showScoreOverview, showAiAnalysis, showPending, showFailed,
    showQuickStatsScore, js_and; simpl truthy.

(** X4.  The parts that depend on the status exclude each other on every
    page: the progress card and its side bar note are mounted exactly for
    the status [pending], the failure card and its note exactly for
    [failed], the actions of a completed review exactly for [completed],
    and the score overview, the analysis card and the score of the quick
    stats only together with those actions; so a page never mixes the parts
    of two statuses. *)
Theorem status_parts_exclude_each_other (rv : JsValue) :
  (In PendingState (pageParts rv) <-> getProp rv "status" = JStr "pending")
  /\ (In QuickStatsPending (pageParts rv) <-> In PendingState (pageParts rv))
  /\ (In FailedState (pageParts rv) <-> getProp rv "status" = JStr "failed")
  /\ (In QuickStatsFailed (pageParts rv) <-> In FailedState (pageParts rv))
  /\ (In ActionsCompleted (pageParts rv)
      <-> getProp rv "status" = JStr "completed")
  /\ (In ScoreOverview (pageParts rv) \/ In AiAnalysisCard (pageParts rv)
      \/ In QuickStatsScore (pageParts rv) ->
      In ActionsCompleted (pageParts rv))
  /\ (In ScoreOverview (pageParts rv) -> In QuickStatsScore (pageParts rv))
  /\ ~ (In PendingState (pageParts rv) /\ In FailedState (pageParts rv))
  /\ ~ (In PendingState (pageParts rv) /\ In ActionsCompleted (pageParts rv))
  /\ ~ (In FailedState (pageParts rv) /\ In ActionsCompleted (pageParts rv)).
Proof.
  status_parts.
  rewrite <- !eq_lit_true.
  destruct (eq_lit (getProp rv "status") "pending") eqn:Hp;
    destruct (eq_lit (getProp rv "status") "failed") eqn:Hf;
    destruct (eq_lit (getProp rv "status") "completed") eqn:Hc;
    try (apply eq_lit_true in Hp; apply eq_lit_true in Hf; congruence);
    try (apply eq_lit_true in Hp; apply eq_lit_true in Hc; congruence);
    try (apply eq_lit_true in Hf; apply eq_lit_true in Hc; congruence);
    simpl truthy;
    destruct (truthy (getProp rv "score")) eqn:Hs;
    destruct (truthy (getProp rv "ai_analysis")) eqn:Ha;
    rewrite ?Hs, ?Ha; simpl;
    intuition (try discriminate; try congruence).
Qed.


(** X6.  The icon and the badge colour of a status always belong together:
    green check and green badge for [completed], yellow clock and yellow
    badge for [pending], red cross and red badge for [failed], and the slate
    clock with the slate badge for every other value. *)
Theorem status_icon_and_badge_agree (status : JsValue) :
  (status = JStr "completed"
   /\ getStatusIcon status = CheckCircleGreen
   /\ getStatusColor status = BadgeGreen)
  \/ (status = JStr "pending"
      /\ getStatusIcon status = ClockYellow
      /\ getStatusColor status = BadgeYellow)
  \/ (status = JStr "failed"
      /\ getStatusIcon status = XCircleRed
      /\ getStatusColor status = BadgeRed)
  \/ (status <> JStr "completed" /\ status <> JStr "pending"
      /\ status <> JStr "failed"
      /\ getStatusIcon status = ClockSlate
      /\ getStatusColor status = BadgeSlate).
Proof.
  unfold getStatusIcon, getStatusColor.
  destruct (eq_lit status "completed") eqn:Hc.
  { left. apply eq_lit_true in Hc. now subst. }
  destruct (eq_lit status "pending") eqn:Hp.
  { right. left. apply eq_lit_true in Hp. now subst. }
  destruct (eq_lit status "failed") eqn:Hf.
  { right. right. left. apply eq_lit_true in Hf. now subst. }
  right. right. right.
  repeat split; try reflexivity; intros E; apply eq_lit_true in E; congruence.
Qed.

End StatusParts.

Section HelperFacts.
Import Js DetailHelpers.
Local Open Scope string_scope.
Local Open Scope Z_scope.

(** X7.  The colour of a score never gets worse as the score grows, and the
    bands are cut at 9, 7 and 5: green from 9 on, blue from 7, yellow from
    5, red below. *)
Theorem score_color_is_monotone (s1 s2 : QArith_base.Q) :
  (QArith_base.Qle s1 s2 ->
   (band (getScoreColor s1) <= band (getScoreColor s2))%nat)
  /\ (getScoreColor s1 = TextGreen
      <-> QArith_base.Qle (QArith_base.inject_Z 9) s1)
  /\ (getScoreColor s1 = TextRed
      <-> QArith_base.Qlt s1 (QArith_base.inject_Z 5)).
Proof.
  unfold getScoreColor. split; [| split].
  - intros Hle.
    destruct (QArith_base.Qle_bool (QArith_base.inject_Z 9) s1) eqn:H9;
      destruct (QArith_base.Qle_bool (QArith_base.inject_Z 7) s1) eqn:H7;
      destruct (QArith_base.Qle_bool (QArith_base.inject_Z 5) s1) eqn:H5;
      destruct (QArith_base.Qle_bool (QArith_base.inject_Z 9) s2) eqn:G9;
      destruct (QArith_base.Qle_bool (QArith_base.inject_Z 7) s2) eqn:G7;
      destruct (QArith_base.Qle_bool (QArith_base.inject_Z 5) s2) eqn:G5;
      simpl; try lia; exfalso;
      repeat match goal with
             | H : QArith_base.Qle_bool _ _ = true |- _ =>
                 apply QArith_base.Qle_bool_iff in H
             | H : QArith_base.Qle_bool ?a ?b = false |- _ =>
                 assert (~ QArith_base.Qle a b)
                   by (rewrite <- QArith_base.Qle_bool_iff; congruence);
                 clear H
             end;
      match goal with
      | H : ~ QArith_base.Qle ?a s2, G : QArith_base.Qle ?a s1 |- _ =>
          apply H; eapply QArith_base.Qle_trans; [exact G | exact Hle]
      end.
  - destruct (QArith_base.Qle_bool (QArith_base.inject_Z 9) s1) eqn:H9.
    + apply QArith_base.Qle_bool_iff in H9. tauto.
    + assert (Hn : ~ QArith_base.Qle (QArith_base.inject_Z 9) s1)
        by (rewrite <- QArith_base.Qle_bool_iff; congruence).
      split; [| tauto].
      destruct (QArith_base.Qle_bool (QArith_base.inject_Z 7) s1);
        [discriminate |].
      destruct (QArith_base.Qle_bool (QArith_base.inject_Z 5) s1);
        discriminate.
  - destruct (QArith_base.Qle_bool (QArith_base.inject_Z 5) s1) eqn:H5.
    + apply QArith_base.Qle_bool_iff in H5.
      split.
      * destruct (QArith_base.Qle_bool (QArith_base.inject_Z 9) s1);
          [discriminate |].
        destruct (QArith_base.Qle_bool (QArith_base.inject_Z 7) s1);
          discriminate.
      * intros Hlt. exfalso. exact (QArith_base.Qlt_not_le _ _ Hlt H5).
    + assert (Hn : ~ QArith_base.Qle (QArith_base.inject_Z 5) s1)
        by (rewrite <- QArith_base.Qle_bool_iff; congruence).
      apply QArith_base.Qnot_le_lt in Hn.
      assert (H7 : QArith_base.Qle_bool (QArith_base.inject_Z 7) s1 = false).
      { destruct (QArith_base.Qle_bool (QArith_base.inject_Z 7) s1) eqn:E;
          [| reflexivity].
        apply QArith_base.Qle_bool_iff in E. exfalso.
        apply (QArith_base.Qlt_not_le _ _ Hn).
        eapply QArith_base.Qle_trans; [| exact E]. discriminate. }
      assert (H9 : QArith_base.Qle_bool (QArith_base.inject_Z 9) s1 = false).
      { destruct (QArith_base.Qle_bool (QArith_base.inject_Z 9) s1) eqn:E;
          [| reflexivity].
        apply QArith_base.Qle_bool_iff in E. exfalso.
        apply (QArith_base.Qlt_not_le _ _ Hn).
        eapply QArith_base.Qle_trans; [| exact E]. discriminate. }
      rewrite H9, H7. tauto.
Qed.

Section ProcessingTime.

Variable Date_getTime : JsValue -> option Z.

(** X8.  Without a completion date there is no processing time.  With one,
    and valid dates, the text is "<m>m <s>s" where, for a completion that is
    not before the creation, the seconds are below 60 and minutes and
    seconds add up to the whole seconds between the two dates; for a
    completion before the creation the minutes are negative and the seconds
    lie between -60 and 0. *)
Theorem processing_time_adds_up (createdAt completedAt : JsValue)
  (start end_ : Z) :
  (truthy completedAt = false ->
   calculateProcessingTime Date_getTime createdAt completedAt = None)
  /\ (truthy completedAt = true ->
      Date_getTime createdAt = Some start ->
      Date_getTime completedAt = Some end_ ->
      exists m s,
        calculateProcessingTime Date_getTime createdAt completedAt
        = Some (JsString.showInt m ++ "m " ++ JsString.showInt s ++ "s")%string
        /\ (start <= end_ ->
            0 <= m /\ 0 <= s < 60 /\ 60 * m + s = (end_ - start) / 1000)
        /\ (end_ < start -> m < 0 /\ -60 <= s <= 0)).
Proof.
  unfold calculateProcessingTime, elapsed. split.
  - now intros ->.
  - intros -> -> ->.
    exists ((end_ - start) / 60000), (Z.rem (end_ - start) 60000 / 1000).
    split; [reflexivity |]. split.
    + intros Hle.
      assert (Hd : 0 <= end_ - start) by lia.
      rewrite Z.rem_mod_nonneg by lia.
      Z.to_euclidean_division_equations. lia.
    + intros Hlt.
      assert (Hd : end_ - start < 0) by lia.
      replace (end_ - start) with (- (start - end_)) by lia.
      rewrite Z.rem_opp_l'. rewrite Z.rem_mod_nonneg by lia.
      Z.to_euclidean_division_equations. lia.
Qed.

End ProcessingTime.

Lemma filter_lengths_disjoint {A : Type} (f g h : A -> bool) (l : list A) :
  (forall x, In x l ->
             (f x && g x = false) /\ (f x && h x = false)
             /\ (g x && h x = false))%bool ->
  (List.length (filter f l) + List.length (filter g l)
   + List.length (filter h l) <= List.length l)%nat
  /\ ((List.length (filter f l) + List.length (filter g l)
       + List.length (filter h l) = List.length l)%nat
      <-> Forall (fun x => f x || g x || h x = true)%bool l).
Proof.
  induction l as [| x rest IH]; intros Hdis; simpl.
  - split; [lia |]. split; [constructor | reflexivity].
  - destruct IH as [IHle IHeq].
    { intros y Hy. apply Hdis. now right. }
    destruct (Hdis x (or_introl eq_refl)) as (Hfg & Hfh & Hgh).
    rewrite Forall_cons_iff.
    destruct (f x), (g x), (h x); simpl in *; try discriminate;
      (split; [lia |]); rewrite <- IHeq;
      (split; [intros; split; [try reflexivity; try lia | lia]
              | intros [Hx Hr]; try discriminate; lia]).
Qed.

(** X9.  For issues that are an array of objects, the counts of high,
    medium and low priority never exceed the number of issues together, and
    they add up to it exactly when every issue has one of the three
    severities; a value that is no array, or an issue that is [null], makes
    the counting throw. *)
Theorem priority_counts_partition (issues : list JsValue) :
  (Forall (fun i => nullish i = false) issues ->
   exists high medium low,
     priorityCounts (JArr issues) = Ok (high, medium, low)
     /\ (high + medium + low <= List.length issues)%nat
     /\ ((high + medium + low = List.length issues)%nat
         <-> Forall (fun i => getProp i "severity" = JStr "high"
                              \/ getProp i "severity" = JStr "medium"
                              \/ getProp i "severity" = JStr "low") issues))
  /\ (forall i, In i issues -> nullish i = true ->
      exists e, priorityCounts (JArr issues) = Throw e)
  /\ (forall v, isArray v = false -> exists e, priorityCounts v = Throw e).
Proof.
  split; [| split].
  - intros Hobj.
    assert (Hpure : forall sev,
               History.filterM (severityIs sev) issues
               = Ok (filter (fun i => eq_lit (getProp i "severity") sev) issues)).
    { intros sev. apply filterM_pure.
      eapply Forall_impl; [| exact Hobj].
      intros i Hi. unfold severityIs, getMember. now rewrite Hi. }
    unfold priorityCounts, countSeverity. rewrite !Hpure. simpl.
    do 3 eexists. split; [reflexivity |].
    destruct (filter_lengths_disjoint
                (fun i => eq_lit (getProp i "severity") "high")
                (fun i => eq_lit (getProp i "severity") "medium")
                (fun i => eq_lit (getProp i "severity") "low") issues)
      as [Hle Heq].
    { intros x _. destruct (getProp x "severity"); simpl; try tauto.
      destruct (String.eqb_spec s "high"); subst; simpl; [tauto |].
      destruct (String.eqb_spec s "medium"); subst; simpl; tauto. }
    split; [exact Hle |]. rewrite Heq.
    split; intros H; (eapply Forall_impl; [| exact H]); intros i;
      rewrite !orb_true_iff, !eq_lit_true; tauto.
  - intros i Hin Hnull. unfold priorityCounts, countSeverity.
    assert (Hthrow : exists e,
               History.filterM (severityIs "high") issues = Throw e).
    { induction issues as [| x rest IH]; [contradiction |]. simpl.
      destruct (severityIs "high" x) as [b | e] eqn:Hx; simpl;
        [| now exists e].
      destruct Hin as [-> | Hin].
      - unfold severityIs, getMember in Hx. rewrite Hnull in Hx.
        discriminate.
      - destruct (IH Hin) as [e He]. rewrite He. simpl. now exists e. }
    destruct Hthrow as [e He]. rewrite He. simpl. now exists e.
  - intros v Hv. unfold priorityCounts, countSeverity.
    destruct v; simpl in *; try discriminate; eexists; reflexivity.
Qed.

End HelperFacts.

(** * Further properties of the history view *)

Section HistoryMore.
Import Js Http History Contract.
Local Open Scope string_scope.
Local Open Scope list_scope.

Variable toLowerCase : string -> string.
Variable Date_getTime : JsValue -> option Z.

Lemma filterM_is_filter {A : Type} (p : A -> Result bool) (l kept : list A) :
  filterM p l = Ok kept ->
  kept = filter (fun x => match p x with
                          | Ok true => true
                          | _ => false
                          end) l
  /\ Forall (fun x => exists b, p x = Ok b) l.
Proof.
  revert kept. induction l as [| x rest IH]; simpl; intros kept H.
  - inversion H. split; [reflexivity | constructor].
  - destruct (p x) as [b | e] eqn:Hx; simpl in H; [| discriminate].
    destruct (filterM p rest) as [kept' | e]; simpl in H; [| discriminate].
    destruct (IH kept' eq_refl) as [Hk Hall].
    inversion H. subst kept. split.
    + destruct b; now rewrite <- Hk.
    + constructor; [now exists b | exact Hall].
Qed.

Lemma keepRow_empty_query (st : HistoryState) (row : JsValue) :
  searchQuery st = "" -> languageFilter st = "all" ->
  keepRow toLowerCase st row = Ok true.
Proof.
  intros Hq Hl. unfold keepRow, matchesSearch, matchesLanguage.
  now rewrite Hq, Hl.
Qed.

(** X10.  The filter returns the rows for which its callback gave true, in
    their order, so it never adds, repeats or reorders a row; and with the
    empty query it keeps every row and cannot throw, whatever the rows
    are. *)
Theorem filter_returns_the_accepted_rows (st : HistoryState)
  (rows : list JsValue) :
  (forall kept,
      filterM (keepRow toLowerCase st) rows = Ok kept ->
      kept = filter (fun row => match keepRow toLowerCase st row with
                                | Ok true => true
                                | _ => false
                                end) rows
      /\ (List.length kept <= List.length rows)%nat)
  /\ (searchQuery st = "" -> languageFilter st = "all" ->
      filterM (keepRow toLowerCase st) rows = Ok rows).
Proof.
  split.
  - intros kept H. destruct (filterM_is_filter _ _ _ H) as [Hk _].
    split; [exact Hk |]. rewrite Hk. apply filter_length_le.
  - intros Hq Hl. apply filterM_all.
    apply Forall_forall. intros row _. now apply keepRow_empty_query.
Qed.

Lemma StronglySorted_weaken {A : Type} (R R' : A -> A -> Prop) (l : list A) :
  (forall a b, R a b -> R' a b) -> StronglySorted R l -> StronglySorted R' l.
Proof.
  intros Himp. induction 1 as [| a rest Hs IH Ha]; constructor.
  - exact IH.
  - eapply Forall_impl; [| exact Ha]. intros b. apply Himp.
Qed.

(** X11.  On rows whose dates are all valid the sort does not throw; its
    result has the same rows, each as often as before, and is in order:
    with [newest] no row stands before a newer one, with any other value of
    [sortBy] no row stands before an older one. *)
Theorem sort_orders_rows_by_date (by_ : string) (rows : list JsValue) :
  Forall (fun r => timeOf Date_getTime r <> None) rows ->
  exists out,
    sortRows (compareRows Date_getTime by_) rows = Ok out
    /\ Permutation out rows
    /\ StronglySorted
         (fun a b =>
            forall ta tb,
              timeOf Date_getTime a = Some ta ->
              timeOf Date_getTime b = Some tb ->
              if String.eqb by_ "newest" then (tb <= ta)%Z else (ta <= tb)%Z)
         out.
Proof.
  intros Hv. rewrite (sortRows_dated Date_getTime by_ rows Hv).
  eexists. split; [reflexivity |]. split; [apply sortByKey_perm |].
  eapply StronglySorted_weaken; [| apply sortByKey_sorted].
  intros a b Hab ta tb Ha Hb.
  unfold ByKey.ordered, keyOf, descending, ascending in Hab.
  destruct (String.eqb by_ "newest"); rewrite Ha, Hb in Hab; lia.
Qed.

Lemma cardsFrom_null (idx : nat) (rows : list JsValue) :
  In JNull rows -> exists e, cardsFrom idx rows = Throw e.
Proof.
  revert idx. induction rows as [| x rest IH]; intros idx Hin;
    [contradiction |].
  simpl. destruct Hin as [-> | Hin].
  - eexists. reflexivity.
  - destruct (getMember x "id") as [v | e]; simpl; [| now exists e].
    destruct (IH (S idx) Hin) as [e He]. rewrite He. simpl. now exists e.
Qed.


(** X12.  A row that is [null] in the history makes the page throw once
    loading is over, for every query, filter and order: the callback of the
    filter, the comparator of the sort or the card of the row reads a
    property of [null]. *)
Theorem null_row_breaks_the_history_page (st : HistoryState) (h : Heap)
  (rows : list JsValue) :
  deref (history st) h = Ok rows -> In JNull rows -> loading st = false ->
  exists e, HistoryPage toLowerCase Date_getTime st h = Throw e.
Proof.
  intros Hd Hin Hload. unfold HistoryPage.
  destruct (filterSort toLowerCase Date_getTime st rows) as [out | e] eqn:Hfs.
  - rewrite (filtered_run toLowerCase Date_getTime st h rows out Hd Hfs).
    simpl. rewrite Hload. rewrite (deref_alloc out h). simpl.
    assert (Hout : In JNull out).
    { unfold filterSort in Hfs.
      destruct (filterM (keepRow toLowerCase st) rows) as [kept | e] eqn:Hk;
        simpl in Hfs; [| discriminate].
      eapply Permutation_in;
        [apply Permutation_sym, (sortRows_perm Date_getTime (sortBy st));
         exact Hfs |].
      destruct (filterM_is_filter _ _ _ Hk) as [-> Hall].
      apply filter_In. split; [exact Hin |].
      rewrite Forall_forall in Hall. destruct (Hall _ Hin) as [b Hb].
      rewrite Hb. unfold keepRow, matchesSearch, matchesLanguage in Hb.
      destruct (String.eqb (searchQuery st) ""); [| discriminate].
      destruct (String.eqb (languageFilter st) "all"); [| discriminate].
      simpl in Hb. now inversion Hb. }
    destruct (cardsFrom_null 0 out Hout) as [e He]. rewrite He. simpl.
    now exists e.
  - unfold filtered, array_filter, array_sort. rewrite Hd. simpl.
    unfold filterSort in Hfs.
    destruct (filterM (keepRow toLowerCase st) rows) as [kept | e'];
      simpl in *; [| now exists e'].
    rewrite (deref_alloc kept h). simpl. rewrite Hfs. simpl. now exists e.
Qed.


End HistoryMore.

Section PreviewFacts.
Import HistoryCards.
Local Open Scope string_scope.

Lemma length_append (s t : string) :
  String.length (s ++ t) = (String.length s + String.length t)%nat.
Proof. induction s as [| c s IH]; simpl; [reflexivity | now rewrite IH]. Qed.

Lemma substring_head (n : nat) (s : string) :
  String.length (String.substring 0 n s) = Nat.min n (String.length s)
  /\ exists rest, s = String.substring 0 n s ++ rest.
Proof.
  revert s. induction n as [| n IH]; intros s.
  - destruct s; simpl; (split; [reflexivity | eexists; reflexivity]).
  - destruct s as [| c s]; simpl.
    + split; [reflexivity | now exists ""].
    + destruct (IH s) as [Hl [rest Hr]]. split; [now rewrite Hl |].
      exists rest. now rewrite <- Hr.
Qed.

(** X14.  The code preview of a card is the code itself when that has at
    most 200 characters; otherwise it is the first 200 characters of the
    code followed by three dots, 203 characters in all. *)
Theorem code_preview_is_bounded (code : string) :
  (String.length (codePreview code) <= 203)%nat
  /\ ((String.length code <= 200)%nat -> codePreview code = code)
  /\ ((200 < String.length code)%nat ->
      String.length (codePreview code) = 203%nat
      /\ exists rest,
           code = String.substring 0 200 code ++ rest
           /\ codePreview code = String.substring 0 200 code ++ "...").
Proof.
  unfold codePreview.
  destruct (substring_head 200 code) as [Hl [rest Hr]].
  destruct (Nat.ltb_spec 200 (String.length code)) as [Hlong | Hshort].
  - rewrite length_append, Hl. simpl String.length.
    split; [lia |]. split; [lia |]. intros _.
    split; [lia |]. now exists rest.
  - split; [lia |]. split; [reflexivity | lia].
Qed.

End PreviewFacts.

(** * Properties of the text methods *)

Section SplitFacts.
Import JsString.
Local Open Scope string_scope.

Lemma split_not_empty (sep : ascii) (s : string) : split sep s <> [].
Proof.
  destruct s as [| c rest]; simpl; [discriminate |].
  destruct (Ascii.eqb c sep); [discriminate |].
  destruct (split sep rest); discriminate.
Qed.

Lemma split_without (sep : ascii) (s : string) :
  ~ has sep s -> split sep s = [s].
Proof.
  unfold has. induction s as [| c rest IH]; simpl; intros Hno; [reflexivity |].
  destruct (Ascii.eqb_spec c sep) as [-> | Hne]; [tauto |].
  rewrite IH by tauto. reflexivity.
Qed.

Lemma split_append (sep : ascii) (s t : string) :
  split sep (s ++ String sep t) = (split sep s ++ split sep t)%list.
Proof.
  induction s as [| c rest IH]; simpl.
  - now rewrite Ascii.eqb_refl.
  - destruct (Ascii.eqb c sep); rewrite IH; [reflexivity |].
    destruct (split sep rest) as [| p ps] eqn:Hs; [| reflexivity].
    now apply split_not_empty in Hs.
Qed.

Lemma pop_append (l1 l2 : list string) :
  l2 <> [] -> pop (l1 ++ l2)%list = pop l2.
Proof.
  intros Hne. induction l1 as [| x rest IH]; [reflexivity |].
  simpl. destruct (rest ++ l2)%list eqn:E; [| exact IH].
  apply app_eq_nil in E. tauto.
Qed.

Lemma pop_split_append (sep : ascii) (s t : string) :
  ~ has sep t -> pop (split sep (s ++ String sep t)) = Some t.
Proof.
  intros Hno. rewrite split_append, pop_append by apply split_not_empty.
  now rewrite split_without.
Qed.

Lemma split_pieces (sep : ascii) (s : string) :
  Forall (fun piece => ~ has sep piece) (split sep s).
Proof.
  unfold has. induction s as [| c rest IH]; simpl.
  - constructor; [simpl; tauto | constructor].
  - destruct (Ascii.eqb_spec c sep) as [-> | Hne].
    + constructor; [simpl; tauto | exact IH].
    + destruct (split sep rest) as [| p ps]; simpl.
      * constructor; [simpl; intuition congruence | constructor].
      * apply Forall_cons_iff in IH. destruct IH as [Hp Hps].
        constructor; [simpl; intuition congruence | exact Hps].
Qed.

Lemma pop_In (l : list string) (piece : string) :
  pop l = Some piece -> In piece l.
Proof.
  induction l as [| x rest IH]; simpl; [discriminate |].
  destruct rest as [| y rest'].
  - intros H. inversion H. now left.
  - intros H. right. now apply IH.
Qed.

Lemma pop_split (sep : ascii) (s : string) :
  exists piece, pop (split sep s) = Some piece /\ ~ has sep piece.
Proof.
  pose proof (split_pieces sep s) as Hall.
  pose proof (split_not_empty sep s) as Hne.
  induction (split sep s) as [| x rest IH]; [congruence |].
  apply Forall_cons_iff in Hall. destruct Hall as [Hx Hrest].
  destruct rest as [| y rest'].
  - exists x. split; [reflexivity | exact Hx].
  - apply IH; [exact Hrest | discriminate].
Qed.

Lemma first_split (sep : ascii) (s : string) :
  exists piece,
    first (split sep s) = Some piece /\ ~ has sep piece
    /\ (s = piece \/ exists rest, s = piece ++ String sep rest).
Proof.
  unfold has. induction s as [| c rest IH]; simpl.
  - exists "". simpl. tauto.
  - destruct (Ascii.eqb_spec c sep) as [-> | Hne].
    + exists "". simpl. split; [reflexivity |]. split; [tauto |].
      right. now exists rest.
    + destruct IH as (p & Hp & Hno & Hs).
      destruct (split sep rest) as [| p' ps]; [discriminate |].
      simpl in Hp. inversion Hp. subst p'.
      exists (String c p). simpl. split; [reflexivity |].
      split; [intuition congruence |].
      destruct Hs as [-> | [r ->]]; [now left |].
      right. now exists r.
Qed.

Lemma extensionChars_spec (s : string) :
  extensionChars s = true
  <-> s <> "" /\ ~ has "/" s /\ ~ has "." s.
Proof.
  unfold has. induction s as [| c rest IH]; simpl.
  - split; [discriminate | intros [H _]; congruence].
  - destruct (Ascii.eqb_spec c "/") as [-> | Hs]; simpl.
    { split; [discriminate | intros (_ & H & _); exfalso; apply H; now left]. }
    destruct (Ascii.eqb_spec c ".") as [-> | Hd]; simpl.
    { split; [discriminate | intros (_ & _ & H); exfalso; apply H; now left]. }
    destruct rest as [| c' rest'].
    + simpl. split; [| reflexivity]. intros _.
      split; [discriminate |]. split; intros [H | []]; congruence.
    + rewrite IH. split.
      * intros (_ & H1 & H2). split; [discriminate |].
        split; intros [H | H]; try congruence; tauto.
      * intros (_ & H1 & H2). split; [discriminate |].
        split; intros H; [apply H1 | apply H2]; now right.
Qed.

Lemma replaceExtension_prefix (s : string) :
  exists cut, s = replaceExtension s ++ cut.
Proof.
  induction s as [| c rest IH]; simpl; [now exists "" |].
  destruct (Ascii.eqb c "." && extensionChars rest).
  - now exists (String c rest).
  - destruct IH as [cut Hc]. exists cut. simpl. now rewrite <- Hc.
Qed.

Lemma append_assoc_text (s t u : string) : (s ++ t) ++ u = s ++ t ++ u.
Proof.
  induction s as [| c rest IH]; simpl; [reflexivity | now rewrite IH].
Qed.

Lemma has_append (c : ascii) (s t : string) :
  has c (s ++ t) <-> has c s \/ has c t.
Proof.
  unfold has. induction s as [| d rest IH]; simpl; [tauto |].
  rewrite IH. tauto.
Qed.

Lemma replaceExtension_cut (base ext : string) :
  ext <> "" -> ~ has "/" ext -> ~ has "." ext ->
  replaceExtension (base ++ String "." ext) = base.
Proof.
  intros Hne Hs Hd.
  assert (Hext : extensionChars ext = true)
    by (apply extensionChars_spec; tauto).
  induction base as [| c rest IH]; simpl.
  - now rewrite Hext.
  - assert (Hno : extensionChars (rest ++ String "." ext) = false).
    { destruct (extensionChars (rest ++ String "." ext)) eqn:E;
        [| reflexivity].
      apply extensionChars_spec in E. destruct E as (_ & _ & E).
      exfalso. apply E. apply has_append. right. now left. }
    rewrite Hno, andb_false_r. now rewrite IH.
Qed.

Lemma replaceExtension_without_dot (s : string) :
  ~ has "." s -> replaceExtension s = s.
Proof.
  unfold has. induction s as [| c rest IH]; simpl; intros Hno;
    [reflexivity |].
  destruct (Ascii.eqb_spec c ".") as [-> | Hne]; [tauto |].
  simpl. rewrite IH by tauto. reflexivity.
Qed.

Lemma replaceExtension_trailing_dot (s : string) :
  replaceExtension (s ++ ".") = s ++ ".".
Proof.
  induction s as [| c rest IH]; simpl; [reflexivity |].
  assert (Hno : extensionChars (rest ++ ".") = false).
  { destruct (extensionChars (rest ++ ".")) eqn:E; [| reflexivity].
    apply extensionChars_spec in E. destruct E as (_ & _ & E).
    exfalso. apply E. apply has_append. right. now left. }
  rewrite Hno, andb_false_r. now rewrite IH.
Qed.

(** X20.  Cutting the extension off a file name gives back the base name
    when the name is a base followed by a dot and an extension, an extension
    being a text that is not empty and has no dot and no slash; a base that
    is empty is given back as well, so a name like ".env" is cut down to the
    empty text.  A name without a dot, and a name that ends in a dot, stay
    as they are, and the outcome is always the beginning of the name. *)
Theorem extension_is_cut_off (base ext : string) :
  (ext <> "" -> ~ has "/" ext -> ~ has "." ext ->
   replaceExtension (base ++ String "." ext) = base)
  /\ (~ has "." base -> replaceExtension base = base)
  /\ replaceExtension (base ++ ".") = base ++ "."
  /\ exists cut, base = replaceExtension base ++ cut.
Proof.
  split; [apply replaceExtension_cut |].
  split; [apply replaceExtension_without_dot |].
  split; [apply replaceExtension_trailing_dot |].
  apply replaceExtension_prefix.
Qed.

End SplitFacts.

(** * Properties of the layout and of the login page *)

Section LayoutFacts.
Import Js JsString Layout.
Local Open Scope string_scope.

Lemma truthy_text (s : string) : truthy (JStr s) = true <-> s <> "".
Proof.
  simpl. destruct (String.eqb_spec s ""); simpl; split; congruence.
Qed.

Lemma firstNameOf_text (display : JsValue) (f : JsValue) :
  firstNameOf display = Ok f ->
  exists s, f = JStr s /\ s <> "" /\ ~ has " " s
            /\ (s = "User"
                \/ exists d rest, display = JStr d /\ d = s ++ rest).
Proof.
  destruct display as [| | b | n | d | l | fs]; simpl; try discriminate.
  1, 2: intros H; inversion H; exists "User"; split; [reflexivity |];
    split; [discriminate |]; split; [| now left];
    unfold has; simpl; intuition discriminate.
  destruct (first_split " " d) as (p & Hp & Hno & Hd).
  rewrite Hp. simpl. unfold js_or.
  destruct (truthy (JStr p)) eqn:Ht; intros H; inversion H.
  - exists p. split; [reflexivity |].
    split; [now apply truthy_text |]. split; [exact Hno |].
    right. destruct Hd as [-> | [rest ->]].
    + exists p, "". split; [reflexivity |].
      clear. induction p; simpl; congruence.
    + exists (p ++ String " " rest), (String " " rest). now split.
  - exists "User". split; [reflexivity |]. split; [discriminate |].
    split; [| now left]. unfold has; simpl; intuition discriminate.
Qed.

Lemma displayName_truthy (user display : JsValue) :
  displayName user = Ok display -> truthy display = true.
Proof.
  unfold displayName, getMember.
  destruct (nullish user); simpl; [discriminate |].
  set (md := getProp user "user_metadata").
  destruct (truthy (optGet md "full_name")) eqn:Hf.
  { intros H. inversion H. subst. exact Hf. }
  destruct (truthy (optGet md "name")) eqn:Hn.
  { intros H. inversion H. subst. exact Hn. }
  destruct (emailName (getProp user "email")) as [name | e]; simpl;
    [| discriminate].
  intros H. inversion H. unfold js_or.
  destruct (truthy name) eqn:Hname; [exact Hname | reflexivity].
Qed.

(** X15.  The name that the layout shows is never empty nor missing: when it
    can be computed, [displayName] is truthy, and [firstName] is a text that
    is not empty and has no blank, namely ["User"] or the beginning of a
    display name that is a text.  Both can be computed for every user whose
    full name, name and email each are a text or are missing. *)
Theorem shown_names_are_never_empty (user : JsValue) :
  (forall display, displayName user = Ok display -> truthy display = true)
  /\ (forall f, firstName user = Ok f ->
        exists s, f = JStr s /\ s <> "" /\ ~ has " " s
                  /\ (s = "User"
                      \/ exists d rest,
                           displayName user = Ok (JStr d) /\ d = s ++ rest))
  /\ (nullish user = false ->
      (forall k, In k ["full_name"; "name"] ->
         nullish (optGet (getProp user "user_metadata") k) = true
         \/ exists s, optGet (getProp user "user_metadata") k = JStr s) ->
      (nullish (getProp user "email") = true
       \/ exists s, getProp user "email" = JStr s) ->
      exists d f, displayName user = Ok (JStr d) /\ firstName user = Ok (JStr f)).
Proof.
  split; [| split].
  - intros display. apply displayName_truthy.
  - intros f. unfold firstName.
    destruct (displayName user) as [display | e] eqn:Hd; simpl;
      [| discriminate].
    intros Hf. apply firstNameOf_text in Hf.
    destruct Hf as (s & -> & Hne & Hno & Hs).
    exists s. split; [reflexivity |]. split; [exact Hne |].
    split; [exact Hno |].
    destruct Hs as [-> | (d & rest & -> & ->)]; [now left |].
    right. now exists (s ++ rest), rest.
  - intros Huser Hmeta Hemail.
    assert (Hdisplay : exists d, displayName user = Ok (JStr d)).
    { unfold displayName, getMember. rewrite Huser. simpl.
      set (md := getProp user "user_metadata") in *.
      destruct (truthy (optGet md "full_name")) eqn:Hf.
      { destruct (Hmeta "full_name") as [Hn | [s Hs]]; [simpl; tauto | |].
        - destruct (optGet md "full_name"); discriminate.
        - exists s. now rewrite Hs. }
      destruct (truthy (optGet md "name")) eqn:Hn.
      { destruct (Hmeta "name") as [Hn' | [s Hs]]; [simpl; tauto | |].
        - destruct (optGet md "name"); discriminate.
        - exists s. now rewrite Hs. }
      destruct Hemail as [He | [s Hs]].
      - exists "User".
        destruct (getProp user "email"); try discriminate; reflexivity.
      - rewrite Hs. simpl.
        destruct (first_split "@" s) as (p & Hp & _). rewrite Hp. simpl.
        unfold js_or. destruct (truthy (JStr p)); [now exists p |].
        now exists "User". }
    destruct Hdisplay as [d Hd]. unfold firstName. rewrite Hd. simpl.
    destruct (first_split " " d) as (p & Hp & _). rewrite Hp. simpl.
    unfold js_or. exists d.
    destruct (truthy (JStr p)); [now exists p | now exists "User"].
Qed.

(** X16.  The layout shows nothing exactly when it sends the visitor to the
    login page, and it shows the dashboard only to a signed-in user once it
    is mounted and the session is loaded.  The login page shows nothing only
    when it sends the user to the dashboard, and it shows its form only to a
    visitor who is not signed in and whom it sends nowhere. *)
Theorem blank_page_means_redirect (mounted loading : bool) (user : JsValue) :
  (DashboardLayout mounted loading user = Ok Nothing
   <-> layoutRedirect mounted loading user = Some "/login")
  /\ (forall display f,
        DashboardLayout mounted loading user = Ok (Shell display f) ->
        mounted = true /\ loading = false /\ truthy user = true
        /\ layoutRedirect mounted loading user = None)
  /\ (LoginPage mounted loading user = LoginNothing ->
      loginRedirect loading user = Some "/dashboard")
  /\ (LoginPage mounted loading user = LoginForm ->
      truthy user = false /\ loginRedirect loading user = None).
Proof.
  unfold DashboardLayout, layoutRedirect, LoginPage, loginRedirect.
  destruct mounted, loading; simpl;
    destruct (truthy user) eqn:Hu; simpl;
    repeat split; try discriminate; try reflexivity;
    try (intros; discriminate).
  all: destruct (displayName user) as [d | e]; simpl; try discriminate.
  all: destruct (firstNameOf d); simpl; discriminate.
Qed.

End LayoutFacts.

(** * Properties of the submit page *)

Section SubmitFacts.
Import Js Http JsString Submit.
Local Open Scope string_scope.

Variable toLowerCase : string -> string.
Variable trim : string -> string.
Variable toText : JsValue -> string.

Let detectLanguage := detectLanguage toLowerCase.
Let handleFileUpload := handleFileUpload toLowerCase.
Let fieldsMissing := fieldsMissing trim.
Let submitDisabled := submitDisabled trim.
Let submitted := submitted toText.
Let reviewRoute := reviewRoute toText.
Let handleSubmit := handleSubmit trim toText.

Lemma detect_by_extension (lang : Language) (base ext : string) :
  In lang SUPPORTED_LANGUAGES ->
  ~ has "." ext ->
  toLowerCase ext = slice1 (extension lang) ->
  detectLanguage (base ++ String "." ext) = Some lang.
Proof.
  intros Hin Hno Hlow. unfold detectLanguage, Submit.detectLanguage.
  rewrite pop_split_append by exact Hno. rewrite Hlow.
  simpl in Hin.
  repeat (destruct Hin as [<- | Hin]; [reflexivity |]).
  contradiction.
Qed.

(** X17.  A file of at most 1 MiB whose name ends in a dot and an extension
    that lower-cases to the extension of a supported language fills the
    form: the code is the text of the file, the language is that language,
    and an empty title becomes the name without its extension while a title
    already typed is kept; the error is left as it was.  A larger file
    changes nothing but the error message. *)
Theorem upload_fills_the_form
    (st : SubmitState) (f : File) (lang : Language) (base ext : string) :
  In lang SUPPORTED_LANGUAGES ->
  name f = base ++ String "." ext ->
  ext <> "" -> ~ has "." ext -> ~ has "/" ext ->
  toLowerCase ext = slice1 (extension lang) ->
  (size f <= 1024 * 1024 ->
   let st' := handleFileUpload st (Some f) in
   code st' = text f /\ language st' = value lang
   /\ title st' = (if String.eqb (title st) "" then base else title st)
   /\ error st' = error st /\ success st' = success st
   /\ isSubmitting st' = isSubmitting st)
  /\ (1024 * 1024 < size f ->
      let st' := handleFileUpload st (Some f) in
      sameForm st st' /\ error st' = "File size must be less than 1MB").
Proof.
  intros Hin Hname Hne Hdot Hslash Hlow.
  unfold handleFileUpload, Submit.handleFileUpload. split.
  - intros Hsize. apply Z.ltb_ge in Hsize. rewrite Hsize.
    unfold onload. fold detectLanguage.
    rewrite Hname, (detect_by_extension lang base ext Hin Hdot Hlow).
    rewrite (replaceExtension_cut base ext Hne Hslash Hdot).
    destruct (String.eqb (title st) ""); simpl; repeat split; reflexivity.
  - intros Hsize. apply Z.ltb_lt in Hsize. rewrite Hsize.
    unfold sameForm. simpl. repeat split; reflexivity.
Qed.

Lemma fallback_not_empty (message : string) :
  (if String.eqb message ""
   then "Failed to submit code for review. Please try again."
   else message) <> "".
Proof.
  destruct (String.eqb_spec message ""); [discriminate | assumption].
Qed.

(** X18.  With a signed-in user and an enabled submit button, the handler
    never changes the form, always ends with the submitting flag cleared,
    and ends in one of two states.  Either the request settled with an ok
    response whose body decodes: then the success flag is set, the progress
    is 100, the error is cleared and the page is sent to the review of the
    decoded result.  Or it did not: then the success flag is as before, the
    progress is 0, the error message is not empty and the page is sent
    nowhere. *)
Theorem submit_ends_in_success_or_error
    (st : SubmitState) (resp : FetchResult) :
  truthy (optGet (user st) "id") = true ->
  submitDisabled st = false ->
  let st' := fst (handleSubmit st resp) in
  let route := snd (handleSubmit st resp) in
  sameForm st st' /\ isSubmitting st' = false
  /\ ((exists r result,
         resp = Settled r /\ ok r = true /\ json r = Some result
         /\ success st' = true /\ uploadProgress st' = 100 /\ error st' = ""
         /\ route = Some (reviewRoute result))
      \/ ((forall r, resp = Settled r -> ok r = false \/ json r = None)
          /\ success st' = success st /\ uploadProgress st' = 0
          /\ error st' <> "" /\ route = None)).
Proof.
  intros Huser Hbutton. unfold submitDisabled, Submit.submitDisabled in Hbutton.
  apply orb_false_iff in Hbutton. destruct Hbutton as [_ Hfields].
  unfold handleSubmit, Submit.handleSubmit.
  rewrite Huser. simpl negb. cbv iota. rewrite Hfields.
  unfold sameForm.
  destruct resp as [msg | r]; simpl Submit.submitted.
  - simpl. split; [repeat split; reflexivity |]. split; [reflexivity |].
    right. split; [discriminate |].
    repeat split; try reflexivity. apply fallback_not_empty.
  - destruct (ok r) eqn:Hok; simpl negb; cbv iota.
    + unfold decodeJson. destruct (json r) as [result |] eqn:Hjson.
      * simpl. split; [repeat split; reflexivity |]. split; [reflexivity |].
        left. exists r, result. repeat split; try reflexivity; assumption.
      * simpl. split; [repeat split; reflexivity |]. split; [reflexivity |].
        right. split.
        { intros r' H. inversion H. subst. now right. }
        repeat split; try reflexivity. discriminate.
    + assert (Hthrow : exists message,
                 (errorData <- decodeJson r ;;
                  detail <- getMember errorData "detail" ;;
                  Throw (toText (js_or detail (JStr "Failed to submit code"))))
                 = (Throw message : Result JsValue)).
      { destruct (decodeJson r) as [errorData | e]; simpl; [| now exists e].
        destruct (getMember errorData "detail") as [detail | e]; simpl;
          eexists; reflexivity. }
      destruct Hthrow as [message ->]. simpl.
      split; [repeat split; reflexivity |]. split; [reflexivity |].
      right. split.
      { intros r' H. inversion H. subst. now left. }
      repeat split; try reflexivity. apply fallback_not_empty.
Qed.

(** X19.  While the user is not signed in or a required field is missing,
    submitting sends nothing: whatever the server would answer, the handler
    only sets a validation message.  The form, the flags and the progress
    stay as they were and the page is sent nowhere. *)
Theorem incomplete_submission_is_not_sent
    (st : SubmitState) (resp : FetchResult) :
  truthy (optGet (user st) "id") = false \/ fieldsMissing st = true ->
  let st' := fst (handleSubmit st resp) in
  sameForm st st' /\ isSubmitting st' = isSubmitting st
  /\ success st' = success st /\ uploadProgress st' = uploadProgress st
  /\ snd (handleSubmit st resp) = None
  /\ (error st' = "Please log in to submit code for review"
      \/ error st' = "Please fill in all required fields").
Proof.
  intros Hwhy. unfold handleSubmit, Submit.handleSubmit, sameForm.
  destruct (truthy (optGet (user st) "id")) eqn:Huser; simpl negb; cbv iota.
  - destruct Hwhy as [Hwhy | Hwhy]; [discriminate |].
    unfold fieldsMissing in Hwhy. rewrite Hwhy. simpl.
    repeat split; try reflexivity. now right.
  - simpl. repeat split; try reflexivity. now left.
Qed.

End SubmitFacts.

Section ImportFacts.
Import Js JsString Submit.
Local Open Scope string_scope.

Lemma importedTitle_text (githubPath : string) :
  importedTitle githubPath <> "" /\ ~ has "/" (importedTitle githubPath).
Proof.
  unfold importedTitle.
  destruct (pop_split "/" githubPath) as (piece & -> & Hno).
  destruct (String.eqb_spec (replaceExtension piece) "") as [He | Hne].
  - split; [discriminate |]. unfold has. simpl. intuition discriminate.
  - split; [exact Hne |].
    destruct (replaceExtension_prefix piece) as [cut Hcut].
    intros Hin. apply Hno. rewrite Hcut. apply has_append. now left.
Qed.

(** X21.  Importing with a repository and a path typed in always leaves a
    form that can be read: the title is not empty and has no slash, and it
    is the base name when the path ends in a slash-free base name, a dot
    and an extension; the code starts with the import comment; the method
    is back to pasting, the error is cleared and the submitting flag is
    off.  With the repository or the path empty, only the error is set. *)
Theorem import_fills_the_form (st : SubmitState) :
  (githubRepo st <> "" -> githubPath st <> "" ->
   let st' := handleGithubImport st in
   title st' <> "" /\ ~ has "/" (title st')
   /\ (forall dir base ext,
         githubPath st = dir ++ base ++ String "." ext ->
         (dir = "" \/ exists d, dir = d ++ "/") ->
         base <> "" -> ~ has "/" base ->
         ext <> "" -> ~ has "/" ext -> ~ has "." ext ->
         title st' = base)
   /\ (exists rest,
         code st' = "// Imported from GitHub: " ++ githubRepo st ++ "/"
                    ++ githubPath st ++ rest)
   /\ submissionMethod st' = "paste" /\ error st' = ""
   /\ isSubmitting st' = false /\ language st' = language st)
  /\ (githubRepo st = "" \/ githubPath st = "" ->
      let st' := handleGithubImport st in
      sameForm st st' /\ isSubmitting st' = isSubmitting st
      /\ error st' = "Please provide both repository and file path").
Proof.
  unfold handleGithubImport. split.
  - intros Hrepo Hpath.
    apply String.eqb_neq in Hrepo. apply String.eqb_neq in Hpath.
    rewrite Hrepo, Hpath. simpl.
    destruct (importedTitle_text (githubPath st)) as [Hne Hslash].
    split; [exact Hne |]. split; [exact Hslash |].
    split; [| split; [| repeat split; reflexivity]].
    + intros dir base ext Hsplit Hdir Hbase Hbs Hext Hes Hed.
      assert (Hpiece : pop (split "/" (githubPath st))
                       = Some (base ++ String "." ext)).
      { assert (Hnone : ~ has "/" (base ++ String "." ext)).
        { intros Hin. apply has_append in Hin. destruct Hin as [Hin | Hin];
            [tauto |].
          destruct Hin as [Hin | Hin]; [discriminate | tauto]. }
        rewrite Hsplit. destruct Hdir as [-> | [d ->]].
        - simpl. now rewrite split_without.
        - rewrite append_assoc_text. simpl. now apply pop_split_append. }
      unfold importedTitle. rewrite Hpiece.
      rewrite (replaceExtension_cut base ext Hext Hes Hed).
      apply String.eqb_neq in Hbase. now rewrite Hbase.
    + unfold mockContent. eexists. reflexivity.
  - intros Hwhy. unfold sameForm.
    assert (Hcond : String.eqb (githubRepo st) ""
                    || String.eqb (githubPath st) "" = true).
    { apply orb_true_iff. destruct Hwhy as [-> | ->]; [now left | now right]. }
    rewrite Hcond. simpl. repeat split; reflexivity.
Qed.

End ImportFacts.

(** * Properties of the rendering of the detail page *)

Section RenderFacts.
Import Js Http ReviewDetail DetailRender.
Local Open Scope string_scope.

Variable JSON_parse : string -> option JsValue.


Lemma rendered_delivered (id : string) auth r rd :
  id <> "" -> delivered auth r rd ->
  let st := useReviewDetail JSON_parse id auth (Settled r) in
  review st = formatDetailedReview rd (parseResults JSON_parse rd)
  /\ ReviewDetailPage st = DetailView (pageParts (review st)).
Proof.
  intros Hid Hd st. subst st.
  rewrite (useReviewDetail_delivered JSON_parse id auth r rd Hid Hd).
  split; reflexivity.
Qed.

(** X22.  A completed review whose resolved analysis is incomplete breaks
    the page: when the score is truthy and the analysis has no categories,
    or when its strengths or its improvements are not an array, a mounted
    card reads what is not there and the rendering throws, so neither the
    review nor the error alert is shown. *)
Theorem incomplete_analysis_breaks_the_page (id : string) auth r rd :
  id <> "" -> delivered auth r rd ->
  getProp rd "status" = JStr "completed" ->
  let st := useReviewDetail JSON_parse id auth (Settled r) in
  let analysis := getProp (review st) "ai_analysis" in
  analysis <> JUndefined ->
  (truthy (getProp rd "score") = true
   /\ nullish (getProp analysis "categories") = true)
  \/ isArray (getProp analysis "strengths") = false
  \/ isArray (getProp analysis "improvements") = false ->
  exists e, renderReviewDetailPage st = Throw e.
Proof.
  intros Hid Hd Hst st analysis Hresolved Hwhy. subst analysis.
  destruct (rendered_delivered id auth r rd Hid Hd) as [Hreview Hpage].
  fold st in Hreview, Hpage.
  destruct (rendered_iff st Hpage) as [Hiff [Hok | Hthrow]];
    [| exact Hthrow].
  exfalso. apply Hiff in Hok. destruct Hok as (_ & Hs & Ha & _).
  set (pr := parseResults JSON_parse rd) in *.
  pose proof (merged_status rd pr) as Hstatus.
  pose proof (merged_score rd pr) as Hscore.
  pose proof (merged_ai_analysis_resolved rd pr) as Hres.
  pose proof (merged_detailed_issues_truthy rd pr) as Hissues.
  assert (Hobj : nullish (review st) = false) by now rewrite Hreview.
  rewrite <- Hreview in Hstatus, Hscore, Hres, Hissues.
  clearbody st. clear Hreview Hpage Hiff.
  set (m := review st) in *. clearbody m.
  rewrite Hst in Hstatus.
  apply Hres in Hresolved.
  assert (Hna : nullish (getProp m "ai_analysis") = false)
    by now apply truthy_not_nullish.
  destruct Hwhy as [[Hscored Hcat] | Hlists].
  - assert (Hin : In ScoreOverview (pageParts m)).
    { apply ScoreOverview_mounted. unfold showScoreOverview, js_and.
      rewrite Hstatus, Hscore. simpl. now rewrite Hscored. }
    apply Hs in Hin. apply (evalScoreOverview_ok m Hobj Hna) in Hin.
    destruct Hin as [Hin _]. congruence.
  - assert (Hin : In AiAnalysisCard (pageParts m)).
    { apply AiAnalysisCard_mounted. unfold showAiAnalysis, js_and.
      rewrite Hstatus. simpl. now rewrite Hresolved. }
    apply Ha in Hin.
    apply (evalAiAnalysisCard_ok m Hobj Hna
             (truthy_not_nullish _ Hissues)) in Hin.
    destruct Hin as [[H1 H2] _]. destruct Hlists; congruence.
Qed.


End RenderFacts.

(** * The further properties on sample inputs *)

Section MoreOnSamples.
Import Js Http JsString JsObject Samples MoreSamples.
Local Open Scope string_scope.

Lemma R8_is_not_empty : "R8" <> "".
Proof. discriminate. Defined.


(** X1 on a request that the network drops. *)
Lemma fetch_settles_in_review_or_error_offline :
  "R8" <> ""
  /\ ReviewDetail.loading
       (ReviewDetail.useReviewDetail Platform.JSON_parse "R8" signedIn
          (NetworkFailure "offline")) = false
  /\ DetailRender.renderReviewDetailPage
       (ReviewDetail.useReviewDetail Platform.JSON_parse "R8" signedIn
          (NetworkFailure "offline"))
     = Ok (ReviewDetail.ErrorAlert "Failed to fetch review details").
Proof.
  split; [exact R8_is_not_empty |].
  destruct (fetch_settles_in_review_or_error Platform.JSON_parse "R8" signedIn
              (NetworkFailure "offline") R8_is_not_empty)
    as [Hload [(r & rd & Hresp & _) | (_ & _ & Hpage)]].
  - discriminate Hresp.
  - split; [exact Hload | exact Hpage].
Defined.

(** X2 on the scenario of section 8. *)
Lemma merged_review_keys_R1 :
  NoDup (keys (ownProps reviewR1))
  /\ NoDup (keys (ownProps
                    (ReviewDetail.formatDetailedReview reviewR1
                       (ReviewDetail.parseResults Platform.JSON_parse
                          reviewR1)))).
Proof.
  assert (Hnd : NoDup (keys (ownProps reviewR1))).
  { repeat constructor; simpl; intuition discriminate. }
  split; [exact Hnd |].
  exact (proj2 (proj2 (merged_review_keys reviewR1
                         (ReviewDetail.parseResults Platform.JSON_parse
                            reviewR1))) Hnd).
Defined.

(** X3 on the failed review, whose submission has a code. *)
Lemma merged_code_is_never_missing_R8 :
  truthy (optGet (getProp reviewR8 "code_data") "code") = true
  /\ getProp (ReviewDetail.formatDetailedReview reviewR8 JNull) "code"
     = JStr "x = (".
Proof.
  split; [reflexivity |].
  exact (proj1 (proj2 (merged_code_is_never_missing reviewR8 JNull)) eq_refl).
Defined.


(** X7 on the scores 6.5 and 8. *)
Lemma score_color_is_monotone_scores :
  QArith_base.Qle (QArith_base.Qmake 13 2) (QArith_base.inject_Z 8)
  /\ (DetailHelpers.band
        (DetailHelpers.getScoreColor (QArith_base.Qmake 13 2))
      <= DetailHelpers.band
           (DetailHelpers.getScoreColor (QArith_base.inject_Z 8)))%nat.
Proof.
  assert (Hle : QArith_base.Qle (QArith_base.Qmake 13 2)
                  (QArith_base.inject_Z 8)).
  { unfold QArith_base.Qle. simpl. lia. }
  split; [exact Hle |].
  exact (proj1 (score_color_is_monotone (QArith_base.Qmake 13 2)
                  (QArith_base.inject_Z 8)) Hle).
Defined.

(** X8 on a review that took 125.5 seconds. *)
Lemma processing_time_adds_up_two_minutes :
  truthy (JInt 126500) = true
  /\ exists m s,
       DetailHelpers.calculateProcessingTime Platform.Date_getTime
         (JInt 1000) (JInt 126500)
       = Some (showInt m ++ "m " ++ showInt s ++ "s")
       /\ 0 <= s < 60 /\ 60 * m + s = 125.
Proof.
  split; [reflexivity |].
  destruct (proj2 (processing_time_adds_up Platform.Date_getTime
                     (JInt 1000) (JInt 126500) 1000 126500)
              eq_refl eq_refl eq_refl) as (m & s & Hc & Hpos & _).
  exists m, s. split; [exact Hc |].
  assert (Hle : 1000 <= 126500) by lia.
  destruct (Hpos Hle) as (_ & Hs & Hsum).
  split; [exact Hs | exact Hsum].
Defined.

(** X9 on four issues of which one has another severity. *)
Lemma priority_counts_partition_issues :
  Forall (fun i => nullish i = false) (elements issues)
  /\ exists high medium low,
       DetailHelpers.priorityCounts (JArr (elements issues))
       = Ok (high, medium, low)
       /\ (high + medium + low <= 4)%nat.
Proof.
  assert (Hobj : Forall (fun i => nullish i = false) (elements issues)).
  { repeat constructor. }
  split; [exact Hobj |].
  destruct (proj1 (priority_counts_partition (elements issues)) Hobj)
    as (high & medium & low & Hc & Hle & _).
  exists high, medium, low. split; [exact Hc | exact Hle].
Defined.

(** X10 on rows of which one is [null], with the empty query. *)
Lemma filter_returns_the_accepted_rows_all :
  History.filterM
    (History.keepRow Platform.toLowerCase (searching "" "newest"))
    rowsWithNull
  = Ok rowsWithNull.
Proof.
  exact (proj2 (filter_returns_the_accepted_rows Platform.toLowerCase
                  (searching "" "newest") rowsWithNull) eq_refl eq_refl).
Defined.

(** X11 on three dated rows, newest first. *)
Lemma sort_orders_rows_by_date_rows :
  Forall (fun r => Contract.timeOf Platform.Date_getTime r <> None) datedRows
  /\ exists out,
       History.sortRows (History.compareRows Platform.Date_getTime "newest")
         datedRows = Ok out
       /\ Permutation out datedRows.
Proof.
  split; [exact datedRows_are_dated |].
  destruct (sort_orders_rows_by_date Platform.Date_getTime "newest" datedRows
              datedRows_are_dated) as (out & Hout & Hperm & _).
  exists out. split; [exact Hout | exact Hperm].
Defined.

(** X12 on a history whose second row is [null]. *)
Lemma null_row_breaks_the_history_page_rows :
  History.deref (History.history (searching "" "newest")) [rowsWithNull]
  = Ok rowsWithNull
  /\ In JNull rowsWithNull
  /\ exists e,
       History.HistoryPage Platform.toLowerCase Platform.Date_getTime
         (searching "" "newest") [rowsWithNull] = Throw e.
Proof.
  assert (Hin : In JNull rowsWithNull) by (right; left; reflexivity).
  split; [reflexivity |]. split; [exact Hin |].
  exact (null_row_breaks_the_history_page Platform.toLowerCase
           Platform.Date_getTime (searching "" "newest") [rowsWithNull]
           rowsWithNull eq_refl Hin eq_refl).
Defined.


(** X15 on a user with a full name. *)
Lemma shown_names_are_never_empty_ada :
  nullish someUser = false
  /\ exists d f,
       Layout.displayName someUser = Ok (JStr d)
       /\ Layout.firstName someUser = Ok (JStr f).
Proof.
  split; [reflexivity |].
  apply (proj2 (proj2 (shown_names_are_never_empty someUser)));
    [reflexivity | | right; eexists; reflexivity].
  intros k [<- | [<- | []]];
    [right; eexists; reflexivity | left; reflexivity].
Defined.

(** X22 on the scenario of section 8: a score of 8 and an analysis that is
    only a summary. *)
Lemma incomplete_analysis_breaks_the_page_R1 :
  "R1" <> ""
  /\ ReviewDetail.delivered signedIn (response200 bodyR1) reviewR1
  /\ getProp reviewR1 "status" = JStr "completed"
  /\ getProp
       (ReviewDetail.review
          (ReviewDetail.useReviewDetail Platform.JSON_parse "R1" signedIn
             (Settled (response200 bodyR1)))) "ai_analysis"
     = JObj [("summary", JStr "ok")]
  /\ exists e,
       DetailRender.renderReviewDetailPage
         (ReviewDetail.useReviewDetail Platform.JSON_parse "R1" signedIn
            (Settled (response200 bodyR1))) = Throw e.
Proof.
  split; [exact R1_is_not_empty |]. split; [exact delivered_R1 |].
  split; [reflexivity |]. split; [reflexivity |].
  apply (incomplete_analysis_breaks_the_page Platform.JSON_parse "R1"
           signedIn (response200 bodyR1) reviewR1 R1_is_not_empty
           delivered_R1 eq_refl).
  - vm_compute. discriminate.
  - left. split; reflexivity.
Defined.



Lemma PY_has_no_dot : ~ has "." "PY".
Proof. unfold has. simpl. intuition discriminate. Defined.

Lemma PY_has_no_slash : ~ has "/" "PY".
Proof. unfold has. simpl. intuition discriminate. Defined.

(** X17 on a Python file whose extension is in capitals, uploaded into the
    empty form. *)
Lemma upload_fills_the_form_python :
  In python Submit.SUPPORTED_LANGUAGES
  /\ Submit.name mainPy = "Main.v2" ++ String "." "PY"
  /\ Platform.toLowerCase "PY" = slice1 (Submit.extension python)
  /\ Submit.size mainPy <= 1024 * 1024
  /\ Submit.code
       (Submit.handleFileUpload Platform.toLowerCase Submit.initialState
          (Some mainPy)) = "print(1)"
  /\ Submit.language
       (Submit.handleFileUpload Platform.toLowerCase Submit.initialState
          (Some mainPy)) = "python"
  /\ Submit.title
       (Submit.handleFileUpload Platform.toLowerCase Submit.initialState
          (Some mainPy)) = "Main.v2".
Proof.
  assert (Hin : In python Submit.SUPPORTED_LANGUAGES)
    by (right; right; left; reflexivity).
  assert (Hne : "PY" <> "") by discriminate.
  assert (Hsize : Submit.size mainPy <= 1024 * 1024) by (simpl; lia).
  split; [exact Hin |]. split; [reflexivity |]. split; [reflexivity |].
  split; [exact Hsize |].
  destruct (proj1 (upload_fills_the_form Platform.toLowerCase
                     Submit.initialState mainPy python "Main.v2" "PY"
                     Hin eq_refl Hne PY_has_no_dot PY_has_no_slash eq_refl)
              Hsize) as (Hcode & Hlang & Htitle & _).
  split; [exact Hcode |]. split; [exact Hlang | exact Htitle].
Defined.

(** X18 on the filled form and an answer that names the new review. *)
Lemma submit_ends_in_success_or_error_R9 :
  truthy (optGet (Submit.user filledForm) "id") = true
  /\ Submit.submitDisabled trim filledForm = false
  /\ Submit.success
       (fst (Submit.handleSubmit trim toText filledForm
               (Settled (response200 bodySubmitted)))) = true
  /\ Submit.error
       (fst (Submit.handleSubmit trim toText filledForm
               (Settled (response200 bodySubmitted)))) = ""
  /\ snd (Submit.handleSubmit trim toText filledForm
            (Settled (response200 bodySubmitted)))
     = Some (Ok "/dashboard/review/R9").
Proof.
  split; [reflexivity |]. split; [reflexivity |].
  destruct (submit_ends_in_success_or_error trim toText filledForm
              (Settled (response200 bodySubmitted)) eq_refl eq_refl)
    as (_ & _ & [(r & result & Hr & _ & Hj & Hs & _ & He & Hroute)
                | (Hbad & _)]).
  - split; [exact Hs |]. split; [exact He |].
    rewrite Hroute. inversion Hr. subst r. inversion Hj. reflexivity.
  - destruct (Hbad _ eq_refl) as [H | H]; discriminate H.
Defined.

(** X19 on the empty form of a visitor who is not signed in. *)
Lemma incomplete_submission_is_not_sent_visitor :
  truthy (optGet (Submit.user Submit.initialState) "id") = false
  /\ snd (Submit.handleSubmit trim toText Submit.initialState
            (Settled (response200 bodySubmitted))) = None
  /\ Submit.success
       (fst (Submit.handleSubmit trim toText Submit.initialState
               (Settled (response200 bodySubmitted)))) = false.
Proof.
  split; [reflexivity |].
  destruct (incomplete_submission_is_not_sent trim toText Submit.initialState
              (Settled (response200 bodySubmitted)) (or_introl eq_refl))
    as (_ & _ & Hs & _ & Hroute & _).
  split; [exact Hroute | exact Hs].
Defined.

Lemma ts_has_no_dot : ~ has "." "ts".
Proof. unfold has. simpl. intuition discriminate. Defined.

Lemma ts_has_no_slash : ~ has "/" "ts".
Proof. unfold has. simpl. intuition discriminate. Defined.

(** X20 on a name with two dots. *)
Lemma extension_is_cut_off_two_dots :
  "ts" <> "" /\ ~ has "/" "ts" /\ ~ has "." "ts"
  /\ replaceExtension ("util.test" ++ String "." "ts") = "util.test".
Proof.
  assert (Hne : "ts" <> "") by discriminate.
  split; [exact Hne |]. split; [exact ts_has_no_slash |].
  split; [exact ts_has_no_dot |].
  exact (proj1 (extension_is_cut_off "util.test" "ts") Hne ts_has_no_slash
           ts_has_no_dot).
Defined.

(** X21 on a path of three pieces. *)
Lemma import_fills_the_form_util :
  Submit.githubRepo filledForm <> "" /\ Submit.githubPath filledForm <> ""
  /\ Submit.title (Submit.handleGithubImport filledForm) = "util.test"
  /\ Submit.error (Submit.handleGithubImport filledForm) = "".
Proof.
  assert (Hrepo : Submit.githubRepo filledForm <> "") by discriminate.
  assert (Hpath : Submit.githubPath filledForm <> "") by discriminate.
  split; [exact Hrepo |]. split; [exact Hpath |].
  destruct (proj1 (import_fills_the_form filledForm) Hrepo Hpath)
    as (_ & _ & Htitle & _ & _ & Herr & _).
  split; [| exact Herr].
  apply (Htitle "src/lib/" "util.test" "ts").
  - reflexivity.
  - right. now exists "src/lib".
  - discriminate.
  - unfold has. simpl. intuition discriminate.
  - discriminate.
  - exact ts_has_no_slash.
  - exact ts_has_no_dot.
Defined.

End MoreOnSamples.
